(** * rtk.task: check-then-process tasks over a filesystem ledger

    A shallow embedding of [rtk/task.py].  Python objects mutated by their
    methods become records threaded through a small state-and-exception
    monad; the filesystem is a finite map from the paths of regular files to
    their contents, a path being the key as it is spelled (directories, and
    a second spelling of the path of a file, are not represented); the
    collaborators of [rtk.utils], [subprocess] and [csv] are parameters.

    [ThreadPoolExecutor.map] queues the whole batch at once and yields the
    results in input order.  The pool is modelled with its calls serialised
    in queue order, which is what one worker does; a statement that depends
    on the order of the calls says so.  When the caller stops taking results,
    because a result raises or Ctrl-C arrives, queued items may still run:
    how many do is a fact of the world.  A Ctrl-C is an event of the world
    too: it is delivered when a given number of results have been taken and
    finds the files that workers in flight have written so far.  The world
    keeps, as ghost state, the inputs handed to [executor.map] and the
    arguments of every call of a work function.  The worker count is a
    positive natural number; a negative [multiprocess], on which the pool
    raises [ValueError], is outside the model. *)

From Stdlib Require Import ZArith Ascii String List Bool Lia.
From stdpp Require Import gmap strings list.

Local Open Scope string_scope.
Local Open Scope list_scope.

(** ** Python string builtins used by the tasks *)

Module PyStr.

(** [s.startswith(p)] *)
Fixpoint startswith (p s : string) : bool :=
  match p, s with
  | EmptyString, _ => true
  | String a p', String b s' => if Ascii.eqb a b then startswith p' s' else false
  | String _ _, EmptyString => false
  end.

(** [needle in hay] *)
Fixpoint contains (needle hay : string) : bool :=
  startswith needle hay ||
  match hay with
  | EmptyString => false
  | String _ hay' => contains needle hay'
  end.

(** Left-to-right scan of [s.replace(old, new)] for a non-empty [old]:
    [skip] counts the characters of a match that are still to be dropped. *)
Fixpoint replace_scan (old new s : string) (skip : nat) : string :=
  match s with
  | EmptyString => EmptyString
  | String c s' =>
      match skip with
      | S k => replace_scan old new s' k
      | O =>
          if startswith old s
          then new +:+ replace_scan old new s' (String.length old - 1)
          else String c (replace_scan old new s' 0)
      end
  end.

(** With an empty [old], Python inserts [new] before every character and
    at the end. *)
Fixpoint interleave (new s : string) : string :=
  match s with
  | EmptyString => new
  | String c s' => new +:+ String c (interleave new s')
  end.

(** [s.replace(old, new)] *)
Definition replace (old new s : string) : string :=
  match old with
  | EmptyString => interleave new s
  | String _ _ => replace_scan old new s 0
  end.

(** [s.split(sep)] for a one-character separator. *)
Fixpoint split (sep : ascii) (s : string) : list string :=
  match s with
  | EmptyString => [EmptyString]
  | String c s' =>
      if Ascii.eqb c sep then EmptyString :: split sep s'
      else match split sep s' with
           | h :: t => String c h :: t
           | [] => [String c EmptyString]
           end
  end.

(** [l[-k]] for [k >= 1]; [None] stands for [IndexError]. *)
Definition index_from_end {A} (l : list A) (k : nat) : option A :=
  if (k =? 0)%nat then None
  else if (k <=? length l)%nat then l !! (length l - k)%nat
  else None.

(** [s[i]] on a string: the one-character string at position [i]. *)
Definition char_at (s : string) (i : nat) : option string :=
  match String.get i s with
  | Some c => Some (String c EmptyString)
  | None => None
  end.

(** [s.endswith(p)] *)
Fixpoint endswith (p s : string) : bool :=
  String.eqb p s ||
  match s with
  | EmptyString => false
  | String _ s' => endswith p s'
  end.

(** [s.rfind(c)] for a character, as an index from the left. *)
Fixpoint rfind (c : ascii) (s : string) : option nat :=
  match s with
  | EmptyString => None
  | String a s' =>
      match rfind c s' with
      | Some i => Some (S i)
      | None => if Ascii.eqb a c then Some 0%nat else None
      end
  end.

(** [s[:n]] *)
Definition take (n : nat) (s : string) : string := String.substring 0 n s.

(** [s[a:b]] for [a <= b] *)
Definition slice (a b : nat) (s : string) : string := String.substring a (b - a) s.

(** Every character of [s] equals [c]. *)
Fixpoint all_chars (c : ascii) (s : string) : bool :=
  match s with
  | EmptyString => true
  | String a s' => Ascii.eqb a c && all_chars c s'
  end.

End PyStr.

(** ** [os.path] (POSIX flavour) *)

Module OsPath.

(** [os.path.join(a, b)] *)
Definition join (a b : string) : string :=
  if PyStr.startswith "/" b then b
  else if String.eqb a "" || PyStr.endswith "/" a then a +:+ b
  else a +:+ "/" +:+ b.

(** [os.path.splitext(p)[0]]: cut at the last dot when it lies in the last
    path component and some character before it in that component is not
    a dot. *)
Definition splitext_root (p : string) : string :=
  match PyStr.rfind "." p with
  | None => p
  | Some dotIndex =>
      let filenameIndex :=
        match PyStr.rfind "/" p with Some sepIndex => S sepIndex | None => 0%nat end in
      if (filenameIndex <=? dotIndex)%nat
      then if PyStr.all_chars "." (PyStr.slice filenameIndex dotIndex p)
           then p
           else PyStr.take dotIndex p
      else p
  end.

End OsPath.

(** ** Values, exceptions and the state-and-exception monad *)

(** [InputType = Union[str, Tuple[str, str]]] *)
Inductive InputType :=
| IStr (s : string)
| IPair (uri directory : string).

#[global] Instance InputType_eq_dec : EqDecision InputType.
Proof. solve_decision. Defined.

(** Elements of [output_files]: strings, or tuples built from CSV rows. *)
Inductive PyVal :=
| VStr (s : string)
| VTuple (row : list string).

#[global] Instance PyVal_eq_dec : EqDecision PyVal.
Proof. solve_decision. Defined.

Definition to_val (x : InputType) : PyVal :=
  match x with
  | IStr s => VStr s
  | IPair u d => VTuple [u; d]
  end.

Inductive exn :=
| NotImplementedError
| NameError (msg : string)
| TypeError
| IndexError
| ValueError
| AttributeError
| FileNotFoundError
| InterruptedError
| KeyboardInterrupt
| UnicodeDecodeError.

#[global] Instance exn_eq_dec : EqDecision exn.
Proof. solve_decision. Defined.

Inductive Res (A : Type) :=
| Ok (a : A)
| Raise (e : exn).
Arguments Ok {A} a.
Arguments Raise {A} e.

#[global] Instance Res_ret : MRet Res := fun _ a => Ok a.
#[global] Instance Res_bind : MBind Res := fun _ _ k r =>
  match r with
  | Ok a => k a
  | Raise e => Raise e
  end.

#[global] Instance Res_fmap : FMap Res := fun _ _ f r =>
  match r with
  | Ok a => Ok (f a)
  | Raise e => Raise e
  end.

Definition is_ok {A} (r : Res A) : bool :=
  match r with Ok _ => true | Raise _ => false end.

(** [Py S A]: a computation over mutable state [S] that returns an [A] or
    raises; the state reached at a raise is kept, as a mutated Python object
    keeps its mutations when an exception propagates. *)
Definition Py (S A : Type) : Type := S -> Res A * S.

#[global] Instance Py_ret {S} : MRet (Py S) := fun _ a s => (Ok a, s).
#[global] Instance Py_bind {S} : MBind (Py S) := fun _ _ k m s =>
  match m s with
  | (Ok a, s') => k a s'
  | (Raise e, s') => (Raise e, s')
  end.

Definition raise {S A} (e : exn) : Py S A := fun s => (Raise e, s).
Definition get {S} : Py S S := fun s => (Ok s, s).
Definition gets {S A} (f : S -> A) : Py S A := fun s => (Ok (f s), s).
Definition modify {S} (f : S -> S) : Py S unit := fun s => (Ok tt, f s).
Definition lift_res {S A} (r : Res A) : Py S A := fun s => (r, s).

(** [try: c  except e: h] *)
Definition try_except {S A} (c : Py S A) (e : exn) (h : Py S A) : Py S A :=
  fun s =>
    match c s with
    | (Raise e', s') => if decide (e' = e) then h s' else (Raise e', s')
    | r => r
    end.

(** [for x in xs: body(x)] *)
Fixpoint for_each {S A} (xs : list A) (body : A -> Py S unit) : Py S unit :=
  match xs with
  | [] => mret tt
  | x :: xs' => body x ;; for_each xs' body
  end.

(** [[f(x) for x in xs]] with an [f] that may raise. *)
Fixpoint map_res {A B} (f : A -> Res B) (xs : list A) : Res (list B) :=
  match xs with
  | [] => Ok []
  | x :: xs' => y ← f x; ys ← map_res f xs'; mret (y :: ys)
  end.

(** A local variable [l] of a method body, live across [try]/[except]. *)
Definition with_local {L S A} (l0 : L) (c : Py (L * S) A) : Py S A :=
  fun s => let '(r, (_, s')) := c (l0, s) in (r, s').
Definition get_local {L S} : Py (L * S) L := gets fst.
Definition modify_local {L S} (f : L -> L) : Py (L * S) unit :=
  modify (fun ls => (f ls.1, ls.2)).

(** ** Ordered dictionaries ([Dict[InputType, bool]])

    Python dictionaries iterate in insertion order and an assignment to an
    existing key keeps its position. *)

Module Dict.
Section dict.
Context {K V : Type} `{EqDecision K}.

Fixpoint set (k : K) (v : V) (d : list (K * V)) : list (K * V) :=
  match d with
  | [] => [(k, v)]
  | (k', v') :: d' =>
      if decide (k' = k) then (k, v) :: d' else (k', v') :: set k v d'
  end.

Fixpoint lookup (k : K) (d : list (K * V)) : option V :=
  match d with
  | [] => None
  | (k', v') :: d' => if decide (k' = k) then Some v' else lookup k d'
  end.

Definition keys (d : list (K * V)) : list K := d.*1.
End dict.
End Dict.

(** ** The world outside the task objects *)

(** What a work function is called with: an input, or an input (or its
    URI) paired with the path to write. *)
Inductive WorkItem :=
| Plain (inp : InputType)
| WithTarget (src : InputType) (target : string).

#[global] Instance WorkItem_eq_dec : EqDecision WorkItem.
Proof. solve_decision. Defined.

(** The items a pool can be given. *)
Class AsWorkItem (A : Type) := as_item : A -> WorkItem.
#[global] Instance input_as_item : AsWorkItem InputType := Plain.
#[global] Instance fetch_as_item : AsWorkItem (string * string) :=
  fun item => WithTarget (IStr item.1) item.2.
#[global] Instance manifest_as_item : AsWorkItem (InputType * string) :=
  fun item => WithTarget item.1 item.2.

Record World := MkWorld {
  fs : gmap string string;          (* regular files: path -> content *)
  stdout : list string;             (* lines written by [print] *)
  submitted : list InputType;       (* ghost: inputs handed to [executor.map] *)
  sigint : option (nat * list (string * string));
    (* a pending Ctrl-C: number of results still consumed before it is
       delivered, and the partial files in-flight workers have written *)
  calls : list WorkItem;
    (* ghost: the argument of every call of a work function, in call order *)
  overrun : nat
    (* how many queued work items the pool still runs once the caller has
       stopped taking results *)
}.

(** A world in which no work function has been called yet and the pool
    drops its queue as soon as the caller stops. *)
Definition mkWorld (fs : gmap string string) (stdout : list string)
    (submitted : list InputType) (sigint : option (nat * list (string * string)))
  : World :=
  MkWorld fs stdout submitted sigint [] 0.

Definition exists_ (p : string) (m : gmap string string) : bool :=
  bool_decide (is_Some (m !! p)).

Definition set_fs (m : gmap string string) (w : World) : World :=
  MkWorld m (stdout w) (submitted w) (sigint w) (calls w) (overrun w).
Definition add_stdout (line : string) (w : World) : World :=
  MkWorld (fs w) (stdout w ++ [line]) (submitted w) (sigint w) (calls w) (overrun w).
Definition add_submitted (xs : list InputType) (w : World) : World :=
  MkWorld (fs w) (stdout w) (submitted w ++ xs) (sigint w) (calls w) (overrun w).
Definition set_sigint (i : option (nat * list (string * string))) (w : World) : World :=
  MkWorld (fs w) (stdout w) (submitted w) i (calls w) (overrun w).
Definition add_call (item : WorkItem) (w : World) : World :=
  MkWorld (fs w) (stdout w) (submitted w) (sigint w) (calls w ++ [item]) (overrun w).
Definition set_overrun (n : nat) (w : World) : World :=
  MkWorld (fs w) (stdout w) (submitted w) (sigint w) (calls w) n.

(** Files of [partial] written over [m]. *)
Definition write_all (partial : list (string * string)) (m : gmap string string)
  : gmap string string :=
  foldl (fun acc kv => <[kv.1 := kv.2]> acc) m partial.

(** [for x in xs: acc = body(acc, x)], for a local variable updated by the
    loop body. *)
Fixpoint for_fold {S A B} (xs : list A) (acc : B) (body : B -> A -> Py S B) : Py S B :=
  match xs with
  | [] => mret acc
  | x :: xs' => acc' ← body acc x; for_fold xs' acc' body
  end.

(** ** The [Task] base class *)

Record Task := mkTask {
  input_files : list InputType;
  command : option string;
  _checked_files : list (InputType * bool);
  workers : nat
}.

(** [Task.__init__]; [multiprocess or 1] also maps [0] to [1]. *)
Definition Task_init (input_files : list InputType) (command : option string)
    (multiprocess : option nat) : Task :=
  mkTask input_files command []
    (match multiprocess with
     | Some (S n) => S n
     | Some O | None => 1%nat
     end).

Definition set_checked (k : InputType) (v : bool) (t : Task) : Task :=
  mkTask (input_files t) (command t) (Dict.set k v (_checked_files t)) (workers t).

(** What a subclass of [Task] provides.  Methods run on the object and the
    world; [output_files] is a read-only property. *)
Class TaskClass (T : Type) := {
  super : T -> Task;
  check : Py (T * World) bool;
  _process : list InputType -> Py (T * World) (option bool);
  output_files : T -> gmap string string -> Res (list PyVal)
}.

(** A method body runs in a frame: the object, the world, and possibly
    local variables stacked on top by [with_local]. *)
Class Frame (St T : Type) := {
  frame_self : St -> T;
  frame_world : St -> World;
  frame_upd_self : (T -> T) -> St -> St;
  frame_upd_world : (World -> World) -> St -> St
}.

#[global] Instance method_frame {T} : Frame (T * World) T := {
  frame_self := fst;
  frame_world := snd;
  frame_upd_self := fun f s => (f s.1, s.2);
  frame_upd_world := fun f s => (s.1, f s.2)
}.

#[global] Instance local_frame {L St T} `{Frame St T} : Frame (L * St) T := {
  frame_self := fun ls => frame_self ls.2;
  frame_world := fun ls => frame_world ls.2;
  frame_upd_self := fun f ls => (ls.1, frame_upd_self f ls.2);
  frame_upd_world := fun f ls => (ls.1, frame_upd_world f ls.2)
}.

Section methods.
Context {St T : Type} `{Frame St T}.

Definition self : Py St T := gets frame_self.
Definition modify_self (f : T -> T) : Py St unit := modify (frame_upd_self f).
Definition world_fs : Py St (gmap string string) :=
  gets (fun s => fs (frame_world s)).
Definition modify_world (f : World -> World) : Py St unit :=
  modify (frame_upd_world f).
Definition modify_fs (f : gmap string string -> gmap string string) : Py St unit :=
  modify_world (fun w => set_fs (f (fs w)) w).
Definition print (line : string) : Py St unit :=
  modify_world (add_stdout line).

Section pool.
Context {A B : Type} `{AsWorkItem A}.
Variable work : A -> Py St B.

(** The pool calls the work function on an item. *)
Definition call (item : A) : Py St B :=
  modify_world (add_call (as_item item));; work item.

(** Items that run with nobody left to take their result: what they return
    or raise is dropped with their future. *)
Fixpoint run_detached (items : list A) : Py St unit :=
  match items with
  | [] => mret tt
  | item :: rest => fun s => run_detached rest (call item s).2
  end.

(** The caller stops taking results while [queued] items are waiting: the
    pool still runs the first [overrun] of them, the others are cancelled. *)
Definition abandon (queued : list A) : Py St unit :=
  w ← gets frame_world;
  run_detached (take (overrun w) queued).

(** [m], and the queue abandoned if it raises. *)
Definition or_abandon {R} (queued : list A) (m : Py St R) : Py St R :=
  fun s =>
    match m s with
    | (Raise e, s') => (abandon queued;; raise e) s'
    | r => r
    end.

(** A pending Ctrl-C is delivered once its countdown has run out: the queue
    is abandoned, the files that workers in flight have written are there,
    and [KeyboardInterrupt] is raised in the caller. *)
Definition deliver_sigint (queued : list A) : Py St unit :=
  w ← gets frame_world;
  match sigint w with
  | None => mret tt
  | Some (O, partial) =>
      abandon queued;;
      modify_world (fun w => set_sigint None (set_fs (write_all partial (fs w)) w));;
      raise KeyboardInterrupt
  | Some (S n, partial) => modify_world (set_sigint (Some (n, partial)))
  end.

(** [for r in executor.map(work, items): consume(r)]: the whole batch is
    queued, the results come in input order, and the interrupt is looked for
    before each result. *)
Fixpoint executor_map (items : list A) (consume : B -> Py St unit) : Py St unit :=
  match items with
  | [] => mret tt
  | item :: rest =>
      deliver_sigint items;;
      r ← or_abandon rest (call item);
      or_abandon rest (consume r);;
      executor_map rest consume
  end.

End pool.

End methods.

(** A loop body that only advances the progress bar (or appends to a local
    list that is never read). *)
Definition ignore_result {St A} (r : A) : Py St unit := mret tt.

(** [Task.process] *)
Definition process {T} `{TaskClass T} : Py (T * World) (option bool) :=
  check;;
  t ← self;
  let requires_processing :=
    (filter (fun item : InputType * bool => negb item.2) (_checked_files (super t))).*1 in
  if (length requires_processing =? 0)%nat
  then print "Nothing to process here.";; mret (Some true)
  else _process requires_processing.

(** The abstract base class itself: every method raises. *)
#[global] Instance Task_class : TaskClass Task := {
  super := id;
  check := raise NotImplementedError;
  _process := fun _ => raise NotImplementedError;
  output_files := fun _ _ => Raise NotImplementedError
}.

(** [file[i]] on an [InputType]: a tuple component, or a character of a
    bare string. *)
Definition getitem (file : InputType) (i : nat) : Res string :=
  match file with
  | IPair u d =>
      match i with
      | 0%nat => Ok u
      | 1%nat => Ok d
      | _ => Raise IndexError
      end
  | IStr s =>
      match PyStr.char_at s i with
      | Some c => Ok c
      | None => Raise IndexError
      end
  end.

(** [a, b = file] *)
Definition unpack2 (file : InputType) : Res (string * string) :=
  match file with
  | IPair u d => Ok (u, d)
  | IStr s =>
      match PyStr.char_at s 0, PyStr.char_at s 1, PyStr.char_at s 2 with
      | Some a, Some b, None => Ok (a, b)
      | _, _, _ => Raise ValueError
      end
  end.

(** [if file:] on a value a worker returned. *)
Definition truthy (r : option InputType) : bool :=
  match r with
  | None | Some (IStr EmptyString) => false
  | Some _ => true
  end.

(** [done.append(file)] *)
Definition append_result (done : list InputType) (r : option InputType) : list InputType :=
  match r with
  | Some v => done ++ [v]
  | None => done
  end.

(** A path argument of [os.path] or [open]: a tuple is a [TypeError]. *)
Definition as_path (file : InputType) : Res string :=
  match file with
  | IStr s => Ok s
  | IPair _ _ => Raise TypeError
  end.

(** ** [DownloadIIIFImageTask] *)

Module DownloadIIIFImageTask.

Record t := mk {
  task : Task;
  downstream_check : option (InputType -> gmap string string -> bool);
  _output_files : list InputType
}.

Definition __init__ (input_files : list InputType) (command : option string)
    (multiprocess : option nat)
    (downstream_check : option (InputType -> gmap string string -> bool)) : t :=
  mk (Task_init input_files command multiprocess) downstream_check [].

Definition set_checked (k : InputType) (v : bool) (x : t) : t :=
  mk (set_checked k v (task x)) (downstream_check x) (_output_files x).
Definition extend_output (fs_ : list InputType) (x : t) : t :=
  mk (task x) (downstream_check x) (_output_files x ++ fs_).

(** [os.path.join(file[1], file[0].split("/")[-5] + ".jpg")] *)
Definition rename_download (file : InputType) : Res string :=
  directory ← getitem file 1;
  uri ← getitem file 0;
  match PyStr.index_from_end (PyStr.split "/" uri) 5 with
  | Some segment => Ok (OsPath.join directory (segment +:+ ".jpg"))
  | None => Raise IndexError
  end.

Definition output_files (x : t) : Res (list PyVal) :=
  map_res (fun file => VStr <$> rename_download file) (_output_files x).

(** One turn of the loop of [check]; the result is the new [all_done]. *)
Definition check_item (x : t) (all_done : bool) (file : InputType) : Py (t * World) bool :=
  out_file ← lift_res (rename_download file);
  m ← world_fs;
  if exists_ out_file m then
    modify_self (set_checked file true);;
    modify_self (extend_output [file]);;
    mret all_done
  else
    match downstream_check x with
    | Some dc =>
        let status := dc file m in
        modify_self (set_checked file status);;
        mret (if status then all_done else false)
    | None =>
        modify_self (set_checked file false);;
        mret false
    end.

Definition check : Py (t * World) bool :=
  x ← self;
  for_fold (input_files (task x)) true (check_item x).

Section collaborators.
(** [utils.download((url, target))]: writes to the filesystem and returns
    a value that is falsy on failure. *)
Variable download :
  string * string -> gmap string string -> gmap string string * option InputType.

Definition work {L} (item : string * string)
  : Py (L * (t * World)) (option InputType) :=
  m ← world_fs;
  let '(m', r) := download item m in
  modify_fs (fun _ => m');;
  mret r.

(** The body of the [for] loop over the results: [if file: done.append(file)]. *)
Definition record_done (file : option InputType)
  : Py (list InputType * (t * World)) unit :=
  if truthy file
  then modify_local (fun done => append_result done file)
  else mret tt.

(** One turn of the loop of the [except KeyboardInterrupt] block. *)
Definition remove_partial_item (file : InputType)
  : Py (list InputType * (t * World)) unit :=
  '(url, directory) ← lift_res (unpack2 file);
  done ← get_local;
  if bool_decide (IStr url ∈ done) then mret tt
  else
    tgt ← lift_res (rename_download (IPair url directory));
    m ← world_fs;
    if exists_ tgt m then modify_fs (delete tgt) else mret tt.

(** The [except KeyboardInterrupt] block. *)
Definition remove_partial (inputs : list InputType)
  : Py (list InputType * (t * World)) unit :=
  print "Download manually interrupted, removing partial JPGs";;
  for_each inputs remove_partial_item.

(** [[(file[0], self.rename_download(file)) for file in inputs]] *)
Definition targets (inputs : list InputType) : Res (list (string * string)) :=
  map_res (fun file =>
             url ← getitem file 0;
             tgt ← rename_download file;
             mret (url, tgt)) inputs.

(** The [try] block. *)
Definition fetch_all (inputs : list InputType)
  : Py (list InputType * (t * World)) unit :=
  items ← lift_res (targets inputs);
  modify_world (add_submitted inputs);;
  executor_map work items record_done.

Definition _process (inputs : list InputType) : Py (t * World) (option bool) :=
  with_local [] (
    try_except (fetch_all inputs) KeyboardInterrupt (remove_partial inputs);;
    done ← get_local;
    modify_self (extend_output done);;
    mret (Some true)).

#[local] Instance class : TaskClass t := {
  super := task;
  check := check;
  _process := _process;
  output_files := fun x _ => output_files x
}.

Definition process : Py (t * World) (option bool) := process.
End collaborators.

End DownloadIIIFImageTask.

(** ** [DownloadIIIFManifestTask] *)

Module DownloadIIIFManifestTask.

Record t := mk {
  task : Task;
  naming_function : InputType -> string;
  output_directory : string
}.

Definition set_checked (k : InputType) (v : bool) (x : t) : t :=
  mk (set_checked k v (task x)) (naming_function x) (output_directory x).

Section collaborators.
Variable string_to_hash : InputType -> string.       (* utils.string_to_hash *)
Variable change_ext : string -> string -> string.    (* utils.change_ext *)
Variable csv_reader : string -> list (list string).  (* rows of csv.reader *)
(** [utils.download_iiif_manifest((uri, target))] *)
Variable download_iiif_manifest :
  InputType * string -> gmap string string -> gmap string string.

(** [naming_function or utils.string_to_hash], [output_directory or "."] *)
Definition __init__ (input_files : list InputType) (command : option string)
    (multiprocess : option nat)
    (naming_function : option (InputType -> string))
    (output_directory : option string) : t :=
  mk (Task_init input_files command multiprocess)
     (default string_to_hash naming_function)
     (match output_directory with
      | Some (String c d) => String c d
      | Some EmptyString | None => "."
      end).

Definition rename_download (x : t) (file : InputType) : string :=
  OsPath.join (output_directory x) (change_ext (naming_function x file) "csv").

(** The property reads the index files; nothing of the object but its
    inputs and naming scheme is consulted. *)
Definition output_files (x : t) (m : gmap string string) : list PyVal :=
  foldl (fun out file =>
           let dl_file := rename_download x file in
           if exists_ dl_file m
           then out ++ (VTuple <$> csv_reader (default "" (m !! dl_file)))
           else out)
        [] (input_files (task x)).

Definition check_item (x : t) (all_done : bool) (file : InputType) : Py (t * World) bool :=
  let out_file := rename_download x file in
  m ← world_fs;
  if exists_ out_file m then
    modify_self (set_checked file true);; mret all_done
  else
    modify_self (set_checked file false);; mret false.

Definition check : Py (t * World) bool :=
  x ← self;
  for_fold (input_files (task x)) true (check_item x).

Definition work (item : InputType * string) : Py (t * World) InputType :=
  modify_fs (download_iiif_manifest item);; mret item.1.

Definition _process (inputs : list InputType) : Py (t * World) (option bool) :=
  x ← self;
  modify_world (add_submitted inputs);;
  executor_map work ((fun file => (file, rename_download x file)) <$> inputs)
    ignore_result;;
  mret (Some true).

#[local] Instance class : TaskClass t := {
  super := task;
  check := check;
  _process := _process;
  output_files := fun x m => Ok (output_files x m)
}.

Definition process : Py (t * World) (option bool) := process.
End collaborators.

End DownloadIIIFManifestTask.

(** What [subprocess.Popen(...).wait()] leaves behind. *)
Record Completed := mkCompleted {
  returncode : Z;
  proc_stdout : option string;   (* the bytes of the pipe read as UTF-8, *)
  proc_stderr : option string    (* [None] when they are not UTF-8 *)
}.

(** [pipe.read().decode()] *)
Definition decode {St} (bytes : option string) : Py St string :=
  match bytes with
  | Some text => mret text
  | None => raise UnicodeDecodeError
  end.

(** ** [KrakenLikeCommand] *)

Module KrakenLikeCommand.

Record t := mk {
  task : Task;
  _output_format : string;
  check_content : bool;
  allow_failure : bool;
  _output_files : list InputType;
  desc : string
}.

Definition set_checked (k : InputType) (v : bool) (x : t) : t :=
  mk (set_checked k v (task x)) (_output_format x) (check_content x)
     (allow_failure x) (_output_files x) (desc x).
Definition extend_output (fs_ : list InputType) (x : t) : t :=
  mk (task x) (_output_format x) (check_content x)
     (allow_failure x) (_output_files x ++ fs_) (desc x).

(** The constructor; [command] is [None] when the caller passes none (the
    membership test on [None] is a [TypeError]). *)
Definition __init__ (input_files : list InputType) (command : option string)
    (multiprocess : option nat) (output_format desc : string)
    (allow_failure check_content : bool) : Res t :=
  let x := mk (Task_init input_files command multiprocess)
              output_format check_content allow_failure [] desc in
  match command with
  | None => Raise TypeError
  | Some c =>
      if negb (PyStr.contains "$out" c)
      then Raise (NameError "$out is missing in the Kraken-like command")
      else Ok x
  end.

(** [os.path.splitext(inp)[0] + "." + self._output_format] *)
Definition rename (x : t) (inp : InputType) : Res string :=
  p ← as_path inp;
  mret (OsPath.splitext_root p +:+ "." +:+ _output_format x).

Definition output_files (x : t) : Res (list PyVal) :=
  map_res (fun file => VStr <$> rename x file) (_output_files x).

(** [self.command.replace("$out", self.rename(sample)).replace("$", sample)] *)
Definition command_line (x : t) (sample : InputType) : Res string :=
  match command (task x) with
  | None => Raise AttributeError
  | Some template =>
      out ← rename x sample;
      inp ← as_path sample;
      mret (PyStr.replace "$" inp (PyStr.replace "$out" out template))
  end.

Section collaborators.
Variable utils_check_content : string -> gmap string string -> bool.
(** Running a shell command line to completion. *)
Variable shell : string -> gmap string string -> gmap string string * Completed.

Definition check_item (x : t) (all_done : bool) (inp : InputType) : Py (t * World) bool :=
  out ← lift_res (rename x inp);
  m ← world_fs;
  if exists_ out m then
    modify_self (set_checked inp
      (if check_content x then utils_check_content out m else true));;
    mret all_done
  else
    modify_self (set_checked inp false);; mret false.

Definition check : Py (t * World) bool :=
  x ← self;
  all_done ← for_fold (input_files (task x)) true (check_item x);
  x' ← self;
  modify_self (extend_output
    (filter (fun item : InputType * bool => item.2) (_checked_files (task x'))).*1);;
  mret all_done.

Definition work (sample : InputType) : Py (t * World) (option InputType) :=
  x ← self;
  cmd ← lift_res (command_line x sample);
  m ← world_fs;
  let '(m', proc) := shell cmd m in
  modify_fs (fun _ => m');;
  if (returncode proc =? 1)%Z then
    print "Error detected in subprocess...";;
    out ← decode (proc_stdout proc);
    print out;;
    err ← decode (proc_stderr proc);
    print err;;
    print "Stopped process";;
    if negb (allow_failure x) then raise InterruptedError
    else mret None
  else mret (Some sample).

(** The body of the loop over the results:
    [if fname is not None: self._output_files.append(fname)]. *)
Definition collect (fname : option InputType) : Py (t * World) unit :=
  match fname with
  | Some f => modify_self (extend_output [f])
  | None => mret tt
  end.

(** The method has no [return]: it yields [None]. *)
Definition _process (inputs : list InputType) : Py (t * World) (option bool) :=
  modify_world (add_submitted inputs);;
  executor_map work inputs collect;;
  mret None.

#[local] Instance class : TaskClass t := {
  super := task;
  check := check;
  _process := _process;
  output_files := fun x _ => output_files x
}.

Definition process : Py (t * World) (option bool) := process.
End collaborators.

End KrakenLikeCommand.

(** ** [KrakenAltoCleanUpCommand] *)

Module KrakenAltoCleanUpCommand.

Record t := mk { task : Task }.

Definition set_checked (k : InputType) (v : bool) (x : t) : t :=
  mk (set_checked k v (task x)).

Definition output_files (x : t) : list PyVal := to_val <$> input_files (task x).

Section collaborators.
Variable check_kraken_filename : string -> gmap string string -> bool.
Variable clean_kraken_filename : string -> gmap string string -> gmap string string.

Definition check_item (all_done : bool) (inp : InputType) : Py (t * World) bool :=
  p ← lift_res (as_path inp);
  m ← world_fs;
  if exists_ p m then
    modify_self (set_checked inp (check_kraken_filename p m));;
    mret all_done
  else
    modify_self (set_checked inp false);; mret false.

Definition check : Py (t * World) bool :=
  x ← self;
  for_fold (input_files (task x)) true check_item.

Definition work (inp : InputType) : Py (t * World) unit :=
  p ← lift_res (as_path inp);
  modify_fs (clean_kraken_filename p).

Definition _process (inputs : list InputType) : Py (t * World) (option bool) :=
  modify_world (add_submitted inputs);;
  executor_map work inputs ignore_result;;
  mret (Some true).

#[local] Instance class : TaskClass t := {
  super := task;
  check := check;
  _process := _process;
  output_files := fun x _ => Ok (output_files x)
}.

Definition process : Py (t * World) (option bool) := process.
End collaborators.

End KrakenAltoCleanUpCommand.

(** ** [ClearFileCommand] *)

Module ClearFileCommand.

Record t := mk { task : Task }.

Definition set_checked (k : InputType) (v : bool) (x : t) : t :=
  mk (set_checked k v (task x)).

Definition output_files (x : t) : list PyVal := [].

Definition check_item (all_done : bool) (file : InputType) : Py (t * World) bool :=
  p ← lift_res (as_path file);
  m ← world_fs;
  if negb (exists_ p m) then
    modify_self (set_checked file true);; mret all_done
  else
    modify_self (set_checked file false);; mret false.

Definition check : Py (t * World) bool :=
  x ← self;
  for_fold (input_files (task x)) true check_item.

(** [os.remove(path)] *)
Definition os_remove (file : InputType) : Py (t * World) unit :=
  p ← lift_res (as_path file);
  m ← world_fs;
  if exists_ p m then modify_fs (delete p) else raise FileNotFoundError.

Definition _process (inputs : list InputType) : Py (t * World) (option bool) :=
  modify_world (add_submitted inputs);;
  executor_map os_remove inputs ignore_result;;
  mret (Some true).

#[global] Instance class : TaskClass t := {
  super := task;
  check := check;
  _process := _process;
  output_files := fun x _ => Ok (output_files x)
}.

Definition process : Py (t * World) (option bool) := process.

End ClearFileCommand.

(** ** [ExtractZoneAltoCommand] *)

Module ExtractZoneAltoCommand.

Record t := mk { task : Task; zones : list string }.

Definition set_checked (k : InputType) (v : bool) (x : t) : t :=
  mk (set_checked k v (task x)) (zones x).

Definition rename (inp : InputType) : Res string :=
  p ← as_path inp;
  mret (OsPath.splitext_root p +:+ ".txt").

Definition output_files (x : t) : Res (list PyVal) :=
  map_res (fun file => VStr <$> rename file) (input_files (task x)).

Definition check_item (all_done : bool) (file : InputType) : Py (t * World) bool :=
  out ← lift_res (rename file);
  m ← world_fs;
  if exists_ out m then
    modify_self (set_checked file true);; mret all_done
  else
    modify_self (set_checked file false);; mret false.

Definition check : Py (t * World) bool :=
  x ← self;
  for_fold (input_files (task x)) true check_item.

Section collaborators.
(** [utils.alto_zone_extraction(path, zones)]: the extracted text, if any. *)
Variable alto_zone_extraction :
  string -> list string -> gmap string string -> option string.

Definition custom_alto_zone_extraction (input_file : InputType) : Py (t * World) unit :=
  x ← self;
  p ← lift_res (as_path input_file);
  m ← world_fs;
  match alto_zone_extraction p (zones x) m with
  | Some (String c content) =>
      out ← lift_res (rename input_file);
      modify_fs (insert out (String c content))
  | Some EmptyString | None => mret tt
  end.

Definition _process (inputs : list InputType) : Py (t * World) (option bool) :=
  modify_world (add_submitted inputs);;
  executor_map custom_alto_zone_extraction inputs ignore_result;;
  mret (Some true).

#[local] Instance class : TaskClass t := {
  super := task;
  check := check;
  _process := _process;
  output_files := fun x _ => output_files x
}.

Definition process : Py (t * World) (option bool) := process.
End collaborators.

End ExtractZoneAltoCommand.

(** ** Marking the completion map

    [mark_all o inputs d] is the dictionary a [check] loop leaves when each
    input is assigned the verdict of the oracle [o], in order; it raises
    where the oracle does. *)

Fixpoint mark_all (o : InputType -> Res bool) (inputs : list InputType)
    (d : list (InputType * bool)) : Res (list (InputType * bool)) :=
  match inputs with
  | [] => Ok d
  | inp :: rest =>
      match o inp with
      | Ok st => mark_all o rest (Dict.set inp st d)
      | Raise e => Raise e
      end
  end.




(** ** A task object of any of the six classes

    [Task.process] is inherited: it calls [check] and [_process] of the
    object's own class. *)

Record Collaborators := mkCollaborators {
  download :
    string * string -> gmap string string -> gmap string string * option InputType;
  download_iiif_manifest :
    InputType * string -> gmap string string -> gmap string string;
  string_to_hash : InputType -> string;
  change_ext : string -> string -> string;
  csv_reader : string -> list (list string);
  check_content : string -> gmap string string -> bool;
  check_kraken_filename : string -> gmap string string -> bool;
  clean_kraken_filename : string -> gmap string string -> gmap string string;
  alto_zone_extraction : string -> list string -> gmap string string -> option string;
  shell : string -> gmap string string -> gmap string string * Completed
}.

Inductive AnyTask :=
| Image (x : DownloadIIIFImageTask.t)
| Manifest (x : DownloadIIIFManifestTask.t)
| Kraken (x : KrakenLikeCommand.t)
| AltoCleanUp (x : KrakenAltoCleanUpCommand.t)
| ClearFile (x : ClearFileCommand.t)
| ExtractZone (x : ExtractZoneAltoCommand.t).

(** Run a method of class [T] on the object, which stays of that class. *)
Definition dispatch {T A} (inj : T -> AnyTask) (m : Py (T * World) A) (x : T)
  : Py (AnyTask * World) A :=
  fun s => let '(r, (x', w')) := m (x, s.2) in (r, (inj x', w')).

Section any_task.
Variable U : Collaborators.

Definition any_super (a : AnyTask) : Task :=
  match a with
  | Image x => DownloadIIIFImageTask.task x
  | Manifest x => DownloadIIIFManifestTask.task x
  | Kraken x => KrakenLikeCommand.task x
  | AltoCleanUp x => KrakenAltoCleanUpCommand.task x
  | ClearFile x => ClearFileCommand.task x
  | ExtractZone x => ExtractZoneAltoCommand.task x
  end.

Definition any_check : Py (AnyTask * World) bool :=
  fun s =>
    match s.1 with
    | Image x => dispatch Image DownloadIIIFImageTask.check x s
    | Manifest x =>
        dispatch Manifest (DownloadIIIFManifestTask.check (change_ext U)) x s
    | Kraken x => dispatch Kraken (KrakenLikeCommand.check (check_content U)) x s
    | AltoCleanUp x =>
        dispatch AltoCleanUp
          (KrakenAltoCleanUpCommand.check (check_kraken_filename U)) x s
    | ClearFile x => dispatch ClearFile ClearFileCommand.check x s
    | ExtractZone x => dispatch ExtractZone ExtractZoneAltoCommand.check x s
    end.

Definition any__process (inputs : list InputType) : Py (AnyTask * World) (option bool) :=
  fun s =>
    match s.1 with
    | Image x =>
        dispatch Image (DownloadIIIFImageTask._process (download U) inputs) x s
    | Manifest x =>
        dispatch Manifest
          (DownloadIIIFManifestTask._process (change_ext U)
             (download_iiif_manifest U) inputs) x s
    | Kraken x => dispatch Kraken (KrakenLikeCommand._process (shell U) inputs) x s
    | AltoCleanUp x =>
        dispatch AltoCleanUp
          (KrakenAltoCleanUpCommand._process (clean_kraken_filename U) inputs) x s
    | ClearFile x => dispatch ClearFile (ClearFileCommand._process inputs) x s
    | ExtractZone x =>
        dispatch ExtractZone
          (ExtractZoneAltoCommand._process (alto_zone_extraction U) inputs) x s
    end.

Definition any_output_files (a : AnyTask) (m : gmap string string) : Res (list PyVal) :=
  match a with
  | Image x => DownloadIIIFImageTask.output_files x
  | Manifest x =>
      Ok (DownloadIIIFManifestTask.output_files (change_ext U) (csv_reader U) x m)
  | Kraken x => KrakenLikeCommand.output_files x
  | AltoCleanUp x => Ok (KrakenAltoCleanUpCommand.output_files x)
  | ClearFile x => Ok (ClearFileCommand.output_files x)
  | ExtractZone x => ExtractZoneAltoCommand.output_files x
  end.

#[local] Instance any_class : TaskClass AnyTask := {
  super := any_super;
  check := any_check;
  _process := any__process;
  output_files := any_output_files
}.

(** [process()] called on the object. *)
Definition any_process : Py (AnyTask * World) (option bool) := process.

(** The completion oracle of each class: the verdict [check] records for
    one input on a given filesystem. *)
Definition is_done (a : AnyTask) (m : gmap string string) (inp : InputType) : Res bool :=
  match a with
  | Image x =>
      out_file ← DownloadIIIFImageTask.rename_download inp;
      mret (exists_ out_file m ||
            match DownloadIIIFImageTask.downstream_check x with
            | Some dc => dc inp m
            | None => false
            end)
  | Manifest x =>
      Ok (exists_ (DownloadIIIFManifestTask.rename_download (change_ext U) x inp) m)
  | Kraken x =>
      out ← KrakenLikeCommand.rename x inp;
      mret (exists_ out m &&
            (if KrakenLikeCommand.check_content x then check_content U out m else true))
  | AltoCleanUp x =>
      p ← as_path inp;
      mret (exists_ p m && check_kraken_filename U p m)
  | ClearFile x =>
      p ← as_path inp;
      mret (negb (exists_ p m))
  | ExtractZone x =>
      out ← ExtractZoneAltoCommand.rename inp;
      mret (exists_ out m)
  end.

(** Classes whose [output_files] is computed from the inputs or from disk,
    not from a list kept on the object. *)
Definition recomputes_outputs (a : AnyTask) : bool :=
  match a with
  | Image _ | Kraken _ => false
  | Manifest _ | AltoCleanUp _ | ClearFile _ | ExtractZone _ => true
  end.

(** The inputs [process] hands to [_process]. *)
Definition requires_processing (t : Task) : list InputType :=
  (filter (fun item : InputType * bool => negb item.2) (_checked_files t)).*1.

(** The completion map of an object built by its constructor and driven by
    its own methods only has its inputs as keys, each once. *)
Definition well_formed (t : Task) : Prop :=
  NoDup (Dict.keys (_checked_files t)) /\
  forall k, k ∈ Dict.keys (_checked_files t) -> k ∈ input_files t.

End any_task.

(** The object stripped of what [check] and [_process] mutate: the
    completion map and the list of recorded outputs. *)
Definition forget (a : AnyTask) : AnyTask :=
  let bare (t : Task) := mkTask (input_files t) (command t) [] (workers t) in
  match a with
  | Image x =>
      Image (DownloadIIIFImageTask.mk (bare (DownloadIIIFImageTask.task x))
               (DownloadIIIFImageTask.downstream_check x) [])
  | Manifest x =>
      Manifest (DownloadIIIFManifestTask.mk (bare (DownloadIIIFManifestTask.task x))
                  (DownloadIIIFManifestTask.naming_function x)
                  (DownloadIIIFManifestTask.output_directory x))
  | Kraken x =>
      Kraken (KrakenLikeCommand.mk (bare (KrakenLikeCommand.task x))
                (KrakenLikeCommand._output_format x)
                (KrakenLikeCommand.check_content x)
                (KrakenLikeCommand.allow_failure x) []
                (KrakenLikeCommand.desc x))
  | AltoCleanUp x =>
      AltoCleanUp (KrakenAltoCleanUpCommand.mk (bare (KrakenAltoCleanUpCommand.task x)))
  | ClearFile x => ClearFile (ClearFileCommand.mk (bare (ClearFileCommand.task x)))
  | ExtractZone x =>
      ExtractZone (ExtractZoneAltoCommand.mk (bare (ExtractZoneAltoCommand.task x))
                     (ExtractZoneAltoCommand.zones x))
  end.

(** The inputs recorded on the object ([_output_files]) for the two classes
    that keep such a list. *)
Definition recorded (a : AnyTask) : list InputType :=
  match a with
  | Image x => DownloadIIIFImageTask._output_files x
  | Kraken x => KrakenLikeCommand._output_files x
  | _ => []
  end.

(** ** Vocabulary of the proofs *)

(** [l'] is [l] with elements satisfying [ok] appended. *)
Definition grows (ok : InputType -> Prop) (l l' : list InputType) : Prop :=
  exists extra, l' = l ++ extra /\ Forall ok extra.

(** The outcome [r] of a [check] agrees with marking by the oracle:
    [expected] is what [mark_all] yields, [d'] the map [check] left. *)
Definition marks (r : Res bool) (expected : Res (list (InputType * bool)))
    (d' : list (InputType * bool)) : Prop :=
  match r with
  | Ok _ => expected = Ok d'
  | Raise e => expected = Raise e
  end.

(** The frame operations read back what they wrote and leave the other
    component alone. *)
Class FrameLaws (St T : Type) `{Frame St T} : Prop := {
  self_upd_self f s : frame_self (frame_upd_self f s) = f (frame_self s);
  world_upd_self f s : frame_world (frame_upd_self f s) = frame_world s;
  self_upd_world f s : frame_self (frame_upd_world f s) = frame_self s;
  world_upd_world f s : frame_world (frame_upd_world f s) = f (frame_world s)
}.

Section steady_steps.
Context {St T : Type} `{Frame St T} (inj : T -> AnyTask).

(** Between two states of a method body: same class and configuration, same
    completion map, nothing new handed to the executor, recorded outputs
    only appended to. *)
Definition steady (s s' : St) : Prop :=
  forget (inj (frame_self s')) = forget (inj (frame_self s)) /\
  _checked_files (any_super (inj (frame_self s'))) =
    _checked_files (any_super (inj (frame_self s))) /\
  submitted (frame_world s') = submitted (frame_world s) /\
  exists extra, recorded (inj (frame_self s')) = recorded (inj (frame_self s)) ++ extra.

Definition keeps {A} (m : Py St A) : Prop := forall s, steady s (m s).2.

End steady_steps.

(** What a run of [_process] on the batch [inputs] leaves behind. *)
Definition process_post (U : Collaborators) (inputs : list InputType) (a : AnyTask)
    (w : World) (out : Res (option bool) * (AnyTask * World)) : Prop :=
  forget out.2.1 = forget a /\
  _checked_files (any_super out.2.1) = _checked_files (any_super a) /\
  (exists extra, recorded out.2.1 = recorded a ++ extra) /\
  (submitted out.2.2 = submitted w ++ inputs \/
   (submitted out.2.2 = submitted w /\ is_ok out.1 = false)) /\
  (Forall (fun inp => is_ok (is_done U a (fs w) inp) = true) inputs ->
   submitted out.2.2 = submitted w ++ inputs).

Arguments forget : simpl never.
Arguments is_done : simpl never.

(** [replaced old new s r]: [r] is [s] with the occurrences of [old], found
    from the left and not overlapping, replaced by [new]. *)
Inductive replaced (old new : string) : string -> string -> Prop :=
| replaced_end : replaced old new EmptyString EmptyString
| replaced_here s r :
    replaced old new s r -> replaced old new (old +:+ s) (new +:+ r)
| replaced_next c s r :
    PyStr.startswith old (String c s) = false ->
    replaced old new s r -> replaced old new (String c s) (String c r).

(** The rows of the index file of one manifest, as tuples; none when the
    file is not on disk. *)
Definition index_rows (change_ext : string -> string -> string)
    (csv_reader : string -> list (list string))
    (x : DownloadIIIFManifestTask.t) (m : gmap string string) (file : InputType)
  : list PyVal :=
  match m !! DownloadIIIFManifestTask.rename_download change_ext x file with
  | Some content => VTuple <$> csv_reader content
  | None => []
  end.

(** The commands of a batch run one after the other, each on the filesystem
    its predecessors left: their exit codes, and the filesystem at the end.
    [line] gives the command line of an input. *)
Fixpoint run_batch (run : string -> gmap string string -> gmap string string * Completed)
    (line : InputType -> Res string) (inputs : list InputType)
    (m : gmap string string) : list Z * gmap string string :=
  match inputs with
  | [] => ([], m)
  | sample :: rest =>
      match line sample with
      | Ok cmd =>
          let '(m', proc) := run cmd m in
          let '(codes, m'') := run_batch run line rest m' in
          (returncode proc :: codes, m'')
      | Raise _ => ([], m)
      end
  end.

(** What each command of such a run leaves behind. *)
Fixpoint run_procs (run : string -> gmap string string -> gmap string string * Completed)
    (line : InputType -> Res string) (inputs : list InputType)
    (m : gmap string string) : list Completed :=
  match inputs with
  | [] => []
  | sample :: rest =>
      match line sample with
      | Ok cmd =>
          let '(m', proc) := run cmd m in
          proc :: run_procs run line rest m'
      | Raise _ => []
      end
  end.

(** Both pipes of a finished command hold UTF-8 text. *)
Definition decodes (proc : Completed) : Prop :=
  is_Some (proc_stdout proc) /\ is_Some (proc_stderr proc).

(** The inputs of a batch whose command did not exit with code 1. *)
Definition survivors (inputs : list InputType) (codes : list Z) : list InputType :=
  (filter (fun p : InputType * Z => p.2 <> 1%Z) (zip inputs codes)).*1.

(** The four lines [work] prints when a command exits with code 1 and its
    pipes decode. *)
Definition log_failure (proc : Completed) (w : World) : World :=
  add_stdout "Stopped process"
    (add_stdout (default "" (proc_stderr proc))
       (add_stdout (default "" (proc_stdout proc))
          (add_stdout "Error detected in subprocess..." w))).

(** Number of occurrences of a character. *)
Fixpoint count_char (c : ascii) (s : string) : nat :=
  match s with
  | EmptyString => 0%nat
  | String a s' => (if Ascii.eqb a c then 1 else 0)%nat + count_char c s'
  end.

(** ** Stand-ins for the collaborators, for running the model

    A toy shell understands [tool input -o output] and behaves by the first
    letters of the input's name: [bad...] exits with 1 and writes nothing,
    [half...] writes its output and still exits with 1, [odd...] exits with 2
    and writes nothing, anything else writes its output and exits with 0. *)

Definition toy_shell (cmd : string) (m : gmap string string)
  : gmap string string * Completed :=
  match PyStr.split " " cmd with
  | [_; inp; _; out] =>
      if PyStr.startswith "bad" inp then (m, mkCompleted 1 (Some "") (Some "failed"))
      else if PyStr.startswith "half" inp
           then (<[out := "<alto"]> m, mkCompleted 1 (Some "") (Some "truncated"))
      else if PyStr.startswith "odd" inp then (m, mkCompleted 2 (Some "") (Some "usage"))
      else (<[out := "<alto/>"]> m, mkCompleted 0 (Some "") (Some ""))
  | _ => (m, mkCompleted 127 (Some "") (Some "not found"))
  end.

(** Rows of a file whose lines end in [;] and whose fields are separated by
    commas. *)
Definition toy_csv_reader (content : string) : list (list string) :=
  PyStr.split "," <$>
    filter (fun line => line <> EmptyString) (PyStr.split ";" content).

Definition toy : Collaborators := {|
  download := fun item m => (<[item.2 := "jpeg"]> m, Some (IStr item.2));
  download_iiif_manifest := fun item m => <[item.2 := "u/1/2/3/4,out;"]> m;
  string_to_hash := fun inp => match inp with IStr s => s | IPair u _ => u end;
  change_ext := fun p ext => OsPath.splitext_root p +:+ "." +:+ ext;
  csv_reader := toy_csv_reader;
  check_content := fun p m => bool_decide (m !! p = Some "<alto/>");
  check_kraken_filename := fun _ _ => true;
  clean_kraken_filename := fun _ m => m;
  alto_zone_extraction := fun p _ m => m !! p;
  shell := toy_shell
|}.

Definition empty_world : World := mkWorld ∅ [] [] None.

(** The same collaborators, with a [utils.download] that returns the URI it
    fetched instead of the path it wrote. *)
Definition toy_returning_uri : Collaborators := {|
  download := fun item m => (<[item.2 := "jpeg"]> m, Some (IStr item.1));
  download_iiif_manifest := download_iiif_manifest toy;
  string_to_hash := string_to_hash toy;
  change_ext := change_ext toy;
  csv_reader := csv_reader toy;
  check_content := check_content toy;
  check_kraken_filename := check_kraken_filename toy;
  clean_kraken_filename := clean_kraken_filename toy;
  alto_zone_extraction := alto_zone_extraction toy;
  shell := shell toy
|}.

(** [KrakenLikeCommand(inputs, command="ocr $ -o $out", ...)] as its
    constructor leaves it. *)
Definition ocr_task (inputs : list string) (allow_failure check_content : bool)
  : KrakenLikeCommand.t :=
  KrakenLikeCommand.mk
    (Task_init (IStr <$> inputs) (Some "ocr $ -o $out") None)
    "xml" check_content allow_failure [] "kraken-like".

(** A page image of a IIIF server and the directory it goes to. *)
Definition page_f7 : InputType :=
  IPair "https://h/iiif/ark:12/f7/full/full/0/native.jpg" "out".

(** [DownloadIIIFImageTask([page_f7], downstream_check=...)] as its
    constructor leaves it. *)
Definition image_task (downstream_check : option (InputType -> gmap string string -> bool))
  : DownloadIIIFImageTask.t :=
  DownloadIIIFImageTask.__init__ [page_f7] None None downstream_check.

(** ** More of the module: the downstream check, and vocabulary for it *)

#[global] Instance Res_eq_dec {A} `{EqDecision A} : EqDecision (Res A).
Proof. solve_decision. Defined.

(** The closure returned by [DownloadIIIFImageTask.check_downstream_task
    (extension, content_check)], applied to an input on a filesystem. *)
Definition check_downstream_task (extension : string)
    (content_check : option (string -> gmap string string -> bool))
    (inp : InputType) (m : gmap string string) : Res bool :=
  target ← DownloadIIIFImageTask.rename_download inp;
  let filename := OsPath.splitext_root target +:+ extension in
  if negb (exists_ filename m) then Ok false
  else match content_check with
       | Some cc => Ok (cc filename m)
       | None => Ok true
       end.

(** A callable passed as [downstream_check].  [check()] calls it on an input
    only after [rename_download] has returned for that input. *)
Definition as_downstream_check (c : InputType -> gmap string string -> Res bool)
  : InputType -> gmap string string -> bool :=
  fun inp m => match c inp m with Ok b => b | Raise _ => false end.

(** The verdict of an oracle as a flag; a raise counts as not done. *)
Definition verdict (r : Res bool) : bool :=
  match r with Ok b => b | Raise _ => false end.

(** Classes whose [check()] clears its flag whenever it records a false
    entry. *)
Definition flag_follows_map (a : AnyTask) : bool :=
  match a with
  | Kraken _ | AltoCleanUp _ => false
  | Image _ | Manifest _ | ClearFile _ | ExtractZone _ => true
  end.

(** The test [check()] applies to an input to decide whether its flag
    survives: the recorded verdict, except for the two classes that clear the
    flag on a missing file only. *)
Definition flag_test (U : Collaborators) (a : AnyTask) (m : gmap string string)
    (inp : InputType) : bool :=
  match a with
  | Kraken x =>
      match KrakenLikeCommand.rename x inp with
      | Ok out => exists_ out m
      | Raise _ => false
      end
  | AltoCleanUp _ =>
      match as_path inp with
      | Ok p => exists_ p m
      | Raise _ => false
      end
  | _ => verdict (is_done U a m inp)
  end.

(** The download target of an input is on disk. *)
Definition target_on_disk (m : gmap string string) (inp : InputType) : bool :=
  match DownloadIIIFImageTask.rename_download inp with
  | Ok tgt => exists_ tgt m
  | Raise _ => false
  end.

(** [KrakenLikeCommand._process] has no [return] statement. *)
Definition returns_none (a : AnyTask) : bool :=
  match a with
  | Kraken _ => true
  | _ => false
  end.



(** A method body that, when it returns, returns [v0]. *)
Definition yields {St B} (v0 : B) (m : Py St B) : Prop :=
  forall s v s', m s = (Ok v, s') -> v = v0.

(** The path an input stands for, where it is one. *)
Definition path_of (inp : InputType) : string :=
  match inp with
  | IStr p => p
  | IPair _ _ => ""
  end.

(** ** More stand-ins: a disk with given files, and tasks as their
    constructors leave them *)

Definition disk (files : list (string * string)) : World :=
  mkWorld (list_to_map files) [] [] None.

Definition clear_task (inputs : list string) : ClearFileCommand.t :=
  ClearFileCommand.mk (Task_init (IStr <$> inputs) None None).

Definition extract_task (inputs : list string) : ExtractZoneAltoCommand.t :=
  ExtractZoneAltoCommand.mk (Task_init (IStr <$> inputs) None None) ["MainZone"].

Definition manifest_task (inputs : list string) : DownloadIIIFManifestTask.t :=
  DownloadIIIFManifestTask.__init__ (string_to_hash toy) (IStr <$> inputs)
    None None None (Some "idx").

(** ** The calls of the work functions *)

(** The element of the list [_process] gives to [executor.map] for one
    input of its batch: the input itself, or a tuple made of it. *)
Definition work_item (U : Collaborators) (a : AnyTask) (inp : InputType) : Res WorkItem :=
  match a with
  | Image _ =>
      url ← getitem inp 0;
      tgt ← DownloadIIIFImageTask.rename_download inp;
      mret (WithTarget (IStr url) tgt)
  | Manifest x =>
      Ok (WithTarget inp (DownloadIIIFManifestTask.rename_download (change_ext U) x inp))
  | Kraken _ | AltoCleanUp _ | ClearFile _ | ExtractZone _ => Ok (Plain inp)
  end.

Section call_log.
Context {St T : Type} `{Frame St T}.

(** Between two states of a method body: the work function was called on
    [cs], in that order, and on nothing else. *)
Definition logged (cs : list WorkItem) (s s' : St) : Prop :=
  calls (frame_world s') = calls (frame_world s) ++ cs /\
  overrun (frame_world s') = overrun (frame_world s).

(** [m] has the work function called on the first items of [items], in
    their order: on all of them when no interrupt is pending and [m]
    returns.  Without an interrupt pending, none comes up. *)
Definition logs {A} (items : list WorkItem) (m : Py St A) : Prop :=
  forall s,
    (exists n, logged (take n items) s (m s).2 /\
       (sigint (frame_world s) = None -> is_ok (m s).1 = true ->
        (length items <= n)%nat)) /\
    (sigint (frame_world s) = None ->
     sigint (frame_world (m s).2) = None /\ (m s).1 <> Raise KeyboardInterrupt).

End call_log.

(** * Facts *)

(** ** Python string builtins and [os.path] on examples *)

Example replace_all_occurrences :
  PyStr.replace "ab" "X" "abcabab" = "XcXX".
Proof. reflexivity. Qed.

Example replace_does_not_rescan :
  PyStr.replace "aa" "a" "aaaa" = "aa".
Proof. reflexivity. Qed.

Example split_keeps_empty_segments :
  PyStr.split "/" "https://h/iiif/x" = ["https:"; ""; "h"; "iiif"; "x"].
Proof. reflexivity. Qed.

Example splitext_cases :
  OsPath.splitext_root "dir.d/page.jpg" = "dir.d/page" /\
  OsPath.splitext_root "dir.d/page" = "dir.d/page" /\
  OsPath.splitext_root "dir/.hidden" = "dir/.hidden" /\
  OsPath.splitext_root "a.tar.gz" = "a.tar".
Proof. repeat split; reflexivity. Qed.

Example join_cases :
  OsPath.join "out" "p.jpg" = "out/p.jpg" /\
  OsPath.join "out/" "p.jpg" = "out/p.jpg" /\
  OsPath.join "" "p.jpg" = "p.jpg" /\
  OsPath.join "out" "/p.jpg" = "/p.jpg".
Proof. repeat split; reflexivity. Qed.


(** ** Ordered dictionaries: lookup, keys and updates *)

Section dict_facts.
Context {K V : Type} `{EqDecision K}.
Implicit Types (d : list (K * V)) (k : K) (v : V).

Lemma dict_lookup_set_eq k v d : Dict.lookup k (Dict.set k v d) = Some v.
Proof.
  induction d as [|[k' v'] d IH]; simpl.
  - by rewrite decide_True.
  - destruct (decide (k' = k)) as [->|Hne]; simpl.
    + by rewrite decide_True.
    + by rewrite decide_False.
Qed.

Lemma dict_lookup_set_ne k k' v d :
  k ≠ k' -> Dict.lookup k' (Dict.set k v d) = Dict.lookup k' d.
Proof.
  intros Hne. induction d as [|[k0 v0] d IH]; simpl.
  - by rewrite decide_False.
  - destruct (decide (k0 = k)) as [->|Hk]; simpl.
    + by rewrite !decide_False.
    + destruct (decide (k0 = k')); [done | exact IH].
Qed.

Lemma dict_keys_set k v d :
  Dict.keys (Dict.set k v d) =
  if bool_decide (k ∈ Dict.keys d) then Dict.keys d else Dict.keys d ++ [k].
Proof.
  unfold Dict.keys. induction d as [|[k0 v0] d IH]; csimpl; [done|].
  destruct (decide (k0 = k)) as [->|Hk]; csimpl.
  - rewrite bool_decide_eq_true_2; [done | left].
  - rewrite IH. destruct (bool_decide (k ∈ d.*1)) eqn:E.
    + apply bool_decide_eq_true_1 in E.
      rewrite bool_decide_eq_true_2; [done | by right].
    + apply bool_decide_eq_false_1 in E.
      rewrite bool_decide_eq_false_2; [done |].
      intros Hin. apply elem_of_cons in Hin as [->|Hin]; tauto.
Qed.

Lemma dict_keys_set_elem k k' v d :
  k' ∈ Dict.keys (Dict.set k v d) <-> k' = k \/ k' ∈ Dict.keys d.
Proof.
  rewrite dict_keys_set. case_bool_decide as Hin.
  - split; [tauto | intros [->|?]; done].
  - rewrite elem_of_app, list_elem_of_singleton. tauto.
Qed.

Lemma dict_keys_set_NoDup k v d :
  NoDup (Dict.keys d) -> NoDup (Dict.keys (Dict.set k v d)).
Proof.
  intros Hnd. rewrite dict_keys_set. case_bool_decide as Hin; [done|].
  apply NoDup_app. split; [done|]. split.
  - intros x Hx Hx'. apply list_elem_of_singleton in Hx'. by subst.
  - apply NoDup_singleton.
Qed.

(** With distinct keys, the entries are exactly the successful lookups. *)
Lemma dict_elem_of_lookup k v d :
  NoDup (Dict.keys d) -> (k, v) ∈ d <-> Dict.lookup k d = Some v.
Proof.
  unfold Dict.keys. induction d as [|[k0 v0] d IH]; csimpl; intros Hnd.
  - split; [by intros ?%elem_of_nil | done].
  - apply NoDup_cons in Hnd as [Hk0 Hnd].
    rewrite elem_of_cons. destruct (decide (k0 = k)) as [->|Hne].
    + split.
      * intros [[= ->]|Hin]; [done|].
        exfalso. apply Hk0. apply list_elem_of_fmap. by exists (k, v).
      * intros [= ->]. by left.
    + rewrite <- (IH Hnd). split; [|tauto].
      intros [[= ? ?]|?]; [congruence | done].
Qed.

Lemma dict_lookup_keys k d :
  k ∈ Dict.keys d <-> is_Some (Dict.lookup k d).
Proof.
  unfold Dict.keys. induction d as [|[k0 v0] d IH]; csimpl.
  - split; [by intros ?%elem_of_nil | by intros [? ?]].
  - rewrite elem_of_cons. destruct (decide (k0 = k)) as [->|Hne].
    + split; [by eexists | by left].
    + rewrite <- IH. split; [|tauto]. intros [?|?]; [congruence | done].
Qed.
End dict_facts.

(** ** Loops: what a body preserves, the loop preserves *)

Section loops.
Context {St A B : Type}.
Implicit Types (body : B -> A -> Py St B) (R : St -> St -> Prop).

Lemma for_fold_cons body x xs acc s :
  for_fold (x :: xs) acc body s =
  match body acc x s with
  | (Ok acc', s') => for_fold xs acc' body s'
  | (Raise e, s') => (Raise e, s')
  end.
Proof. reflexivity. Qed.

End loops.

Section each.
Context {St A : Type}.

Lemma for_each_inv (body : A -> Py St unit) (R : St -> St -> Prop) :
  (forall s, R s s) ->
  (forall s1 s2 s3, R s1 s2 -> R s2 s3 -> R s1 s3) ->
  (forall x s, R s (body x s).2) ->
  forall xs s, R s (for_each xs body s).2.
Proof.
  intros Hrefl Htrans Hbody xs.
  induction xs as [|x xs IH]; intros s; simpl.
  - apply Hrefl.
  - unfold mbind, Py_bind. specialize (Hbody x s).
    destruct (body x s) as [[[]|e] s']; simpl in *.
    + eapply Htrans; [exact Hbody | apply IH].
    + exact Hbody.
Qed.
End each.

(** ** The pool: one turn of [executor.map] *)

Section pool_facts.
Context {St T A B : Type} `{Frame St T} `{AsWorkItem A}.
Variable work : A -> Py St B.

Lemma run_detached_ok items s : (run_detached work items s).1 = Ok tt.
Proof. revert s. induction items as [|i l IH]; intros s; [done|]. apply IH. Qed.

Lemma abandon_run queued s :
  abandon work queued s =
  (Ok tt, (run_detached work (take (overrun (frame_world s)) queued) s).2).
Proof.
  unfold abandon, mbind, Py_bind, gets.
  pose proof (run_detached_ok (take (overrun (frame_world s)) queued) s) as Hok.
  by destruct (run_detached work _ s) as [[[]|e] s1].
Qed.

Lemma abandon_raise {R} queued e s :
  (abandon work queued;; raise e : Py St R) s =
  (Raise e, (run_detached work (take (overrun (frame_world s)) queued) s).2).
Proof. unfold mbind, Py_bind. by rewrite abandon_run. Qed.

Lemma deliver_sigint_run queued s :
  deliver_sigint work queued s =
  match sigint (frame_world s) with
  | None => (Ok tt, s)
  | Some (O, partial) =>
      (Raise KeyboardInterrupt,
       frame_upd_world (fun w => set_sigint None (set_fs (write_all partial (fs w)) w))
         (run_detached work (take (overrun (frame_world s)) queued) s).2)
  | Some (S n, partial) => (Ok tt, frame_upd_world (set_sigint (Some (n, partial))) s)
  end.
Proof.
  unfold deliver_sigint. unfold mbind, Py_bind, gets at 1.
  destruct (sigint (frame_world s)) as [[[|k] partial]|]; [|done|done].
  unfold mbind, Py_bind. by rewrite abandon_run.
Qed.

Lemma executor_map_unfold item items (consume : B -> Py St unit) s :
  executor_map work (item :: items) consume s =
  match deliver_sigint work (item :: items) s with
  | (Ok _, s0) =>
      match call work item s0 with
      | (Ok r, s1) =>
          match consume r s1 with
          | (Ok _, s2) => executor_map work items consume s2
          | (Raise e, s2) => (abandon work items;; raise e) s2
          end
      | (Raise e, s1) => (abandon work items;; raise e) s1
      end
  | (Raise e, s0) => (Raise e, s0)
  end.
Proof.
  cbn [executor_map]. unfold or_abandon, mbind, Py_bind.
  destruct (deliver_sigint work (item :: items) s) as [[[]|e] s0]; [|done].
  destruct (call work item s0) as [[r|e] s1]; [|by rewrite !abandon_run].
  destruct (consume r s1) as [[[]|e] s2]; [done | by rewrite !abandon_run].
Qed.

(** No interrupt pending: the item runs, its result is consumed, and the
    queue is abandoned if either raises. *)
Lemma executor_map_cons item items (consume : B -> Py St unit) s :
  sigint (frame_world s) = None ->
  executor_map work (item :: items) consume s =
  match call work item s with
  | (Ok r, s1) =>
      match consume r s1 with
      | (Ok _, s2) => executor_map work items consume s2
      | (Raise e, s2) => (abandon work items;; raise e) s2
      end
  | (Raise e, s1) => (abandon work items;; raise e) s1
  end.
Proof.
  intros Hs. rewrite executor_map_unfold.
  unfold deliver_sigint. unfold mbind, Py_bind, gets at 1. by rewrite Hs.
Qed.

(** An interrupt pending with results still to come before it. *)
Lemma executor_map_tick item items (consume : B -> Py St unit) s n partial :
  sigint (frame_world s) = Some (S n, partial) ->
  executor_map work (item :: items) consume s =
  match call work item (frame_upd_world (set_sigint (Some (n, partial))) s) with
  | (Ok r, s1) =>
      match consume r s1 with
      | (Ok _, s2) => executor_map work items consume s2
      | (Raise e, s2) => (abandon work items;; raise e) s2
      end
  | (Raise e, s1) => (abandon work items;; raise e) s1
  end.
Proof.
  intros Hs. rewrite executor_map_unfold.
  unfold deliver_sigint. unfold mbind, Py_bind, gets at 1. by rewrite Hs.
Qed.

(** The interrupt is delivered. *)
Lemma executor_map_interrupted item items (consume : B -> Py St unit) s partial :
  sigint (frame_world s) = Some (0%nat, partial) ->
  executor_map work (item :: items) consume s =
  (Raise KeyboardInterrupt,
   frame_upd_world (fun w => set_sigint None (set_fs (write_all partial (fs w)) w))
     (run_detached work (take (overrun (frame_world s)) (item :: items)) s).2).
Proof.
  intros Hs. rewrite executor_map_unfold.
  unfold deliver_sigint. unfold mbind, Py_bind, gets at 1. rewrite Hs.
  unfold mbind, Py_bind. rewrite abandon_run.
  by unfold modify_world, modify, raise.
Qed.

End pool_facts.

Lemma call_run {T A B} `{AsWorkItem A} (work : A -> Py (T * World) B) item (x : T) w :
  call work item (x, w) = work item (x, add_call (as_item item) w).
Proof. reflexivity. Qed.




Section marking.
Implicit Types (o : InputType -> Res bool) (d : list (InputType * bool)).

Lemma mark_all_lookup_notin o inputs : forall d d' inp,
  mark_all o inputs d = Ok d' -> inp ∉ inputs ->
  Dict.lookup inp d' = Dict.lookup inp d.
Proof.
  induction inputs as [|i rest IH]; simpl; intros d d' inp Hm Hnin.
  - by inversion Hm.
  - destruct (o i) as [st|e]; [|discriminate].
    apply not_elem_of_cons in Hnin as [Hne Hnin].
    rewrite (IH _ _ _ Hm Hnin). by apply dict_lookup_set_ne.
Qed.

Lemma mark_all_lookup_in o inputs : forall d d' inp,
  mark_all o inputs d = Ok d' -> inp ∈ inputs ->
  exists st, o inp = Ok st /\ Dict.lookup inp d' = Some st.
Proof.
  induction inputs as [|i rest IH]; simpl; intros d d' inp Hm Hin.
  - by apply elem_of_nil in Hin.
  - destruct (o i) as [st|e] eqn:Ho; [|discriminate].
    destruct (decide (inp ∈ rest)) as [Hr|Hr]; [by eapply IH|].
    apply elem_of_cons in Hin as [->|Hin]; [|done].
    exists st. split; [done|].
    rewrite (mark_all_lookup_notin _ _ _ _ _ Hm Hr).
    apply dict_lookup_set_eq.
Qed.

Lemma mark_all_keys o inputs : forall d d' k,
  mark_all o inputs d = Ok d' ->
  k ∈ Dict.keys d' <-> k ∈ Dict.keys d \/ k ∈ inputs.
Proof.
  induction inputs as [|i rest IH]; simpl; intros d d' k Hm.
  - inversion Hm; subst. rewrite elem_of_nil. tauto.
  - destruct (o i) as [st|e]; [|discriminate].
    rewrite (IH _ _ _ Hm), dict_keys_set_elem, elem_of_cons. tauto.
Qed.

Lemma mark_all_NoDup o inputs : forall d d',
  mark_all o inputs d = Ok d' -> NoDup (Dict.keys d) -> NoDup (Dict.keys d').
Proof.
  induction inputs as [|i rest IH]; simpl; intros d d' Hm Hnd.
  - by inversion Hm; subst.
  - destruct (o i) as [st|e]; [|discriminate].
    eapply IH; [exact Hm|]. by apply dict_keys_set_NoDup.
Qed.

End marking.
Ltac py_unfold :=
  unfold mbind, mret, Py_bind, Py_ret, Res_bind, Res_ret, self, modify_self, world_fs,
    modify_world, modify_fs, print, gets, modify, lift_res, raise, get in *.

Section facts.
Variable U : Collaborators.

Lemma forget_inputs a a' :
  forget a' = forget a -> input_files (any_super a') = input_files (any_super a).
Proof. destruct a, a'; simpl; intros [=]; congruence. Qed.

Lemma forget_is_done a a' m inp :
  forget a' = forget a -> is_done U a' m inp = is_done U a m inp.
Proof.
  destruct a as [[]|[]|[]|[]|[]|[]], a' as [[]|[]|[]|[]|[]|[]]; simpl; intros [=]; subst; try done.
Qed.

Lemma forget_recomputes a a' :
  forget a' = forget a -> recomputes_outputs a' = recomputes_outputs a.
Proof. destruct a, a'; simpl; intros [=]; congruence. Qed.

Lemma forget_outputs a a' m :
  forget a' = forget a -> recomputes_outputs a = true ->
  any_output_files U a' m = any_output_files U a m.
Proof.
  destruct a as [[]|[]|[]|[]|[]|[]], a' as [[]|[]|[]|[]|[]|[]]; simpl; intros [=] ?; subst; try done.
  - unfold DownloadIIIFManifestTask.output_files. simpl. 
    destruct task, task0; simpl in *; subst. done.
  - unfold KrakenAltoCleanUpCommand.output_files. simpl.
    destruct task, task0; simpl in *; subst. done.
  - unfold ExtractZoneAltoCommand.output_files. simpl.
    destruct task, task0; simpl in *; subst. done.
Qed.

(** The loop of a [check] whose every turn records the oracle's verdict. *)
Lemma check_loop_spec {T} (inj : T -> AnyTask) (item : bool -> InputType -> Py (T * World) bool)
    (a0 : AnyTask) (w : World) (Rout : T -> T -> Prop) :
  (forall x, Rout x x) ->
  (forall x y z, Rout x y -> Rout y z -> Rout x z) ->
  (forall acc file x1, forget (inj x1) = forget a0 ->
     exists r x', item acc file (x1, w) = (r, (x', w)) /\
       forget (inj x') = forget a0 /\ Rout x1 x' /\
       match r with
       | Ok _ => exists st, is_done U a0 (fs w) file = Ok st /\
                  _checked_files (any_super (inj x')) =
                  Dict.set file st (_checked_files (any_super (inj x1)))
       | Raise e => is_done U a0 (fs w) file = Raise e
       end) ->
  forall inputs acc x1, forget (inj x1) = forget a0 ->
    exists r x', for_fold inputs acc item (x1, w) = (r, (x', w)) /\
      forget (inj x') = forget a0 /\ Rout x1 x' /\
      marks r (mark_all (is_done U a0 (fs w)) inputs (_checked_files (any_super (inj x1))))
        (_checked_files (any_super (inj x'))).
Proof.
  intros Hrefl Htrans Hstep inputs.
  induction inputs as [|file rest IH]; intros acc x1 Hx1.
  - exists (Ok acc), x1. split; [reflexivity|]. split; [assumption|].
    split; [apply Hrefl|]. reflexivity.
  - rewrite for_fold_cons.
    destruct (Hstep acc file x1 Hx1) as (r & x2 & -> & Hx2 & HR & Hr).
    destruct r as [acc'|e].
    + destruct Hr as (st & Hst & Hset).
      destruct (IH acc' x2 Hx2) as (r & x' & -> & Hx' & HR' & Hm).
      exists r, x'. split; [reflexivity|]. split; [assumption|].
      split; [by eapply Htrans|].
      cbn [mark_all]. rewrite Hst, <- Hset. exact Hm.
    + exists (Raise e), x2. split; [reflexivity|]. split; [assumption|].
      split; [assumption|]. cbn [mark_all marks]. by rewrite Hr.
Qed.

Lemma image_check_item (x x1 : DownloadIIIFImageTask.t) acc file w :
  DownloadIIIFImageTask.check_item x acc file (x1, w) =
  match DownloadIIIFImageTask.rename_download file with
  | Ok out =>
      if exists_ out (fs w)
      then (Ok acc, (DownloadIIIFImageTask.extend_output [file]
                       (DownloadIIIFImageTask.set_checked file true x1), w))
      else match DownloadIIIFImageTask.downstream_check x with
           | Some dc =>
               (Ok (if dc file (fs w) then acc else false),
                (DownloadIIIFImageTask.set_checked file (dc file (fs w)) x1, w))
           | None => (Ok false, (DownloadIIIFImageTask.set_checked file false x1, w))
           end
  | Raise e => (Raise e, (x1, w))
  end.
Proof.
  unfold DownloadIIIFImageTask.check_item. py_unfold. simpl.
  destruct (DownloadIIIFImageTask.rename_download file); [|done].
  destruct (exists_ a (fs w)); [done|].
  by destruct (DownloadIIIFImageTask.downstream_check x).
Qed.

Lemma image_is_done (x : DownloadIIIFImageTask.t) m file :
  is_done U (Image x) m file =
  match DownloadIIIFImageTask.rename_download file with
  | Ok out => Ok (exists_ out m ||
       match DownloadIIIFImageTask.downstream_check x with
       | Some dc => dc file m
       | None => false
       end)
  | Raise e => Raise e
  end.
Proof.
  unfold is_done. py_unfold.
  by destruct (DownloadIIIFImageTask.rename_download file).
Qed.

Lemma grows_refl ok l : grows ok l l.
Proof. exists []. by rewrite app_nil_r. Qed.

Lemma grows_trans ok l1 l2 l3 : grows ok l1 l2 -> grows ok l2 l3 -> grows ok l1 l3.
Proof.
  intros (e1 & -> & H1) (e2 & -> & H2). exists (e1 ++ e2).
  rewrite app_assoc. split; [done|]. by apply Forall_app.
Qed.

Lemma image_check_loop (x : DownloadIIIFImageTask.t) w inputs :
  inputs ⊆ input_files (DownloadIIIFImageTask.task x) ->
  forall acc x1, forget (Image x1) = forget (Image x) ->
  exists r x',
    for_fold inputs acc (DownloadIIIFImageTask.check_item x) (x1, w) = (r, (x', w)) /\
    forget (Image x') = forget (Image x) /\
    grows (fun f => f ∈ input_files (DownloadIIIFImageTask.task x) /\
                    is_done U (Image x) (fs w) f = Ok true)
      (DownloadIIIFImageTask._output_files x1) (DownloadIIIFImageTask._output_files x') /\
    marks r (mark_all (is_done U (Image x) (fs w)) inputs
               (_checked_files (DownloadIIIFImageTask.task x1)))
      (_checked_files (DownloadIIIFImageTask.task x')).
Proof.
  induction inputs as [|file rest IH]; intros Hsub acc x1 Hx1.
  - exists (Ok acc), x1. split; [reflexivity|]. split; [assumption|].
    split; [apply grows_refl|]. reflexivity.
  - rewrite for_fold_cons, image_check_item.
    assert (Hfile : file ∈ input_files (DownloadIIIFImageTask.task x))
      by (apply Hsub; left).
    assert (Hrest : rest ⊆ input_files (DownloadIIIFImageTask.task x))
      by (intros y Hy; apply Hsub; by right).
    cbn [mark_all]. rewrite image_is_done.
    destruct (DownloadIIIFImageTask.rename_download file) as [out|e] eqn:Hren.
    + destruct (exists_ out (fs w)) eqn:Hex.
      * destruct (IH Hrest acc (DownloadIIIFImageTask.extend_output [file]
                     (DownloadIIIFImageTask.set_checked file true x1)) Hx1)
          as (r & x' & Hrun & Hx' & Hg & Hm).
        exists r, x'. split; [exact Hrun|]. split; [assumption|].
        split; [|exact Hm].
        eapply grows_trans; [|exact Hg].
        exists [file]. split; [reflexivity|]. constructor; [|constructor].
        split; [done|]. by rewrite image_is_done, Hren, Hex.
      * destruct (DownloadIIIFImageTask.downstream_check x) as [dc|] eqn:Hdc.
        -- destruct (IH Hrest (if dc file (fs w) then acc else false)
                       (DownloadIIIFImageTask.set_checked file (dc file (fs w)) x1) Hx1)
             as (r & x' & Hrun & Hx' & Hg & Hm).
           exists r, x'. split; [exact Hrun|]. split; [assumption|].
           split; [exact Hg | exact Hm].
        -- destruct (IH Hrest false (DownloadIIIFImageTask.set_checked file false x1) Hx1)
             as (r & x' & Hrun & Hx' & Hg & Hm).
           exists r, x'. split; [exact Hrun|]. split; [assumption|].
           split; [exact Hg | exact Hm].
    + exists (Raise e), x1. split; [reflexivity|]. split; [assumption|].
      split; [apply grows_refl|]. reflexivity.
Qed.

Lemma image_check_spec (x : DownloadIIIFImageTask.t) w :
  exists r x', DownloadIIIFImageTask.check (x, w) = (r, (x', w)) /\
    forget (Image x') = forget (Image x) /\
    grows (fun f => f ∈ input_files (DownloadIIIFImageTask.task x) /\
                    is_done U (Image x) (fs w) f = Ok true)
      (DownloadIIIFImageTask._output_files x) (DownloadIIIFImageTask._output_files x') /\
    marks r (mark_all (is_done U (Image x) (fs w)) (input_files (DownloadIIIFImageTask.task x))
               (_checked_files (DownloadIIIFImageTask.task x)))
      (_checked_files (DownloadIIIFImageTask.task x')).
Proof.
  unfold DownloadIIIFImageTask.check. py_unfold. simpl.
  by apply image_check_loop.
Qed.

Ltac check_step Hx1 :=
  simpl;
  repeat match goal with
  | |- context [match ?r with Ok _ => _ | Raise _ => _ end] =>
      match type of r with Res string => destruct r eqn:? end
  | |- context [if exists_ ?p ?m then _ else _] => destruct (exists_ p m) eqn:?
  | |- context [if negb (exists_ ?p ?m) then _ else _] => destruct (exists_ p m) eqn:?
  end;
  simpl;
  (eexists _, _; split; [reflexivity|]; split; [exact Hx1|]; split; [try exact I; reflexivity|];
   first [ reflexivity | eexists; split; reflexivity ]).

Lemma manifest_check_spec (x : DownloadIIIFManifestTask.t) w :
  exists r x', DownloadIIIFManifestTask.check (change_ext U) (x, w) = (r, (x', w)) /\
    forget (Manifest x') = forget (Manifest x) /\
    marks r (mark_all (is_done U (Manifest x) (fs w)) (input_files (DownloadIIIFManifestTask.task x))
               (_checked_files (DownloadIIIFManifestTask.task x)))
      (_checked_files (DownloadIIIFManifestTask.task x')).
Proof.
  unfold DownloadIIIFManifestTask.check.
  destruct (check_loop_spec Manifest (DownloadIIIFManifestTask.check_item (change_ext U) x)
              (Manifest x) w (fun _ _ => True)) with
    (inputs := input_files (DownloadIIIFManifestTask.task x)) (acc := true) (x1 := x)
    as (r & x' & Hrun & Hx' & _ & Hm); [done|done| |done|].
  - intros acc file x1 Hx1.
    unfold DownloadIIIFManifestTask.check_item, is_done. py_unfold.
    check_step Hx1.
  - exists r, x'. split; [|done]. py_unfold. simpl. exact Hrun.
Qed.

Lemma cleanup_check_spec (x : KrakenAltoCleanUpCommand.t) w :
  exists r x', KrakenAltoCleanUpCommand.check (check_kraken_filename U) (x, w) = (r, (x', w)) /\
    forget (AltoCleanUp x') = forget (AltoCleanUp x) /\
    marks r (mark_all (is_done U (AltoCleanUp x) (fs w)) (input_files (KrakenAltoCleanUpCommand.task x))
               (_checked_files (KrakenAltoCleanUpCommand.task x)))
      (_checked_files (KrakenAltoCleanUpCommand.task x')).
Proof.
  unfold KrakenAltoCleanUpCommand.check.
  destruct (check_loop_spec AltoCleanUp (KrakenAltoCleanUpCommand.check_item (check_kraken_filename U))
              (AltoCleanUp x) w (fun _ _ => True)) with
    (inputs := input_files (KrakenAltoCleanUpCommand.task x)) (acc := true) (x1 := x)
    as (r & x' & Hrun & Hx' & _ & Hm); [done|done| |done|].
  - intros acc file x1 Hx1.
    unfold KrakenAltoCleanUpCommand.check_item, is_done. py_unfold.
    check_step Hx1.
  - exists r, x'. split; [|done]. py_unfold. simpl. exact Hrun.
Qed.

Lemma clear_check_spec (x : ClearFileCommand.t) w :
  exists r x', ClearFileCommand.check (x, w) = (r, (x', w)) /\
    forget (ClearFile x') = forget (ClearFile x) /\
    marks r (mark_all (is_done U (ClearFile x) (fs w)) (input_files (ClearFileCommand.task x))
               (_checked_files (ClearFileCommand.task x)))
      (_checked_files (ClearFileCommand.task x')).
Proof.
  unfold ClearFileCommand.check.
  destruct (check_loop_spec ClearFile ClearFileCommand.check_item
              (ClearFile x) w (fun _ _ => True)) with
    (inputs := input_files (ClearFileCommand.task x)) (acc := true) (x1 := x)
    as (r & x' & Hrun & Hx' & _ & Hm); [done|done| |done|].
  - intros acc file x1 Hx1.
    unfold ClearFileCommand.check_item, is_done. py_unfold.
    check_step Hx1.
  - exists r, x'. split; [|done]. py_unfold. simpl. exact Hrun.
Qed.

Lemma extract_check_spec (x : ExtractZoneAltoCommand.t) w :
  exists r x', ExtractZoneAltoCommand.check (x, w) = (r, (x', w)) /\
    forget (ExtractZone x') = forget (ExtractZone x) /\
    marks r (mark_all (is_done U (ExtractZone x) (fs w)) (input_files (ExtractZoneAltoCommand.task x))
               (_checked_files (ExtractZoneAltoCommand.task x)))
      (_checked_files (ExtractZoneAltoCommand.task x')).
Proof.
  unfold ExtractZoneAltoCommand.check.
  destruct (check_loop_spec ExtractZone ExtractZoneAltoCommand.check_item
              (ExtractZone x) w (fun _ _ => True)) with
    (inputs := input_files (ExtractZoneAltoCommand.task x)) (acc := true) (x1 := x)
    as (r & x' & Hrun & Hx' & _ & Hm); [done|done| |done|].
  - intros acc file x1 Hx1.
    unfold ExtractZoneAltoCommand.check_item, is_done. py_unfold.
    check_step Hx1.
  - exists r, x'. split; [|done]. py_unfold. simpl. exact Hrun.
Qed.

Lemma kraken_check_loop (x : KrakenLikeCommand.t) w :
  exists r x',
    for_fold (input_files (KrakenLikeCommand.task x)) true
      (KrakenLikeCommand.check_item (check_content U) x) (x, w) = (r, (x', w)) /\
    forget (Kraken x') = forget (Kraken x) /\
    KrakenLikeCommand._output_files x' = KrakenLikeCommand._output_files x /\
    marks r (mark_all (is_done U (Kraken x) (fs w)) (input_files (KrakenLikeCommand.task x))
               (_checked_files (KrakenLikeCommand.task x)))
      (_checked_files (KrakenLikeCommand.task x')).
Proof.
  apply (check_loop_spec Kraken (KrakenLikeCommand.check_item (check_content U) x)
           (Kraken x) w
           (fun y y' => KrakenLikeCommand._output_files y' = KrakenLikeCommand._output_files y));
    [done|congruence| |done].
  intros acc file x1 Hx1.
  unfold KrakenLikeCommand.check_item, is_done. py_unfold.
  check_step Hx1.
Qed.

Lemma kraken_check_spec (x : KrakenLikeCommand.t) w :
  exists r x', KrakenLikeCommand.check (check_content U) (x, w) = (r, (x', w)) /\
    forget (Kraken x') = forget (Kraken x) /\
    marks r (mark_all (is_done U (Kraken x) (fs w)) (input_files (KrakenLikeCommand.task x))
               (_checked_files (KrakenLikeCommand.task x)))
      (_checked_files (KrakenLikeCommand.task x')) /\
    KrakenLikeCommand._output_files x' =
      KrakenLikeCommand._output_files x ++
      (if is_ok r
       then (filter (fun item : InputType * bool => item.2)
               (_checked_files (KrakenLikeCommand.task x'))).*1
       else []).
Proof.
  unfold KrakenLikeCommand.check.
  destruct (kraken_check_loop x w) as (r & x' & Hrun & Hx' & Hout & Hm).
  py_unfold. simpl. rewrite Hrun. destruct r as [b|e]; simpl.
  - eexists _, _. split; [reflexivity|]. split; [exact Hx'|].
    split; [exact Hm|]. simpl. by rewrite Hout.
  - eexists _, _. split; [reflexivity|]. split; [exact Hx'|].
    split; [exact Hm|]. by rewrite app_nil_r.
Qed.

Lemma filter_true_lookup (d : list (InputType * bool)) k :
  NoDup (Dict.keys d) ->
  k ∈ (filter (fun item : InputType * bool => item.2) d).*1 <-> Dict.lookup k d = Some true.
Proof.
  intros Hnd. rewrite <- dict_elem_of_lookup by done.
  rewrite list_elem_of_fmap. split.
  - intros ([k' v] & -> & Hin). apply list_elem_of_filter in Hin as [Hv Hin].
    simpl in *. destruct v; [done | by destruct Hv].
  - intros Hin. exists (k, true). split; [done|]. by apply list_elem_of_filter.
Qed.

Lemma filter_false_lookup (d : list (InputType * bool)) k :
  NoDup (Dict.keys d) ->
  k ∈ (filter (fun item : InputType * bool => negb item.2) d).*1 <-> Dict.lookup k d = Some false.
Proof.
  intros Hnd. rewrite <- dict_elem_of_lookup by done.
  rewrite list_elem_of_fmap. split.
  - intros ([k' v] & -> & Hin). apply list_elem_of_filter in Hin as [Hv Hin].
    simpl in *. destruct v; [by destruct Hv | done].
  - intros Hin. exists (k, false). split; [done|]. by apply list_elem_of_filter.
Qed.

(** What [check] does, for an object of any class: it leaves the world as
    it is, marks every input with the verdict of the class's oracle (raising
    where the oracle raises), and can only append inputs it found done to
    the recorded outputs. *)
Lemma any_check_spec (a : AnyTask) (w : World) :
  exists r a', any_check U (a, w) = (r, (a', w)) /\
    forget a' = forget a /\
    marks r (mark_all (is_done U a (fs w)) (input_files (any_super a))
               (_checked_files (any_super a)))
      (_checked_files (any_super a')) /\
    exists extra, recorded a' = recorded a ++ extra /\
      (is_ok r = true -> well_formed (any_super a) ->
       Forall (fun f => f ∈ input_files (any_super a) /\
                        is_done U a (fs w) f = Ok true) extra).
Proof.
  destruct a as [x|x|x|x|x|x]; unfold any_check, dispatch; simpl.
  - destruct (image_check_spec x w) as (r & x' & -> & Hf & (extra & He & Hex) & Hm).
    exists r, (Image x'). split; [done|]. split; [done|]. split; [done|].
    exists extra. split; [done|]. intros _ _. exact Hex.
  - destruct (manifest_check_spec x w) as (r & x' & -> & Hf & Hm).
    exists r, (Manifest x'). split; [done|]. split; [done|]. split; [done|].
    exists []. split; [done|]. intros _ _. constructor.
  - destruct (kraken_check_spec x w) as (r & x' & -> & Hf & Hm & Hout).
    exists r, (Kraken x'). split; [done|]. split; [done|]. split; [done|].
    eexists. split; [exact Hout|]. intros Hok [Hnd Hkeys].
    destruct r as [b|e]; [|done]. simpl in *.
    apply Forall_forall. intros f Hf'.
    apply filter_true_lookup in Hf'; [|by eapply mark_all_NoDup].
    assert (Hin : f ∈ input_files (KrakenLikeCommand.task x)).
    { assert (Hk : f ∈ Dict.keys (_checked_files (KrakenLikeCommand.task x'))).
      { apply dict_lookup_keys. by eexists. }
      apply (mark_all_keys _ _ _ _ _ Hm) in Hk as [Hk|Hk]; [by apply Hkeys | done]. }
    split; [done|].
    destruct (mark_all_lookup_in _ _ _ _ _ Hm Hin) as (st & Hst & Hl).
    congruence.
  - destruct (cleanup_check_spec x w) as (r & x' & -> & Hf & Hm).
    exists r, (AltoCleanUp x'). split; [done|]. split; [done|]. split; [done|].
    exists []. split; [done|]. intros _ _. constructor.
  - destruct (clear_check_spec x w) as (r & x' & -> & Hf & Hm).
    exists r, (ClearFile x'). split; [done|]. split; [done|]. split; [done|].
    exists []. split; [done|]. intros _ _. constructor.
  - destruct (extract_check_spec x w) as (r & x' & -> & Hf & Hm).
    exists r, (ExtractZone x'). split; [done|]. split; [done|]. split; [done|].
    exists []. split; [done|]. intros _ _. constructor.
Qed.

#[global] Instance method_frame_laws {T} : FrameLaws (T * World) T.
Proof. by split. Qed.

#[global] Instance local_frame_laws {L St T} `{FrameLaws St T} : FrameLaws (L * St) T.
Proof.
  split; intros f [l s]; simpl.
  - apply self_upd_self.
  - apply world_upd_self.
  - apply self_upd_world.
  - apply world_upd_world.
Qed.

Section steady.
Context {St T : Type} `{FrameLaws St T} (inj : T -> AnyTask).

Lemma steady_refl s : steady inj s s.
Proof. repeat split. exists []. by rewrite app_nil_r. Qed.

Lemma steady_trans s1 s2 s3 : steady inj s1 s2 -> steady inj s2 s3 -> steady inj s1 s3.
Proof.
  intros (Hf & Hc & Hs & e1 & He1) (Hf' & Hc' & Hs' & e2 & He2).
  split; [congruence|]. split; [congruence|]. split; [congruence|].
  exists (e1 ++ e2). rewrite He2, He1. by rewrite app_assoc.
Qed.

Lemma keeps_ret {A} (a : A) : keeps inj (mret a).
Proof. intros s. apply steady_refl. Qed.

Lemma keeps_raise {A} e : keeps inj (raise e : Py St A).
Proof. intros s. apply steady_refl. Qed.

Lemma keeps_lift_res {A} (r : Res A) : keeps inj (lift_res r).
Proof. intros s. apply steady_refl. Qed.

Lemma keeps_gets {A} (f : St -> A) : keeps inj (gets f).
Proof. intros s. apply steady_refl. Qed.

Lemma keeps_bind {A B} (m : Py St A) (k : A -> Py St B) :
  keeps inj m -> (forall a, keeps inj (k a)) -> keeps inj (m ≫= k).
Proof.
  intros Hm Hk s. unfold mbind, Py_bind. specialize (Hm s).
  destruct (m s) as [[a|e] s1]; simpl in *; [|done].
  eapply steady_trans; [exact Hm | apply Hk].
Qed.

Lemma keeps_try_except {A} (c h : Py St A) e : keeps inj c -> keeps inj h -> keeps inj (try_except c e h).
Proof.
  intros Hc Hh s. unfold try_except. specialize (Hc s).
  destruct (c s) as [[a|e'] s1]; simpl in *; [done|].
  destruct (decide (e' = e)); [|done].
  eapply steady_trans; [exact Hc | apply Hh].
Qed.

Lemma keeps_for_each {A} (xs : list A) (body : A -> Py St unit) :
  (forall x, keeps inj (body x)) -> keeps inj (for_each xs body).
Proof.
  intros Hbody s. revert s. apply for_each_inv.
  - apply steady_refl.
  - apply steady_trans.
  - intros x s. apply Hbody.
Qed.

Lemma keeps_modify_world (f : World -> World) :
  (forall w, submitted (f w) = submitted w) -> keeps inj (modify_world f).
Proof.
  intros Hf s. unfold modify_world, modify. simpl.
  unfold steady. rewrite self_upd_world, world_upd_world, Hf.
  repeat split. exists []. by rewrite app_nil_r.
Qed.

Lemma keeps_modify_fs (f : gmap string string -> gmap string string) :
  keeps inj (modify_fs f).
Proof. by apply keeps_modify_world. Qed.

Lemma keeps_print line : keeps inj (print line).
Proof. by apply keeps_modify_world. Qed.

Lemma keeps_world_fs : keeps inj world_fs.
Proof. apply keeps_gets. Qed.

Lemma keeps_self : keeps inj self.
Proof. apply keeps_gets. Qed.

Lemma keeps_modify_self (f : T -> T) :
  (forall x, forget (inj (f x)) = forget (inj x) /\
             _checked_files (any_super (inj (f x))) = _checked_files (any_super (inj x)) /\
             exists extra, recorded (inj (f x)) = recorded (inj x) ++ extra) ->
  keeps inj (modify_self f).
Proof.
  intros Hf s. unfold modify_self, modify. simpl.
  unfold steady. rewrite self_upd_self, world_upd_self.
  destruct (Hf (frame_self s)) as (? & ? & ?). by repeat split.
Qed.

Lemma keeps_call {A B} `{AsWorkItem A} (work : A -> Py St B) item :
  keeps inj (work item) -> keeps inj (call work item).
Proof.
  intros Hw. unfold call. apply keeps_bind; [by apply keeps_modify_world|].
  intros _. exact Hw.
Qed.

Lemma keeps_run_detached {A B} `{AsWorkItem A} (work : A -> Py St B) items :
  (forall item, keeps inj (work item)) -> keeps inj (run_detached work items).
Proof.
  intros Hw. induction items as [|item rest IH]; intros s.
  - apply steady_refl.
  - cbn [run_detached].
    eapply steady_trans; [apply (keeps_call work item (Hw item) s) | apply IH].
Qed.

Lemma keeps_abandon {A B} `{AsWorkItem A} (work : A -> Py St B) queued :
  (forall item, keeps inj (work item)) -> keeps inj (abandon work queued).
Proof.
  intros Hw. unfold abandon. apply keeps_bind; [apply keeps_gets|].
  intros w. by apply keeps_run_detached.
Qed.

Lemma keeps_or_abandon {A B R} `{AsWorkItem A} (work : A -> Py St B) queued (m : Py St R) :
  (forall item, keeps inj (work item)) -> keeps inj m ->
  keeps inj (or_abandon work queued m).
Proof.
  intros Hw Hm s. unfold or_abandon. specialize (Hm s).
  destruct (m s) as [[r|e] s1]; [done|]. simpl in Hm.
  eapply steady_trans; [exact Hm|].
  apply keeps_bind; [by apply keeps_abandon | intros; apply keeps_raise].
Qed.

Lemma keeps_deliver_sigint {A B} `{AsWorkItem A} (work : A -> Py St B) queued :
  (forall item, keeps inj (work item)) -> keeps inj (deliver_sigint work queued).
Proof.
  intros Hw. unfold deliver_sigint. apply keeps_bind; [apply keeps_gets|].
  intros w. destruct (sigint w) as [[[|n] partial]|].
  - apply keeps_bind; [by apply keeps_abandon|]. intros _.
    apply keeps_bind; [by apply keeps_modify_world | intros; apply keeps_raise].
  - by apply keeps_modify_world.
  - apply keeps_ret.
Qed.

Lemma keeps_executor_map {A B} `{AsWorkItem A} (work : A -> Py St B) items
    (consume : B -> Py St unit) :
  (forall item, keeps inj (work item)) -> (forall r, keeps inj (consume r)) ->
  keeps inj (executor_map work items consume).
Proof.
  intros Hw Hc. induction items as [|item rest IH]; [apply keeps_ret|].
  cbn [executor_map].
  apply keeps_bind; [by apply keeps_deliver_sigint|]. intros _.
  apply keeps_bind; [apply keeps_or_abandon; [done | by apply keeps_call]|]. intros r.
  apply keeps_bind; [by apply keeps_or_abandon|]. intros _. exact IH.
Qed.
End steady.

Lemma keeps_modify_local {L St T} `{FrameLaws St T} (inj : T -> AnyTask) (f : L -> L) :
  keeps (St := L * St) inj (modify_local f).
Proof.
  intros [l s]. unfold modify_local, modify, steady. simpl.
  repeat split. exists []. by rewrite app_nil_r.
Qed.

Lemma keeps_get_local {L St T} `{FrameLaws St T} (inj : T -> AnyTask) :
  keeps (St := L * St) inj get_local.
Proof. intros [l s]. apply steady_refl. Qed.

Lemma keeps_with_local {L St T A} `{FrameLaws St T} (inj : T -> AnyTask)
    (l0 : L) (c : Py (L * St) A) :
  keeps inj c -> keeps inj (with_local l0 c).
Proof.
  intros Hc s. unfold with_local. specialize (Hc (l0, s)).
  destruct (c (l0, s)) as [r [l s']]. exact Hc.
Qed.

Ltac keeps_step :=
  first
    [ apply keeps_ret | apply keeps_raise | apply keeps_lift_res
    | apply keeps_self | apply keeps_world_fs | apply keeps_gets
    | apply keeps_modify_fs | apply keeps_print
    | apply keeps_modify_local | apply keeps_get_local
    | apply keeps_bind | apply keeps_for_each | apply keeps_executor_map
    | apply keeps_try_except | apply keeps_with_local
    | match goal with
      | |- keeps _ (match ?x with _ => _ end) => destruct x
      end
    | progress intros ].

Ltac keeps_tac := repeat keeps_step.

(** ** The calls a method body makes *)

Section call_log_facts.
Context {St T : Type} `{FrameLaws St T}.

Lemma logged_refl (s : St) : logged [] s s.
Proof. split; [by rewrite app_nil_r | done]. Qed.

Lemma logged_trans cs1 cs2 (s1 s2 s3 : St) :
  logged cs1 s1 s2 -> logged cs2 s2 s3 -> logged (cs1 ++ cs2) s1 s3.
Proof.
  intros [Hc1 Ho1] [Hc2 Ho2]. split; [|congruence].
  by rewrite Hc2, Hc1, app_assoc.
Qed.

Lemma logged_nil_l cs (s1 s2 s3 : St) :
  logged [] s1 s2 -> logged cs s2 s3 -> logged cs s1 s3.
Proof. intros H1 H2. exact (logged_trans [] cs _ _ _ H1 H2). Qed.

Lemma logged_nil_r cs (s1 s2 s3 : St) :
  logged cs s1 s2 -> logged [] s2 s3 -> logged cs s1 s3.
Proof.
  intros H1 H2. pose proof (logged_trans cs [] _ _ _ H1 H2) as H3.
  by rewrite app_nil_r in H3.
Qed.

(** A computation that calls no work function. *)
Lemma logs_nil_intro {A} (m : Py St A) :
  (forall s, logged [] s (m s).2 /\
     (sigint (frame_world s) = None ->
      sigint (frame_world (m s).2) = None /\ (m s).1 <> Raise KeyboardInterrupt)) ->
  logs [] m.
Proof.
  intros Hm s. destruct (Hm s) as [Hl Hs]. split; [|done].
  exists 0%nat. split; [done|]. intros _ _. simpl. lia.
Qed.

Lemma logs_nil_logged {A} (m : Py St A) s : logs [] m -> logged [] s (m s).2.
Proof. intros Hm. destruct (Hm s) as [[n [Hl _]] _]. by rewrite take_nil in Hl. Qed.

Lemma logs_ret {A} (a : A) : logs [] (mret a : Py St A).
Proof. apply logs_nil_intro. intros s. split; [apply logged_refl | done]. Qed.

Lemma logs_raise {A} e : e <> KeyboardInterrupt -> logs [] (raise e : Py St A).
Proof.
  intros He. apply logs_nil_intro. intros s. split; [apply logged_refl|].
  intros Hs. split; [done|]. simpl. congruence.
Qed.

Lemma logs_lift_res {A} (r : Res A) :
  r <> Raise KeyboardInterrupt -> logs [] (lift_res r : Py St A).
Proof.
  intros Hr. apply logs_nil_intro. intros s. split; [apply logged_refl | done].
Qed.

Lemma logs_gets {A} (f : St -> A) : logs [] (gets f).
Proof. apply logs_nil_intro. intros s. split; [apply logged_refl | done]. Qed.

Lemma logs_self : logs [] (self : Py St T).
Proof. apply logs_gets. Qed.

Lemma logs_world_fs : logs [] (world_fs : Py St _).
Proof. apply logs_gets. Qed.

Lemma logs_modify_world (f : World -> World) :
  (forall w, calls (f w) = calls w /\ overrun (f w) = overrun w /\ sigint (f w) = sigint w) ->
  logs [] (modify_world f : Py St unit).
Proof.
  intros Hf. apply logs_nil_intro. intros s. unfold modify_world, modify. simpl.
  destruct (Hf (frame_world s)) as (Hc & Ho & Hs).
  unfold logged. rewrite world_upd_world, Hc, Ho, Hs, app_nil_r. by repeat split.
Qed.

Lemma logs_modify_fs f : logs [] (modify_fs f : Py St unit).
Proof. by apply logs_modify_world. Qed.

Lemma logs_print line : logs [] (print line : Py St unit).
Proof. by apply logs_modify_world. Qed.

Lemma logs_modify_self (f : T -> T) : logs [] (modify_self f : Py St unit).
Proof.
  apply logs_nil_intro. intros s. unfold modify_self, modify. simpl.
  unfold logged. rewrite world_upd_self, app_nil_r. by repeat split.
Qed.

Lemma logs_bind_l {A B} items (m : Py St A) (k : A -> Py St B) :
  logs [] m -> (forall a, logs items (k a)) -> logs items (m ≫= k).
Proof.
  intros Hm Hk s. pose proof (logs_nil_logged m s Hm) as Hl.
  destruct (Hm s) as [_ Hs]. unfold mbind, Py_bind.
  destruct (m s) as [[a|e] s1]; simpl in *.
  - destruct (Hk a s1) as [(n & Hl' & Hall) Hs']. split.
    + exists n. split; [by eapply logged_nil_l|].
      intros Hnone Hok. apply Hall; [by apply Hs | done].
    + intros Hnone. apply Hs'. by apply Hs.
  - split; [exists 0%nat; by rewrite take_0|].
    intros Hnone. destruct (Hs Hnone) as [Hn Hne]. split; [done|].
    intros [= ->]. by apply Hne.
Qed.

Lemma logs_bind_r {A B} items (m : Py St A) (k : A -> Py St B) :
  logs items m -> (forall a, logs [] (k a)) -> logs items (m ≫= k).
Proof.
  intros Hm Hk s. destruct (Hm s) as [(n & Hl & Hall) Hs]. unfold mbind, Py_bind.
  destruct (m s) as [[a|e] s1]; simpl in *.
  - pose proof (logs_nil_logged (k a) s1 (Hk a)) as Hl'.
    destruct (Hk a s1) as [_ Hs']. split.
    + exists n. split; [by eapply logged_nil_r|].
      intros Hnone _. by apply Hall.
    + intros Hnone. apply Hs'. by apply Hs.
  - split; [exists n; split; [done|]; by intros _ [=]|].
    intros Hnone. destruct (Hs Hnone) as [Hn Hne]. split; [done|].
    intros [= ->]. by apply Hne.
Qed.

Lemma logs_bind {A B} (m : Py St A) (k : A -> Py St B) :
  logs [] m -> (forall a, logs [] (k a)) -> logs [] (m ≫= k).
Proof. apply logs_bind_l. Qed.

Lemma logs_for_each {A} (xs : list A) (body : A -> Py St unit) :
  (forall x, logs [] (body x)) -> logs [] (for_each xs body).
Proof.
  intros Hbody. induction xs as [|x xs IH]; [apply logs_ret|].
  cbn [for_each]. apply logs_bind; [apply Hbody | intros _; exact IH].
Qed.

(** The handler of a [try] runs only when an interrupt was pending. *)
Lemma logs_try_except {A} items (c h : Py St A) :
  logs items c -> logs [] h -> logs items (try_except c KeyboardInterrupt h).
Proof.
  intros Hc Hh s. destruct (Hc s) as [(n & Hl & Hall) Hs]. unfold try_except.
  destruct (c s) as [[a|e] s1] eqn:Hrun; simpl in *; [split; [by exists n | done]|].
  destruct (decide (e = KeyboardInterrupt)) as [->|Hne].
  - pose proof (logs_nil_logged h s1 Hh) as Hl'. split.
    + exists n. split; [by eapply logged_nil_r|].
      intros Hnone _. by destruct (Hs Hnone) as [_ []].
    + intros Hnone. by destruct (Hs Hnone) as [_ []].
  - split; [|done]. exists n. split; [done|]. by intros _ [=].
Qed.

Section pool_calls.
Context {A B : Type} `{AsWorkItem A}.
Variable work : A -> Py St B.
Hypothesis work_logs : forall item, logs [] (work item).

Lemma call_logged item s :
  logged [as_item item] s (call work item s).2 /\
  (sigint (frame_world s) = None ->
   sigint (frame_world (call work item s).2) = None /\
   (call work item s).1 <> Raise KeyboardInterrupt).
Proof.
  unfold call, mbind, Py_bind, modify_world, modify.
  set (s0 := frame_upd_world (add_call (as_item item)) s).
  assert (Hl0 : logged [as_item item] s s0).
  { unfold logged, s0. by rewrite world_upd_world. }
  assert (Hs0 : sigint (frame_world s0) = sigint (frame_world s)).
  { unfold s0. by rewrite world_upd_world. }
  pose proof (logs_nil_logged (work item) s0 (work_logs item)) as Hl.
  destruct (work_logs item s0) as [_ Hs]. split.
  - by eapply logged_nil_r.
  - intros Hnone. apply Hs. by rewrite Hs0.
Qed.

Lemma run_detached_logged items : forall s,
  logged (as_item <$> items) s (run_detached work items s).2 /\
  (sigint (frame_world s) = None ->
   sigint (frame_world (run_detached work items s).2) = None).
Proof.
  induction items as [|item rest IH]; intros s.
  - split; [apply logged_refl | done].
  - cbn [run_detached]. destruct (call_logged item s) as [Hl Hs].
    destruct (IH (call work item s).2) as [Hl' Hs']. split.
    + rewrite fmap_cons. exact (logged_trans [_] _ _ _ _ Hl Hl').
    + intros Hnone. apply Hs'. by apply Hs.
Qed.

Lemma abandon_logged {R} queued e s :
  exists n,
    logged (take n (as_item <$> queued)) s ((abandon work queued;; raise e : Py St R) s).2 /\
    (sigint (frame_world s) = None ->
     sigint (frame_world ((abandon work queued;; raise e : Py St R) s).2) = None).
Proof.
  rewrite abandon_raise. cbn [snd].
  exists (overrun (frame_world s)). rewrite <- fmap_take. apply run_detached_logged.
Qed.

Lemma logs_deliver_sigint queued s :
  (sigint (frame_world s) = None -> deliver_sigint work queued s = (Ok tt, s)) /\
  (is_ok (deliver_sigint work queued s).1 = true ->
   logged [] s (deliver_sigint work queued s).2) /\
  (exists n, logged (take n (as_item <$> queued)) s (deliver_sigint work queued s).2).
Proof.
  rewrite deliver_sigint_run.
  destruct (sigint (frame_world s)) as [[[|k] partial]|] eqn:Hs; cbn [fst snd].
  - split; [done|]. split; [done|].
    exists (overrun (frame_world s)). rewrite <- fmap_take.
    destruct (run_detached_logged (take (overrun (frame_world s)) queued) s) as [[Hc Ho] _].
    unfold logged. by rewrite world_upd_world.
  - assert (Hl : logged [] s (frame_upd_world (set_sigint (Some (k, partial))) s)).
    { unfold logged. rewrite world_upd_world. by rewrite app_nil_r. }
    split; [done|]. split; [done|]. exists 0%nat. by rewrite take_0.
  - split; [done|]. split; [intros _; apply logged_refl|].
    exists 0%nat. rewrite take_0. apply logged_refl.
Qed.

Lemma logs_executor_map items (consume : B -> Py St unit) :
  (forall r, logs [] (consume r)) ->
  logs (as_item <$> items) (executor_map work items consume).
Proof.
  intros Hconsume. induction items as [|item rest IH]; [apply logs_ret|].
  assert (Hturn : forall s,
    let out := match call work item s with
               | (Ok r, s1) =>
                   match consume r s1 with
                   | (Ok _, s2) => executor_map work rest consume s2
                   | (Raise e, s2) => (abandon work rest;; raise e) s2
                   end
               | (Raise e, s1) => (abandon work rest;; raise e) s1
               end in
    (exists n, logged (take n (as_item <$> item :: rest)) s out.2 /\
       (sigint (frame_world s) = None -> is_ok out.1 = true ->
        (length (as_item <$> item :: rest) <= n)%nat)) /\
    (sigint (frame_world s) = None ->
     sigint (frame_world out.2) = None /\ out.1 <> Raise KeyboardInterrupt)).
  { intros s. cbv zeta. destruct (call_logged item s) as [Hl Hs].
    destruct (call work item s) as [[r|e] s1]; cbn [fst snd] in Hl, Hs.
    - pose proof (logs_nil_logged (consume r) s1 (Hconsume r)) as Hl1.
      destruct (Hconsume r s1) as [_ Hs1].
      destruct (consume r s1) as [[[]|e] s2]; cbn [fst snd] in Hl1, Hs1.
      + destruct (IH s2) as [(n & Hl2 & Hall) Hs2]. split.
        * exists (S n). split.
          { rewrite fmap_cons. cbn [take].
            exact (logged_trans [_] _ _ _ _ (logged_nil_r _ _ _ _ Hl Hl1) Hl2). }
          intros Hnone Hok. rewrite fmap_cons. cbn [length].
          apply le_n_S, Hall; [|done]. apply Hs1. by apply Hs.
        * intros Hnone. apply Hs2, Hs1. by apply Hs.
      + destruct (abandon_logged (R := unit) rest e s2) as (n & Hl2 & Hs2).
        rewrite abandon_raise in *. cbn [fst snd] in *. split.
        * exists (S n). split; [|by intros _ [=]].
          rewrite fmap_cons. cbn [take].
          exact (logged_trans [_] _ _ _ _ (logged_nil_r _ _ _ _ Hl Hl1) Hl2).
        * intros Hnone. destruct (Hs Hnone) as [Hn1 _].
          destruct (Hs1 Hn1) as [Hn2 Hne]. split; [by apply Hs2 | congruence].
    - destruct (abandon_logged (R := unit) rest e s1) as (n & Hl2 & Hs2).
      rewrite abandon_raise in *. cbn [fst snd] in *. split.
      + exists (S n). split; [|by intros _ [=]].
        rewrite fmap_cons. cbn [take]. exact (logged_trans [_] _ _ _ _ Hl Hl2).
      + intros Hnone. destruct (Hs Hnone) as [Hn1 Hne].
        split; [by apply Hs2 | congruence]. }
  intros s. rewrite executor_map_unfold.
  destruct (logs_deliver_sigint (item :: rest) s) as (Hnone & Hsame & n0 & Hl0).
  destruct (sigint (frame_world s)) as [[k partial]|] eqn:Hsig.
  - destruct (deliver_sigint work (item :: rest) s) as [[[]|e] s0] eqn:Hdel;
      cbn [fst snd] in Hl0, Hsame.
    + destruct (Hturn s0) as [(n & Hl & _) _]. split; [|done].
      exists n. split; [|done]. eapply logged_nil_l; [by apply Hsame | done].
    + split; [|done]. by exists n0.
  - rewrite (Hnone eq_refl). specialize (Hturn s). cbv zeta in Hturn.
    rewrite Hsig in Hturn. exact Hturn.
Qed.

End pool_calls.

End call_log_facts.

Lemma logs_modify_local {L St T} `{FrameLaws St T} (f : L -> L) :
  logs (St := L * St) [] (modify_local f).
Proof.
  apply logs_nil_intro. intros [l s]. unfold modify_local, modify, logged. simpl.
  rewrite app_nil_r. by repeat split.
Qed.

Lemma logs_get_local {L St T} `{FrameLaws St T} :
  logs (St := L * St) [] (get_local : Py (L * St) L).
Proof. apply logs_gets. Qed.

Lemma logs_with_local {L St T A} `{FrameLaws St T} items (l0 : L) (c : Py (L * St) A) :
  logs items c -> logs items (with_local l0 c).
Proof.
  intros Hc s. unfold with_local. specialize (Hc (l0, s)).
  destruct (c (l0, s)) as [r [l s']]. exact Hc.
Qed.

Ltac logs_step :=
  first
    [ apply logs_ret | apply logs_gets | apply logs_self | apply logs_world_fs
    | apply logs_modify_fs | apply logs_print | apply logs_modify_self
    | apply logs_modify_local | apply logs_get_local
    | apply logs_bind | apply logs_for_each
    | apply logs_raise; congruence
    | match goal with
      | |- logs _ (match ?x with _ => _ end) => destruct x
      | |- logs _ (if ?x then _ else _) => destruct x
      end
    | progress intros ].

Ltac logs_tac := repeat logs_step.

(** The part of [_process] that follows the call of [executor.map]. *)
Lemma submit_then_keep {T} (inj : T -> AnyTask) {A} inputs (rest : Py (T * World) A) x w :
  keeps inj rest ->
  let out := (modify_world (add_submitted inputs);; rest) (x, w) in
  forget (inj out.2.1) = forget (inj x) /\
  _checked_files (any_super (inj out.2.1)) = _checked_files (any_super (inj x)) /\
  submitted out.2.2 = submitted w ++ inputs /\
  exists extra, recorded (inj out.2.1) = recorded (inj x) ++ extra.
Proof.
  intros Hrest. simpl. unfold mbind, Py_bind, modify_world, modify. simpl.
  destruct (Hrest (x, add_submitted inputs w)) as (Hf & Hc & Hs & He).
  destruct (rest (x, add_submitted inputs w)) as [[r|e] [x' w']]; simpl in *; done.
Qed.

Lemma kraken_work_keeps sample :
  keeps Kraken (KrakenLikeCommand.work (shell U) sample).
Proof. unfold KrakenLikeCommand.work, decode. keeps_tac. Qed.

Lemma kraken_collect_keeps r : keeps Kraken (KrakenLikeCommand.collect r).
Proof.
  unfold KrakenLikeCommand.collect. destruct r; [|apply keeps_ret].
  apply keeps_modify_self. intros x. repeat split. by eexists.
Qed.

Lemma rename_download_getitem file tgt :
  DownloadIIIFImageTask.rename_download file = Ok tgt ->
  exists url, getitem file 0 = Ok url.
Proof.
  unfold DownloadIIIFImageTask.rename_download, mbind, Res_bind.
  destruct (getitem file 1); [|done].
  destruct (getitem file 0); [by eexists | done].
Qed.

Lemma targets_cons file rest :
  DownloadIIIFImageTask.targets (file :: rest) =
  match getitem file 0 with
  | Ok url =>
      match DownloadIIIFImageTask.rename_download file with
      | Ok tgt =>
          match DownloadIIIFImageTask.targets rest with
          | Ok items => Ok ((url, tgt) :: items)
          | Raise e => Raise e
          end
      | Raise e => Raise e
      end
  | Raise e => Raise e
  end.
Proof.
  unfold DownloadIIIFImageTask.targets. simpl.
  unfold mbind, mret, Res_bind, Res_ret.
  destruct (getitem file 0); [|done].
  by destruct (DownloadIIIFImageTask.rename_download file).
Qed.

Lemma targets_ok inputs :
  Forall (fun inp => is_ok (DownloadIIIFImageTask.rename_download inp) = true) inputs ->
  exists items, DownloadIIIFImageTask.targets inputs = Ok items.
Proof.
  induction 1 as [|file rest Hfile _ [items IH]]; [by eexists|].
  rewrite targets_cons.
  destruct (DownloadIIIFImageTask.rename_download file) as [tgt|] eqn:Hren; [|done].
  destruct (rename_download_getitem _ _ Hren) as [url ->].
  rewrite IH. by eexists.
Qed.

Lemma rename_download_raise file e :
  DownloadIIIFImageTask.rename_download file = Raise e -> e = IndexError.
Proof.
  unfold DownloadIIIFImageTask.rename_download, mbind, Res_bind.
  destruct file as [s|u d]; simpl.
  - destruct (PyStr.char_at s 1); [|by intros [= <-]].
    destruct (PyStr.char_at s 0); [|by intros [= <-]].
    destruct (PyStr.index_from_end _ 5); [done | by intros [= <-]].
  - destruct (PyStr.index_from_end _ 5); [done | by intros [= <-]].
Qed.

Lemma targets_raise inputs e :
  DownloadIIIFImageTask.targets inputs = Raise e -> e = IndexError.
Proof.
  induction inputs as [|file rest IH]; [done|].
  rewrite targets_cons.
  destruct (getitem file 0) as [url|e0] eqn:Hget.
  - destruct (DownloadIIIFImageTask.rename_download file) as [tgt|e1] eqn:Hren.
    + destruct (DownloadIIIFImageTask.targets rest); [done|].
      intros [= ->]. by apply IH.
    + intros [= ->]. by eapply rename_download_raise.
  - intros [= ->]. destruct file as [s|u d]; simpl in Hget; [|done].
    destruct (PyStr.char_at s 0); [done | by injection Hget as <-].
Qed.

Lemma image_process_unfold inputs x w :
  DownloadIIIFImageTask._process (download U) inputs (x, w) =
  match DownloadIIIFImageTask.targets inputs with
  | Raise e => (Raise e, (x, w))
  | Ok items =>
      with_local [] (
        try_except
          (executor_map (DownloadIIIFImageTask.work (download U)) items
             DownloadIIIFImageTask.record_done)
          KeyboardInterrupt (DownloadIIIFImageTask.remove_partial inputs);;
        done ← get_local;
        modify_self (DownloadIIIFImageTask.extend_output done);;
        mret (Some true)) (x, add_submitted inputs w)
  end.
Proof.
  unfold DownloadIIIFImageTask._process, DownloadIIIFImageTask.fetch_all.
  destruct (DownloadIIIFImageTask.targets inputs) as [items|e] eqn:Ht.
  - unfold with_local, try_except, mbind, Py_bind, lift_res, modify_world, modify.
    simpl. reflexivity.
  - pose proof (targets_raise _ _ Ht) as ->.
    unfold with_local, try_except, mbind, Py_bind, lift_res. simpl. reflexivity.
Qed.

Lemma image_after_submit_keeps inputs items :
  keeps Image (with_local [] (
        try_except
          (executor_map (DownloadIIIFImageTask.work (download U)) items
             DownloadIIIFImageTask.record_done)
          KeyboardInterrupt (DownloadIIIFImageTask.remove_partial inputs);;
        done ← get_local;
        modify_self (DownloadIIIFImageTask.extend_output done);;
        mret (Some true))).
Proof.
  apply keeps_with_local. apply keeps_bind.
  - apply keeps_try_except.
    + apply keeps_executor_map.
      * intros item. unfold DownloadIIIFImageTask.work. keeps_tac.
      * intros r. unfold DownloadIIIFImageTask.record_done. keeps_tac.
    + unfold DownloadIIIFImageTask.remove_partial,
        DownloadIIIFImageTask.remove_partial_item. keeps_tac.
  - intros _. apply keeps_bind; [apply keeps_get_local|]. intros done.
    apply keeps_bind; [|intros; apply keeps_ret].
    apply keeps_modify_self. intros x. repeat split. by eexists.
Qed.


Lemma dispatch_submit_then_keep {T} (inj : T -> AnyTask) inputs
    (rest : Py (T * World) (option bool)) x w :
  keeps inj rest ->
  process_post U inputs (inj x) w
    (dispatch inj (modify_world (add_submitted inputs);; rest) x (inj x, w)).
Proof.
  intros Hrest.
  pose proof (submit_then_keep inj inputs rest x w Hrest) as Hk.
  unfold dispatch. simpl in *.
  destruct ((modify_world (add_submitted inputs);; rest) (x, w)) as [r [x' w']].
  simpl in *. destruct Hk as (Hf & Hc & Hs & He).
  unfold process_post. simpl. split; [done|]. split; [done|]. split; [done|].
  split; [by left | done].
Qed.

(** What [_process] does, for an object of any class: the completion map and
    the configuration stay as they are, and the whole batch it was given is
    handed to the executor (or nothing is, when it raises before that). *)
Lemma any_process_batch inputs (a : AnyTask) (w : World) :
  process_post U inputs a w (any__process U inputs (a, w)).
Proof.
  destruct a as [x|x|x|x|x|x]; unfold any__process; cbn [fst].
  - unfold dispatch. cbn [snd]. rewrite image_process_unfold.
    destruct (DownloadIIIFImageTask.targets inputs) as [items|e] eqn:Ht.
    + pose proof (image_after_submit_keeps inputs items (x, add_submitted inputs w)) as Hk.
      match goal with |- context [with_local ?l ?c ?s] =>
        destruct (with_local l c s) as [r [x' w']] end.
      destruct Hk as (Hf & Hc & Hs & He). simpl in *.
      unfold process_post. simpl. split; [done|]. split; [done|]. split; [done|].
      split; [by left | done].
    + unfold process_post. simpl. split; [done|]. split; [done|].
      split; [exists []; by rewrite app_nil_r|]. split; [by right|].
      intros Hall. destruct (targets_ok inputs) as [items Hitems]; [|congruence].
      eapply Forall_impl; [exact Hall|]. intros inp. unfold is_done, mbind, Res_bind.
      by destruct (DownloadIIIFImageTask.rename_download inp).
  - apply (dispatch_submit_then_keep Manifest inputs
             (executor_map
                (DownloadIIIFManifestTask.work (download_iiif_manifest U))
                ((fun file => (file, DownloadIIIFManifestTask.rename_download (change_ext U) x file))
                   <$> inputs) ignore_result;; mret (Some true)) x w).
    unfold DownloadIIIFManifestTask.work, ignore_result. keeps_tac.
  - apply (dispatch_submit_then_keep Kraken). 
    apply keeps_bind; [|intros; apply keeps_ret].
    apply keeps_executor_map; [apply kraken_work_keeps | apply kraken_collect_keeps].
  - apply (dispatch_submit_then_keep AltoCleanUp).
    unfold KrakenAltoCleanUpCommand.work, ignore_result. keeps_tac.
  - apply (dispatch_submit_then_keep ClearFile).
    unfold ClearFileCommand.os_remove, ignore_result. keeps_tac.
  - apply (dispatch_submit_then_keep ExtractZone).
    unfold ExtractZoneAltoCommand.custom_alto_zone_extraction, ignore_result. keeps_tac.
Qed.
(** ** The calls [_process] makes, class by class *)

Lemma as_path_not_interrupt inp : as_path inp <> Raise KeyboardInterrupt.
Proof. by destruct inp. Qed.

Lemma unpack2_not_interrupt file : unpack2 file <> Raise KeyboardInterrupt.
Proof. destruct file as [s|u d]; simpl; [|done]. by repeat case_match. Qed.

Lemma rename_download_not_interrupt file :
  DownloadIIIFImageTask.rename_download file <> Raise KeyboardInterrupt.
Proof. intros Hr. by apply rename_download_raise in Hr. Qed.

Lemma command_line_not_interrupt x sample :
  KrakenLikeCommand.command_line x sample <> Raise KeyboardInterrupt.
Proof.
  unfold KrakenLikeCommand.command_line, KrakenLikeCommand.rename, mbind, mret,
    Res_bind, Res_ret.
  destruct (command _); [|done]. by destruct sample.
Qed.

Lemma extract_rename_not_interrupt inp :
  ExtractZoneAltoCommand.rename inp <> Raise KeyboardInterrupt.
Proof.
  unfold ExtractZoneAltoCommand.rename, mbind, mret, Res_bind, Res_ret.
  by destruct inp.
Qed.

Ltac logs_res :=
  apply logs_lift_res;
  first [ apply as_path_not_interrupt | apply unpack2_not_interrupt
        | apply rename_download_not_interrupt | apply command_line_not_interrupt
        | apply extract_rename_not_interrupt ].

Ltac logs_work := repeat first [ logs_res | logs_step ].

Lemma image_work_logs item :
  logs [] (DownloadIIIFImageTask.work (L := list InputType) (download U) item).
Proof. unfold DownloadIIIFImageTask.work. logs_work. Qed.

Lemma image_record_done_logs r : logs [] (DownloadIIIFImageTask.record_done r).
Proof. unfold DownloadIIIFImageTask.record_done. logs_work. Qed.

Lemma image_remove_partial_logs inputs :
  logs [] (DownloadIIIFImageTask.remove_partial inputs).
Proof.
  unfold DownloadIIIFImageTask.remove_partial, DownloadIIIFImageTask.remove_partial_item.
  logs_work.
Qed.

Lemma manifest_work_logs item :
  logs [] (DownloadIIIFManifestTask.work (download_iiif_manifest U) item).
Proof. unfold DownloadIIIFManifestTask.work. logs_work. Qed.

Lemma kraken_work_logs sample : logs [] (KrakenLikeCommand.work (shell U) sample).
Proof. unfold KrakenLikeCommand.work, decode. logs_work. Qed.

Lemma kraken_collect_logs r : logs [] (KrakenLikeCommand.collect r).
Proof. unfold KrakenLikeCommand.collect. logs_work. Qed.

Lemma cleanup_work_logs inp :
  logs [] (KrakenAltoCleanUpCommand.work (clean_kraken_filename U) inp).
Proof. unfold KrakenAltoCleanUpCommand.work. logs_work. Qed.

Lemma clear_os_remove_logs file : logs [] (ClearFileCommand.os_remove file).
Proof. unfold ClearFileCommand.os_remove. logs_work. Qed.

Lemma extract_work_logs inp :
  logs [] (ExtractZoneAltoCommand.custom_alto_zone_extraction (alto_zone_extraction U) inp).
Proof. unfold ExtractZoneAltoCommand.custom_alto_zone_extraction. logs_work. Qed.

Lemma ignore_result_logs {St T B} `{FrameLaws St T} (r : B) :
  logs [] (ignore_result r : Py St unit).
Proof. apply logs_ret. Qed.

(** [executor.map] between the note of the batch and the [return]. *)
Lemma submit_then_map_logs {T A B R} `{AsWorkItem A} (work : A -> Py (T * World) B)
    (consume : B -> Py (T * World) unit) inputs items (r : R) :
  (forall item, logs [] (work item)) -> (forall b, logs [] (consume b)) ->
  logs (as_item <$> items)
    (modify_world (add_submitted inputs);; executor_map work items consume;; mret r).
Proof.
  intros Hw Hc. apply logs_bind_l; [by apply logs_modify_world|]. intros _.
  apply logs_bind_r; [by apply logs_executor_map|]. intros _. apply logs_ret.
Qed.

Lemma image_after_submit_logs inputs items :
  logs (as_item <$> items) (with_local [] (
        try_except
          (executor_map (DownloadIIIFImageTask.work (download U)) items
             DownloadIIIFImageTask.record_done)
          KeyboardInterrupt (DownloadIIIFImageTask.remove_partial inputs);;
        done ← get_local;
        modify_self (DownloadIIIFImageTask.extend_output done);;
        mret (Some true)) : Py (DownloadIIIFImageTask.t * World) (option bool)).
Proof.
  apply logs_with_local. apply logs_bind_r.
  - apply logs_try_except.
    + apply logs_executor_map; [apply image_work_logs | apply image_record_done_logs].
    + apply image_remove_partial_logs.
  - intros _. logs_work.
Qed.

(** The calls of a computation run from a world, against the inputs its
    work items were made of. *)
Lemma logs_worked {T R} (m : Py (T * World) R) cs (x : T) w w0
    (P : InputType -> WorkItem -> Prop) inputs :
  logs cs m -> calls w0 = calls w -> sigint w0 = sigint w ->
  Forall2 P inputs cs ->
  exists worked n,
    calls (m (x, w0)).2.2 = calls w ++ worked /\
    Forall2 P (take n inputs) worked /\
    (sigint w = None -> is_ok (m (x, w0)).1 = true -> length worked = length inputs).
Proof.
  intros Hm Hc Hs HP. destruct (Hm (x, w0)) as [(n & [Hcalls _] & Hall) _].
  cbn [frame_world method_frame snd] in *.
  exists (take n cs), n. split; [by rewrite <- Hc|]. split; [by apply Forall2_take|].
  intros Hnone Hok. rewrite take_ge by (apply Hall; [congruence | done]).
  symmetry. by eapply Forall2_length.
Qed.

Lemma dispatch_logs_worked {T} (inj : T -> AnyTask) (m : Py (T * World) (option bool))
    cs (x : T) w (P : InputType -> WorkItem -> Prop) inputs :
  logs cs m -> Forall2 P inputs cs ->
  exists worked n,
    calls (dispatch inj m x (inj x, w)).2.2 = calls w ++ worked /\
    Forall2 P (take n inputs) worked /\
    (sigint w = None -> is_ok (dispatch inj m x (inj x, w)).1 = true ->
     length worked = length inputs).
Proof.
  intros Hm HP.
  destruct (logs_worked m cs x w w P inputs Hm eq_refl eq_refl HP)
    as (worked & n & Hc & HF & Hlen).
  exists worked, n. unfold dispatch. cbn [snd].
  by destruct (m (x, w)) as [r [x' w']].
Qed.

Lemma plain_work_items (a : AnyTask) inputs :
  (forall inp, work_item U a inp = Ok (Plain inp)) ->
  Forall2 (fun inp c => work_item U a inp = Ok c) inputs (as_item <$> inputs).
Proof.
  intros Ha. apply Forall2_fmap_r, Forall_Forall2_diag, Forall_forall.
  intros inp _. apply Ha.
Qed.

Lemma targets_work_items x inputs items :
  DownloadIIIFImageTask.targets inputs = Ok items ->
  Forall2 (fun inp c => work_item U (Image x) inp = Ok c) inputs (as_item <$> items).
Proof.
  revert items. induction inputs as [|file rest IH]; intros items.
  - intros [= <-]. constructor.
  - rewrite targets_cons.
    destruct (getitem file 0) as [url|] eqn:Hurl; [|done].
    destruct (DownloadIIIFImageTask.rename_download file) as [tgt|] eqn:Htgt; [|done].
    destruct (DownloadIIIFImageTask.targets rest) as [items'|]; [|done].
    intros [= <-]. rewrite fmap_cons. constructor; [|by apply IH].
    unfold work_item, mbind, mret, Res_bind, Res_ret. by rewrite Hurl, Htgt.
Qed.

(** The calls [_process] makes on a batch are on the work items of its first
    inputs, in order: of all of them when no interrupt is pending and it
    returns. *)
Lemma any_process_calls inputs (a : AnyTask) (w : World) :
  exists worked n,
    calls (any__process U inputs (a, w)).2.2 = calls w ++ worked /\
    Forall2 (fun inp c => work_item U a inp = Ok c) (take n inputs) worked /\
    (sigint w = None -> is_ok (any__process U inputs (a, w)).1 = true ->
     length worked = length inputs).
Proof.
  destruct a as [x|x|x|x|x|x]; unfold any__process; cbn [fst].
  - unfold dispatch. cbn [snd]. rewrite image_process_unfold.
    destruct (DownloadIIIFImageTask.targets inputs) as [items|e] eqn:Ht.
    + destruct (logs_worked _ _ x w (add_submitted inputs w) _ inputs
                  (image_after_submit_logs inputs items) eq_refl eq_refl
                  (targets_work_items x inputs items Ht))
        as (worked & n & Hc & HF & Hlen).
      exists worked, n.
      match goal with |- context [with_local ?l ?c ?s] =>
        destruct (with_local l c s) as [r [x' w']] end.
      done.
    + exists [], 0%nat. cbn [fst snd]. rewrite app_nil_r, take_0.
      split; [done|]. split; [constructor | by intros _ [=]].
  - eapply (dispatch_logs_worked Manifest
             (modify_world (add_submitted inputs);;
              executor_map
                (DownloadIIIFManifestTask.work (download_iiif_manifest U))
                ((fun file => (file, DownloadIIIFManifestTask.rename_download (change_ext U) x file))
                   <$> inputs) ignore_result;; mret (Some true))
             _ x w).
    + apply submit_then_map_logs; [apply manifest_work_logs | intros; apply logs_ret].
    + rewrite <- list_fmap_compose.
      apply Forall2_fmap_r, Forall_Forall2_diag, Forall_forall. by intros inp _.
  - eapply (dispatch_logs_worked Kraken).
    + apply submit_then_map_logs; [apply kraken_work_logs | apply kraken_collect_logs].
    + by apply plain_work_items.
  - eapply (dispatch_logs_worked AltoCleanUp).
    + apply submit_then_map_logs; [apply cleanup_work_logs | intros; apply logs_ret].
    + by apply plain_work_items.
  - eapply (dispatch_logs_worked ClearFile).
    + apply submit_then_map_logs; [apply clear_os_remove_logs | intros; apply logs_ret].
    + by apply plain_work_items.
  - eapply (dispatch_logs_worked ExtractZone).
    + apply submit_then_map_logs; [apply extract_work_logs | intros; apply logs_ret].
    + by apply plain_work_items.
Qed.

Lemma work_item_forget (a a' : AnyTask) inp :
  forget a' = forget a -> work_item U a' inp = work_item U a inp.
Proof.
  destruct a as [x|x|x|x|x|x], a' as [y|y|y|y|y|y]; try discriminate; try done.
  unfold forget. intros [= _ _ _ Hn Hd]. unfold work_item.
  unfold DownloadIIIFManifestTask.rename_download. by rewrite Hn, Hd.
Qed.
End facts.

Lemma mark_all_ok (o : InputType -> Res bool) inputs : forall d,
  (forall inp, inp ∈ inputs -> is_ok (o inp) = true) ->
  exists d', mark_all o inputs d = Ok d'.
Proof.
  induction inputs as [|i rest IH]; simpl; intros d Hok; [by eexists|].
  pose proof (Hok i ltac:(left)) as Hi.
  destruct (o i) as [st|e]; [|done].
  apply IH. intros inp Hin. apply Hok. by right.
Qed.

Lemma map_res_ext {A B} (f g : A -> Res B) l :
  (forall a, f a = g a) -> map_res f l = map_res g l.
Proof.
  intros Hfg. induction l as [|a l IH]; simpl; [done|]. by rewrite Hfg, IH.
Qed.

Section process_facts.
Variable U : Collaborators.

(** ** [Task.process] on an object of any class *)

Lemma process_unfold (a : AnyTask) (w : World) :
  any_process U (a, w) =
  match any_check U (a, w) with
  | (Ok _, (a1, w1)) =>
      if (length (requires_processing (any_super a1)) =? 0)%nat
      then (Ok (Some true), (a1, add_stdout "Nothing to process here." w1))
      else any__process U (requires_processing (any_super a1)) (a1, w1)
  | (Raise e, s1) => (Raise e, s1)
  end.
Proof.
  unfold any_process, process. cbn [check _process super any_class].
  unfold mbind, Py_bind at 1.
  destruct (any_check U (a, w)) as [[b|e] [a1 w1]]; [|done].
  unfold self, gets, mbind, Py_bind. cbn [frame_self method_frame fst].
  fold (requires_processing (any_super a1)).
  destruct (length (requires_processing (any_super a1)) =? 0)%nat; done.
Qed.

Lemma requires_processing_nil (t : Task) :
  requires_processing t = [] <->
  Forall (fun item : InputType * bool => item.2 = true) (_checked_files t).
Proof.
  unfold requires_processing. split.
  - intros Hnil. apply fmap_nil_inv in Hnil.
    apply Forall_forall. intros [k v] Hin. simpl.
    destruct v; [done|]. exfalso.
    assert (Hf : (k, false) ∈ filter (fun item : InputType * bool => negb item.2) (_checked_files t)).
    { by apply list_elem_of_filter. }
    rewrite Hnil in Hf. by apply elem_of_nil in Hf.
  - intros Hall. induction Hall as [|[k v] d Hv _ IH]; [done|].
    simpl in Hv. subst v. rewrite filter_cons_False; [exact IH | simpl; tauto].
Qed.

Lemma requires_processing_NoDup (t : Task) :
  NoDup (Dict.keys (_checked_files t)) -> NoDup (requires_processing t).
Proof.
  unfold requires_processing, Dict.keys. intros Hnd.
  eapply sublist_NoDup; [exact Hnd|].
  apply fmap_sublist, sublist_filter.
Qed.

(** [check] keeps a completion map well formed. *)
Lemma any_check_well_formed a w b a1 w1 :
  any_check U (a, w) = (Ok b, (a1, w1)) ->
  well_formed (any_super a) -> well_formed (any_super a1).
Proof.
  intros Hc [Hnd Hkeys].
  destruct (any_check_spec U a w) as (r & a' & Hrun & Hf & Hm & _).
  rewrite Hrun in Hc. injection Hc as -> -> ->. simpl in Hm.
  split.
  - by eapply mark_all_NoDup.
  - intros k Hk. rewrite (forget_inputs _ _ Hf).
    apply (mark_all_keys _ _ _ _ _ Hm) in Hk as [Hk|Hk]; [by apply Hkeys | done].
Qed.

(** After a [check] that returned, the entry of every input is the verdict
    of the oracle, and there are no other entries. *)
Lemma any_check_entries a w b a1 w1 :
  any_check U (a, w) = (Ok b, (a1, w1)) ->
  well_formed (any_super a) ->
  forall inp st, Dict.lookup inp (_checked_files (any_super a1)) = Some st <->
    inp ∈ input_files (any_super a) /\ is_done U a (fs w) inp = Ok st.
Proof.
  intros Hc [Hnd Hkeys] inp st.
  destruct (any_check_spec U a w) as (r & a' & Hrun & Hf & Hm & _).
  rewrite Hrun in Hc. injection Hc as -> -> ->. simpl in Hm.
  split.
  - intros Hl.
    assert (Hin : inp ∈ input_files (any_super a)).
    { assert (Hk : inp ∈ Dict.keys (_checked_files (any_super a1))).
      { apply dict_lookup_keys. by eexists. }
      apply (mark_all_keys _ _ _ _ _ Hm) in Hk as [Hk|Hk]; [by apply Hkeys | done]. }
    split; [done|].
    destruct (mark_all_lookup_in _ _ _ _ _ Hm Hin) as (st' & Hst & Hl'). congruence.
  - intros [Hin Hst].
    destruct (mark_all_lookup_in _ _ _ _ _ Hm Hin) as (st' & Hst' & Hl'). congruence.
Qed.

(** [check] returns when the oracle raises on no input. *)
Lemma any_check_returns a w :
  (forall inp, inp ∈ input_files (any_super a) -> is_ok (is_done U a (fs w) inp) = true) ->
  exists b a1, any_check U (a, w) = (Ok b, (a1, w)).
Proof.
  intros Hok.
  destruct (any_check_spec U a w) as (r & a' & Hrun & Hf & Hm & _).
  destruct r as [b|e]; [by eexists _, _|]. simpl in Hm.
  destruct (mark_all_ok (is_done U a (fs w)) (input_files (any_super a))
              (_checked_files (any_super a)) Hok) as [d' Hd'].
  congruence.
Qed.

Lemma map_res_app {A B} (f : A -> Res B) l1 l2 r1 r2 :
  map_res f l1 = Ok r1 -> map_res f l2 = Ok r2 ->
  map_res f (l1 ++ l2) = Ok (r1 ++ r2).
Proof.
  revert r1. induction l1 as [|a l1 IH]; simpl; intros r1 H1 H2.
  - by inversion H1.
  - unfold mbind, mret, Res_bind, Res_ret in *. destruct (f a); [|done].
    destruct (map_res f l1) eqn:E; [|done].
    inversion H1; subst. by rewrite (IH _ eq_refl H2).
Qed.

Lemma map_res_ok {A B} (f : A -> Res B) l :
  Forall (fun a => is_ok (f a) = true) l -> exists r, map_res f l = Ok r.
Proof.
  induction 1 as [|a l Ha _ [r IH]]; simpl; [by eexists|].
  unfold mbind, mret, Res_bind, Res_ret. destruct (f a); [|done]. rewrite IH. by eexists.
Qed.

(** Appending inputs the oracle accepts to the recorded outputs appends their
    outputs to [output_files]; classes that keep no such list are unchanged. *)
Lemma any_output_files_grow a a' extra m0 m l :
  forget a' = forget a ->
  recorded a' = recorded a ++ extra ->
  Forall (fun f => is_ok (is_done U a m0 f) = true) extra ->
  any_output_files U a m = Ok l ->
  exists l', any_output_files U a' m = Ok (l ++ l') /\
    (recomputes_outputs a = true -> l' = []).
Proof.
  intros Hf Hrec Hex Hout.
  destruct (recomputes_outputs a) eqn:Hrc.
  - exists []. rewrite app_nil_r. split; [|done].
    by rewrite (forget_outputs U a a' m Hf Hrc).
  - destruct a as [x|x|x|x|x|x]; try discriminate;
      destruct a' as [x'|x'|x'|x'|x'|x']; try discriminate; simpl in *.
    + unfold DownloadIIIFImageTask.output_files in *. rewrite Hrec.
      destruct (map_res_ok (fun file => VStr <$> DownloadIIIFImageTask.rename_download file) extra)
        as [l' Hl'].
      { eapply Forall_impl; [exact Hex|]. intros f. cbv beta. rewrite image_is_done.
        unfold fmap, Res_fmap. by destruct (DownloadIIIFImageTask.rename_download f). }
      exists l'. split; [by apply map_res_app | done].
    + unfold KrakenLikeCommand.output_files in *. rewrite Hrec.
      assert (Hfmt : KrakenLikeCommand._output_format x' = KrakenLikeCommand._output_format x).
      { unfold forget in Hf. by injection Hf. }
      assert (Hren : forall f, KrakenLikeCommand.rename x' f = KrakenLikeCommand.rename x f).
      { intros f. unfold KrakenLikeCommand.rename. by rewrite Hfmt. }
      destruct (map_res_ok (fun file => VStr <$> KrakenLikeCommand.rename x file) extra)
        as [l' Hl'].
      { eapply Forall_impl; [exact Hex|]. intros f. cbv beta. unfold is_done.
        unfold fmap, Res_fmap, mbind, Res_bind. by destruct (KrakenLikeCommand.rename x f). }
      exists l'. split; [|done].
      rewrite (map_res_ext _ (fun file => VStr <$> KrakenLikeCommand.rename x file)).
      * by apply map_res_app.
      * intros f. by rewrite Hren.
Qed.

(** [process] never changes the class or configuration of the object, and
    a run that returns leaves the completion map well formed. *)
Lemma any_process_preserves a w r a' w' :
  any_process U (a, w) = (r, (a', w')) ->
  forget a' = forget a /\
  (is_ok r = true -> well_formed (any_super a) -> well_formed (any_super a')).
Proof.
  rewrite process_unfold.
  destruct (any_check_spec U a w) as (rc & a1 & Hc & Hf & Hm & _). rewrite Hc.
  destruct rc as [b|e].
  - destruct (length (requires_processing (any_super a1)) =? 0)%nat.
    + intros [= <- <- <-]. split; [done|]. intros _ Hwf.
      by eapply any_check_well_formed.
    + intros Hp.
      pose proof (any_process_batch U (requires_processing (any_super a1)) a1 w) as Hpost.
      rewrite Hp in Hpost. destruct Hpost as (Hf' & Hck & _). simpl in *.
      split; [congruence|]. intros _ Hwf.
      destruct (any_check_well_formed _ _ _ _ _ Hc Hwf) as [Hnd Hkeys].
      split; [by rewrite Hck|].
      intros k Hk. rewrite (forget_inputs _ _ Hf'). apply Hkeys. by rewrite <- Hck.
  - intros [= <- <- <-]. split; [done|]. done.
Qed.

(** After a [check] that leaves no entry false, [process] prints its message
    and returns. *)
Lemma process_all_done (a : AnyTask) (w : World) b a1 w1 :
  any_check U (a, w) = (Ok b, (a1, w1)) ->
  Forall (fun item : InputType * bool => item.2 = true) (_checked_files (any_super a1)) ->
  w1 = w /\
  any_process U (a, w) = (Ok (Some true), (a1, add_stdout "Nothing to process here." w)).
Proof.
  intros Hc Hall.
  assert (Hw : w1 = w).
  { destruct (any_check_spec U a w) as (rc & a' & Hc' & _). congruence. }
  subst w1. split; [done|].
  rewrite process_unfold, Hc.
  apply requires_processing_nil in Hall. by rewrite Hall.
Qed.

(** C7. [process()] first calls [check()]; when that leaves every entry of
    the completion map true, [process()] prints "Nothing to process here."
    and returns [True], and that is all it does: the object is as [check()]
    left it and the world is unchanged but for the printed line, so no item
    was handed to the executor or to a work function. *)
Theorem process_nothing_to_process (a : AnyTask) (w : World) b a1 w1 :
  any_check U (a, w) = (Ok b, (a1, w1)) ->
  Forall (fun item : InputType * bool => item.2 = true) (_checked_files (any_super a1)) ->
  w1 = w /\
  any_process U (a, w) = (Ok (Some true), (a1, add_stdout "Nothing to process here." w)) /\
  submitted (any_process U (a, w)).2.2 = submitted w /\
  fs (any_process U (a, w)).2.2 = fs w.
Proof.
  intros Hc Hall.
  destruct (process_all_done a w b a1 w1 Hc Hall) as [Hw Hp].
  rewrite Hp. by repeat split.
Qed.

(** C8. What [process()] passes to the work function.  The pool logs the
    argument of every call it makes of a work function.  The calls made
    during [process()] are on the work items of the first inputs of one
    batch, in the order of the batch, and on nothing else; the batch holds
    only inputs whose entry in the completion map, as the [check()] of that
    call left it, is false, each once, and every such input when that
    [check()] returned.  So an input marked done is in no call.  With no
    interrupt pending, when [process()] returns, every input of the batch
    was worked on. *)
Theorem process_submits_pending_only (a : AnyTask) (w : World) :
  well_formed (any_super a) ->
  exists batch worked n,
    calls (any_process U (a, w)).2.2 = calls w ++ worked /\
    Forall2 (fun inp item => work_item U a inp = Ok item) (take n batch) worked /\
    (sigint w = None -> is_ok (any_process U (a, w)).1 = true ->
     length worked = length batch) /\
    submitted (any_process U (a, w)).2.2 = submitted w ++ batch /\
    NoDup batch /\
    (forall inp, inp ∈ batch ->
       inp ∈ input_files (any_super a) /\
       Dict.lookup inp (_checked_files (any_super (any_check U (a, w)).2.1)) = Some false) /\
    (forall inp,
       Dict.lookup inp (_checked_files (any_super (any_check U (a, w)).2.1)) = Some true ->
       inp ∉ batch) /\
    (is_ok (any_check U (a, w)).1 = true ->
     forall inp,
       Dict.lookup inp (_checked_files (any_super (any_check U (a, w)).2.1)) = Some false ->
       inp ∈ batch).
Proof.
  intros Hwf.
  assert (Hgoal : exists batch worked n,
    calls (any_process U (a, w)).2.2 = calls w ++ worked /\
    Forall2 (fun inp item => work_item U a inp = Ok item) (take n batch) worked /\
    (sigint w = None -> is_ok (any_process U (a, w)).1 = true ->
     length worked = length batch) /\
    submitted (any_process U (a, w)).2.2 = submitted w ++ batch /\
    NoDup batch /\
    (forall inp, inp ∈ batch ->
       inp ∈ input_files (any_super a) /\
       Dict.lookup inp (_checked_files (any_super (any_check U (a, w)).2.1)) = Some false) /\
    (is_ok (any_check U (a, w)).1 = true ->
     forall inp,
       Dict.lookup inp (_checked_files (any_super (any_check U (a, w)).2.1)) = Some false ->
       inp ∈ batch)).
  { rewrite process_unfold.
    destruct (any_check_spec U a w) as (rc & a1 & Hc & Hf & Hm & _). rewrite Hc.
    destruct rc as [b|e]; simpl.
    - pose proof (any_check_well_formed _ _ _ _ _ Hc Hwf) as [Hnd Hkeys].
      pose proof (any_check_entries _ _ _ _ _ Hc Hwf) as Hent.
      assert (Hpend : forall inp, inp ∈ requires_processing (any_super a1) <->
                Dict.lookup inp (_checked_files (any_super a1)) = Some false).
      { intros inp. unfold requires_processing. by apply filter_false_lookup. }
      destruct (length (requires_processing (any_super a1)) =? 0)%nat eqn:Hlen.
      + apply Nat.eqb_eq, nil_length_inv in Hlen.
        exists [], [], 0%nat. simpl. rewrite !app_nil_r.
        split; [done|]. split; [constructor|]. split; [done|].
        split; [done|]. split; [constructor|].
        split; [by intros inp ?%elem_of_nil|].
        intros _ inp Hl. apply Hpend in Hl. by rewrite Hlen in Hl.
      + destruct (any_process_calls U (requires_processing (any_super a1)) a1 w)
          as (worked & n & Hcalls & Hitems & Hall).
        exists (requires_processing (any_super a1)), worked, n.
        pose proof (any_process_batch U (requires_processing (any_super a1)) a1 w)
          as (_ & _ & _ & _ & Hsub).
        split; [done|]. split.
        { eapply Forall2_impl; [exact Hitems|]. intros inp item Hi. cbv beta in *.
          by rewrite <- (work_item_forget U a a1 inp Hf). }
        split; [done|]. split.
        { apply Hsub. apply Forall_forall. intros inp Hin.
          apply Hpend, Hent in Hin as [_ Hd].
          by rewrite (forget_is_done U a a1 _ _ Hf), Hd. }
        split; [by apply requires_processing_NoDup|].
        split.
        * intros inp Hin. apply Hpend in Hin. split; [|done]. by apply Hent in Hin as [? _].
        * intros _ inp Hl. by apply Hpend.
    - exists [], [], 0%nat. rewrite !app_nil_r.
      split; [done|]. split; [constructor|]. split; [done|].
      split; [done|]. split; [constructor|].
      split; [by intros inp ?%elem_of_nil | done]. }
  destruct Hgoal as (batch & worked & n & Hcalls & Hitems & Hlen & Hs & Hnd & Hin & Hall).
  exists batch, worked, n. split; [done|]. split; [done|]. split; [done|].
  split; [done|]. split; [done|]. split; [done|]. split; [|done].
  intros inp Htrue Hb. apply Hin in Hb as [_ Hb]. congruence.
Qed.

(** C1, as the code has it.  When [process()] runs twice on the same object
    with nothing else touching the filesystem, and every input is done by the
    class's own completion check once the first run has returned, the second
    run hands nothing to the executor: it prints "Nothing to process here.",
    returns [True] and leaves the world otherwise untouched.  Every output
    listed after the first run is listed, in place, after the second; the
    classes that compute [output_files] from the inputs or from disk list
    exactly the same outputs, and the two that record outputs on the object
    may only append inputs they found done. *)
Theorem process_twice (a0 : AnyTask) (w0 : World) r1 a1 w1 r2 a2 w2 :
  well_formed (any_super a0) ->
  any_process U (a0, w0) = (r1, (a1, w1)) ->
  is_ok r1 = true ->
  (forall inp, inp ∈ input_files (any_super a0) -> is_done U a1 (fs w1) inp = Ok true) ->
  any_process U (a1, w1) = (r2, (a2, w2)) ->
  r2 = Ok (Some true) /\
  w2 = add_stdout "Nothing to process here." w1 /\
  submitted w2 = submitted w1 /\
  (exists extra, recorded a2 = recorded a1 ++ extra /\
     Forall (fun f => f ∈ input_files (any_super a0)) extra) /\
  (forall l1, any_output_files U a1 (fs w1) = Ok l1 ->
     exists l', any_output_files U a2 (fs w2) = Ok (l1 ++ l') /\
       (recomputes_outputs a0 = true -> l' = [])).
Proof.
  intros Hwf0 Hrun1 Hok1 Hdone Hrun2.
  destruct (any_process_preserves _ _ _ _ _ Hrun1) as [Hf1 Hwf1].
  specialize (Hwf1 Hok1 Hwf0).
  pose proof (forget_inputs _ _ Hf1) as Hin1.
  destruct (any_check_returns a1 w1) as (b & a1c & Hc).
  { intros inp Hin. rewrite Hin1 in Hin. by rewrite (Hdone inp Hin). }
  pose proof (any_check_well_formed _ _ _ _ _ Hc Hwf1) as [Hnd Hkeys].
  pose proof (any_check_entries _ _ _ _ _ Hc Hwf1) as Hent.
  assert (Hall : Forall (fun item : InputType * bool => item.2 = true)
                   (_checked_files (any_super a1c))).
  { apply Forall_forall. intros [k v] Hkv. simpl.
    apply dict_elem_of_lookup in Hkv; [|done].
    apply Hent in Hkv as [Hk Hv]. rewrite Hin1 in Hk.
    rewrite (Hdone k Hk) in Hv. by injection Hv. }
  destruct (process_all_done _ _ _ _ _ Hc Hall) as (_ & Hp).
  rewrite Hp in Hrun2. injection Hrun2 as <- <- <-.
  split; [done|]. split; [done|]. split; [done|].
  destruct (any_check_spec U a1 w1) as (rc & a' & Hc' & Hf2 & _ & extra & Hrec & Hex).
  rewrite Hc in Hc'. injection Hc' as <- <-.
  specialize (Hex eq_refl Hwf1).
  split.
  - exists extra. split; [done|].
    eapply Forall_impl; [exact Hex|]. intros f [Hfin _]. by rewrite <- Hin1.
  - intros l1 Hl1.
    destruct (any_output_files_grow a1 a1c extra (fs w1) (fs w1) l1 Hf2 Hrec) as (l' & Hl' & Hrc).
    + eapply Forall_impl; [exact Hex|]. intros f [_ Hd]. cbv beta. by rewrite Hd.
    + done.
    + exists l'. split; [exact Hl'|].
      by rewrite <- (forget_recomputes _ _ Hf1).
Qed.
End process_facts.

(** ** Strings *)

Lemma append_cons c (s t : string) : String c s +:+ t = String c (s +:+ t).
Proof. reflexivity. Qed.

Lemma length_append (a b : string) :
  String.length (a +:+ b) = (String.length a + String.length b)%nat.
Proof. induction a as [|x a IH]; [done | rewrite append_cons; simpl; by rewrite IH]. Qed.

Lemma startswith_spec (p s : string) :
  PyStr.startswith p s = true <-> exists post, s = p +:+ post.
Proof.
  revert s. induction p as [|a p IH]; intros s; simpl.
  - split; [by exists s | done].
  - destruct s as [|b s].
    + split; [done | by intros [post ?]].
    + destruct (Ascii.eqb_spec a b) as [->|Hne].
      * rewrite IH. split; intros [post Hp]; exists post.
        -- by rewrite append_cons, Hp.
        -- rewrite append_cons in Hp. by injection Hp.
      * split; [done | intros [post Hp]]. rewrite append_cons in Hp.
        injection Hp as ? ?. done.
Qed.

Lemma startswith_append (p s : string) : PyStr.startswith p (p +:+ s) = true.
Proof. apply startswith_spec. by eexists. Qed.

(** [needle in hay] holds exactly when [hay] has [needle] as a substring. *)
Lemma contains_spec (needle hay : string) :
  PyStr.contains needle hay = true <-> exists pre post, hay = pre +:+ needle +:+ post.
Proof.
  induction hay as [|c hay IH]; simpl.
  - rewrite orb_false_r, startswith_spec. split.
    + intros [post Hp]. by exists "", post.
    + intros (pre & post & Hp). destruct pre; [by exists post | done].
  - rewrite orb_true_iff, startswith_spec, IH. split.
    + intros [[post Hp] | (pre & post & Hp)].
      * by exists "", post.
      * exists (String c pre), post. by rewrite append_cons, Hp.
    + intros (pre & post & Hp). destruct pre as [|a pre].
      * left. by exists post.
      * right. rewrite append_cons in Hp. injection Hp as -> Hp. by exists pre, post.
Qed.

Lemma replace_scan_skip (old new p s : string) :
  PyStr.replace_scan old new (p +:+ s) (String.length p) = PyStr.replace_scan old new s 0.
Proof.
  induction p as [|c p IH]; [done|]. rewrite append_cons. exact IH.
Qed.

Lemma replace_scan_here (old new s : string) :
  old <> "" ->
  PyStr.replace_scan old new (old +:+ s) 0 = new +:+ PyStr.replace_scan old new s 0.
Proof.
  intros Hne. destruct old as [|a old]; [done|].
  pose proof (startswith_append (String a old) s) as Hs.
  rewrite append_cons in *.
  cbn [PyStr.replace_scan]. rewrite Hs.
  replace (String.length (String a old) - 1)%nat with (String.length old)
    by (simpl; lia).
  by rewrite replace_scan_skip.
Qed.

Lemma replace_scan_next (old new : string) c s :
  PyStr.startswith old (String c s) = false ->
  PyStr.replace_scan old new (String c s) 0 = String c (PyStr.replace_scan old new s 0).
Proof. intros Hs. cbn [PyStr.replace_scan]. by rewrite Hs. Qed.

Lemma replace_scan_replaced (old new : string) n : forall s,
  old <> "" -> (String.length s < n)%nat ->
  replaced old new s (PyStr.replace_scan old new s 0).
Proof.
  induction n as [|n IH]; intros s Hne Hlen; [lia|].
  destruct s as [|c s]; [constructor|].
  destruct (PyStr.startswith old (String c s)) eqn:Hs.
  - apply startswith_spec in Hs as [post Hp]. rewrite Hp.
    rewrite replace_scan_here by done. constructor. apply IH; [done|].
    assert (Hl : String.length (String c s) = String.length (old +:+ post)) by (by rewrite Hp).
    rewrite length_append in Hl. destruct old; [done|]. simpl in *. lia.
  - rewrite replace_scan_next by done. constructor; [done|].
    apply IH; [done|]. simpl in Hlen. lia.
Qed.

(** [str.replace] with a non-empty pattern replaces the occurrences found
    from the left, and nothing else does. *)
Lemma replace_replaced (old new s : string) :
  old <> "" -> replaced old new s (PyStr.replace old new s).
Proof.
  intros Hne.
  assert (Hr : PyStr.replace old new s = PyStr.replace_scan old new s 0).
  { by destruct old. }
  rewrite Hr. by apply (replace_scan_replaced old new (S (String.length s))); [|lia].
Qed.

Lemma replaced_unique (old new s r : string) :
  old <> "" -> replaced old new s r -> r = PyStr.replace old new s.
Proof.
  intros Hne Hrep.
  assert (Hr : forall s, PyStr.replace old new s = PyStr.replace_scan old new s 0).
  { intros s'. by destruct old. }
  rewrite Hr. induction Hrep as [|s r _ IH|c s r Hs _ IH].
  - done.
  - by rewrite replace_scan_here, IH.
  - by rewrite replace_scan_next, IH.
Qed.

Lemma split_length (sep : ascii) (s : string) :
  length (PyStr.split sep s) = S (count_char sep s).
Proof.
  induction s as [|c s IH]; simpl; [done|].
  destruct (Ascii.eqb c sep); simpl; [by rewrite IH|].
  destruct (PyStr.split sep s); simpl in *; done.
Qed.

(** ** [DownloadIIIFImageTask.rename_download] *)

Lemma index_from_end_spec {A} (l : list A) (k : nat) :
  PyStr.index_from_end l k =
  if bool_decide (1 <= k <= length l)%nat then l !! (length l - k)%nat else None.
Proof.
  unfold PyStr.index_from_end.
  destruct (Nat.eqb_spec k 0) as [->|Hk].
  - rewrite bool_decide_eq_false_2; [done | lia].
  - destruct (Nat.leb_spec k (length l)).
    + rewrite bool_decide_eq_true_2; [done | lia].
    + rewrite bool_decide_eq_false_2; [done | lia].
Qed.

Lemma rename_download_str (s : string) :
  DownloadIIIFImageTask.rename_download (IStr s) = Raise IndexError.
Proof.
  unfold DownloadIIIFImageTask.rename_download, mbind, Res_bind. simpl.
  unfold PyStr.char_at.
  destruct (String.get 1 s) as [c1|]; [|done].
  destruct (String.get 0 s) as [c0|]; [|done].
  simpl. by destruct (Ascii.eqb c0 "/").
Qed.

(** C10. [rename_download] yields a path only for a (URI, directory) pair
    whose URI has at least five "/"-separated components, that is at least
    four "/": the directory joined with the fifth component from the end
    plus ".jpg".  On a bare string, and on a URI with fewer components, it
    raises [IndexError]. *)
Theorem rename_download_partial :
  (forall s, DownloadIIIFImageTask.rename_download (IStr s) = Raise IndexError) /\
  (forall uri directory,
     let segments := PyStr.split "/" uri in
     length segments = S (count_char "/" uri) /\
     DownloadIIIFImageTask.rename_download (IPair uri directory) =
     if bool_decide (5 <= length segments)%nat
     then match segments !! (length segments - 5)%nat with
          | Some segment => Ok (OsPath.join directory (segment +:+ ".jpg"))
          | None => Raise IndexError
          end
     else Raise IndexError) /\
  (forall file path, DownloadIIIFImageTask.rename_download file = Ok path ->
     exists uri directory segment,
       file = IPair uri directory /\
       (5 <= length (PyStr.split "/" uri))%nat /\
       PyStr.split "/" uri !! (length (PyStr.split "/" uri) - 5)%nat = Some segment /\
       path = OsPath.join directory (segment +:+ ".jpg")).
Proof.
  pose proof rename_download_str as Hstr.
  assert (Hpair : forall uri directory,
     DownloadIIIFImageTask.rename_download (IPair uri directory) =
     if bool_decide (5 <= length (PyStr.split "/" uri))%nat
     then match PyStr.split "/" uri !! (length (PyStr.split "/" uri) - 5)%nat with
          | Some segment => Ok (OsPath.join directory (segment +:+ ".jpg"))
          | None => Raise IndexError
          end
     else Raise IndexError).
  { intros uri directory.
    unfold DownloadIIIFImageTask.rename_download, mbind, Res_bind. simpl.
    rewrite index_from_end_spec.
    destruct (decide (5 <= length (PyStr.split "/" uri))%nat) as [H5|H5].
    - rewrite !bool_decide_eq_true_2 by lia. done.
    - rewrite !bool_decide_eq_false_2 by lia. done. }
  split; [exact Hstr|]. split.
  - intros uri directory segments. split; [apply split_length | apply Hpair].
  - intros [s|uri directory] path Hren.
    + by rewrite Hstr in Hren.
    + rewrite Hpair in Hren. case_bool_decide as H5; [|done].
      destruct (PyStr.split "/" uri !! _) as [segment|] eqn:Hseg; [|done].
      injection Hren as <-. by exists uri, directory, segment.
Qed.

Example rename_download_iiif :
  DownloadIIIFImageTask.rename_download
    (IPair "https://h/iiif/ark:12/f7/full/full/0/native.jpg" "out/doc1")
  = Ok "out/doc1/f7.jpg".
Proof. reflexivity. Qed.

(** ** [KrakenLikeCommand]: constructor and command line *)

(** C6. With a template that does not contain "$out" the constructor raises
    [NameError] and yields no object; with one that does, it returns the
    object, whatever the other arguments are. *)
Theorem kraken_init_requires_out (input_files : list InputType) (template : string)
    (multiprocess : option nat) (output_format desc : string)
    (allow_failure check_content : bool) :
  (~ (exists pre post, template = pre +:+ "$out" +:+ post) ->
   KrakenLikeCommand.__init__ input_files (Some template) multiprocess
     output_format desc allow_failure check_content
   = Raise (NameError "$out is missing in the Kraken-like command")) /\
  ((exists pre post, template = pre +:+ "$out" +:+ post) ->
   KrakenLikeCommand.__init__ input_files (Some template) multiprocess
     output_format desc allow_failure check_content
   = Ok (KrakenLikeCommand.mk (Task_init input_files (Some template) multiprocess)
           output_format check_content allow_failure [] desc)).
Proof.
  unfold KrakenLikeCommand.__init__.
  destruct (PyStr.contains "$out" template) eqn:Hc; simpl.
  - apply contains_spec in Hc. split; [by intros [] | done].
  - split; [done|]. intros Hex. apply contains_spec in Hex. congruence.
Qed.

Lemma kraken_init_requires_out_witness :
  KrakenLikeCommand.__init__ [IStr "a.png"] (Some "ocr $ -o $out") None
    "xml" "kraken-like" true false
  = Ok (ocr_task ["a.png"] true false) /\
  KrakenLikeCommand.__init__ [IStr "a.png"] (Some "ocr $ -o out.xml") None
    "xml" "kraken-like" true false
  = Raise (NameError "$out is missing in the Kraken-like command").
Proof.
  split.
  - apply (proj2 (kraken_init_requires_out [IStr "a.png"] "ocr $ -o $out" None
                    "xml" "kraken-like" true false)).
    by exists "ocr $ -o ", "".
  - apply (proj1 (kraken_init_requires_out [IStr "a.png"] "ocr $ -o out.xml" None
                    "xml" "kraken-like" true false)).
    intros Hex. apply contains_spec in Hex. vm_compute in Hex. discriminate.
Defined.

(** C9. The command line of an input path is the template in which first
    every "$out" has been replaced by the output path computed for that
    input, and then every "$" of the result by the input path; this is the
    line handed to the shell. *)
Theorem command_line_substitutes (x : KrakenLikeCommand.t) (template sample : string)
    (run : string -> gmap string string -> gmap string string * Completed) (w : World) :
  command (KrakenLikeCommand.task x) = Some template ->
  let out := OsPath.splitext_root sample +:+ "." +:+ KrakenLikeCommand._output_format x in
  let step1 := PyStr.replace "$out" out template in
  let line := PyStr.replace "$" sample step1 in
  KrakenLikeCommand.rename x (IStr sample) = Ok out /\
  replaced "$out" out template step1 /\
  replaced "$" sample step1 line /\
  KrakenLikeCommand.command_line x (IStr sample) = Ok line /\
  fs (KrakenLikeCommand.work run (IStr sample) (x, w)).2.2 = (run line (fs w)).1.
Proof.
  intros Hcmd out step1 line.
  split; [done|]. split; [by apply replace_replaced|].
  split; [by apply replace_replaced|].
  assert (Hline : KrakenLikeCommand.command_line x (IStr sample) = Ok line).
  { unfold KrakenLikeCommand.command_line. by rewrite Hcmd. }
  split; [done|].
  unfold KrakenLikeCommand.work.
  unfold mbind, mret, Py_bind, Py_ret, self, world_fs, gets, lift_res.
  cbn [frame_self frame_world method_frame fst snd]. rewrite Hline.
  destruct (run line (fs w)) as [m' proc]. simpl.
  unfold modify_fs, modify_world, modify, print, decode, raise, mret, Py_ret. simpl.
  destruct (returncode proc =? 1)%Z; [|done].
  destruct (proc_stdout proc); [|done]. destruct (proc_stderr proc); [|done].
  by destruct (KrakenLikeCommand.allow_failure x).
Qed.

Lemma command_line_substitutes_witness :
  KrakenLikeCommand.command_line (ocr_task ["scans/p1.png"] true false) (IStr "scans/p1.png")
  = Ok "ocr scans/p1.png -o scans/p1.xml".
Proof.
  exact (proj1 (proj2 (proj2 (proj2
    (command_line_substitutes (ocr_task ["scans/p1.png"] true false)
       "ocr $ -o $out" "scans/p1.png" toy_shell empty_world eq_refl))))).
Defined.

(** The order matters: replacing "$" first would eat the "$" of "$out". *)
Example substitution_order_matters :
  PyStr.replace "$out" "p1.xml" (PyStr.replace "$" "p1.png" "ocr $ -o $out")
  = "ocr p1.png -o p1.pngout".
Proof. reflexivity. Qed.

(** ** [DownloadIIIFManifestTask.output_files] *)

Lemma exists_lookup p (m : gmap string string) :
  exists_ p m = true <-> is_Some (m !! p).
Proof. unfold exists_. apply bool_decide_eq_true. Qed.

Lemma exists_lookup_None p (m : gmap string string) :
  exists_ p m = false <-> m !! p = None.
Proof.
  unfold exists_. rewrite bool_decide_eq_false, <- eq_None_not_Some. done.
Qed.

Section manifest_facts.
Variable change_ext : string -> string -> string.
Variable csv_reader : string -> list (list string).

Lemma manifest_output_files_acc (x : DownloadIIIFManifestTask.t) m inputs : forall out,
  foldl (fun out file =>
           let dl_file := DownloadIIIFManifestTask.rename_download change_ext x file in
           if exists_ dl_file m
           then out ++ (VTuple <$> csv_reader (default "" (m !! dl_file)))
           else out) out inputs
  = out ++ mjoin (index_rows change_ext csv_reader x m <$> inputs).
Proof.
  induction inputs as [|file rest IH]; intros out; simpl.
  - by rewrite app_nil_r.
  - rewrite IH. unfold index_rows at 2.
    destruct (exists_ _ m) eqn:Hex.
    + apply exists_lookup in Hex as [content Hc]. rewrite Hc. simpl.
      by rewrite app_assoc.
    + apply exists_lookup_None in Hex. by rewrite Hex.
Qed.

(** C5. [output_files] of a manifest task is the concatenation, over the
    inputs in order, of the rows of those index files that are on disk.  It
    is read from the filesystem given at the time of the call and from the
    inputs and naming scheme only: another object with the same inputs and
    naming scheme, whatever its completion map, lists the same.  An index
    file of N rows contributes N entries. *)
Theorem manifest_output_files_from_disk (x : DownloadIIIFManifestTask.t)
    (m : gmap string string) :
  DownloadIIIFManifestTask.output_files change_ext csv_reader x m
  = mjoin (index_rows change_ext csv_reader x m
             <$> input_files (DownloadIIIFManifestTask.task x)) /\
  (forall checked workers cmd,
     DownloadIIIFManifestTask.output_files change_ext csv_reader
       (DownloadIIIFManifestTask.mk
          (mkTask (input_files (DownloadIIIFManifestTask.task x)) cmd checked workers)
          (DownloadIIIFManifestTask.naming_function x)
          (DownloadIIIFManifestTask.output_directory x)) m
     = DownloadIIIFManifestTask.output_files change_ext csv_reader x m) /\
  (forall file,
     length (index_rows change_ext csv_reader x m file) =
     match m !! DownloadIIIFManifestTask.rename_download change_ext x file with
     | Some content => length (csv_reader content)
     | None => 0%nat
     end) /\
  length (DownloadIIIFManifestTask.output_files change_ext csv_reader x m)
  = sum_list (length ∘ index_rows change_ext csv_reader x m
                <$> input_files (DownloadIIIFManifestTask.task x)).
Proof.
  assert (Hout : forall y,
    DownloadIIIFManifestTask.output_files change_ext csv_reader y m
    = mjoin (index_rows change_ext csv_reader y m
               <$> input_files (DownloadIIIFManifestTask.task y))).
  { intros y. unfold DownloadIIIFManifestTask.output_files.
    by rewrite manifest_output_files_acc. }
  split; [apply Hout|]. split; [|split].
  - intros checked workers cmd. by rewrite !Hout.
  - intros file. unfold index_rows.
    destruct (m !! _); [by rewrite length_fmap | done].
  - rewrite Hout, length_join. by rewrite <- list_fmap_compose.
Qed.
End manifest_facts.

Example manifest_two_rows :
  let x := DownloadIIIFManifestTask.__init__ (string_to_hash toy)
             [IStr "m1"; IStr "m2"] None None None (Some "idx") in
  DownloadIIIFManifestTask.output_files (change_ext toy) (csv_reader toy) x
    {[ "idx/m1.csv" := "u/1/2/3/4,out;v/1/2/3/4,out;" ]}
  = [VTuple ["u/1/2/3/4"; "out"]; VTuple ["v/1/2/3/4"; "out"]].
Proof. vm_compute. reflexivity. Qed.

(** ** [KrakenLikeCommand._process]: exit codes *)

Section kraken_facts.
Variable run : string -> gmap string string -> gmap string string * Completed.

(** One command: the filesystem is the one the command left, whatever the
    work function returns or raises; what it returns is decided by the exit
    code once the pipes decode. *)
Lemma kraken_work_run (x : KrakenLikeCommand.t) sample w cmd :
  KrakenLikeCommand.command_line x sample = Ok cmd ->
  exists r w1,
    KrakenLikeCommand.work run sample (x, w) = (r, (x, w1)) /\
    fs w1 = (run cmd (fs w)).1 /\
    sigint w1 = sigint w /\ submitted w1 = submitted w /\
    calls w1 = calls w /\ overrun w1 = overrun w /\
    ((returncode (run cmd (fs w)).2 = 1%Z -> decodes (run cmd (fs w)).2) ->
     r = if (returncode (run cmd (fs w)).2 =? 1)%Z
         then (if KrakenLikeCommand.allow_failure x then Ok None else Raise InterruptedError)
         else Ok (Some sample)).
Proof.
  intros Hline. unfold KrakenLikeCommand.work.
  unfold mbind, mret, Py_bind, Py_ret, self, world_fs, gets, lift_res.
  cbn [frame_self frame_world method_frame fst snd]. rewrite Hline.
  destruct (run cmd (fs w)) as [m' proc]. cbn [fst snd].
  unfold modify_fs, modify_world, modify, print, decode, raise, mret, Py_ret.
  cbn [frame_upd_world method_frame fst snd].
  destruct (Z.eqb_spec (returncode proc) 1) as [Hrc|Hrc].
  - destruct (proc_stdout proc) as [out|] eqn:Hout.
    + destruct (proc_stderr proc) as [err|] eqn:Herr.
      * destruct (KrakenLikeCommand.allow_failure x); simpl;
          eexists _, _; (split; [reflexivity|]); by repeat split.
      * eexists _, _. split; [reflexivity|]. repeat split.
        intros Hd. destruct (Hd Hrc) as [_ [? Hs]]. congruence.
    + eexists _, _. split; [reflexivity|]. repeat split.
      intros Hd. destruct (Hd Hrc) as [[? Hs] _]. congruence.
  - eexists _, _. split; [reflexivity|]. by repeat split.
Qed.

Lemma survivors_cons inp inputs rc codes :
  survivors (inp :: inputs) (rc :: codes) =
  (if (rc =? 1)%Z then [] else [inp]) ++ survivors inputs codes.
Proof.
  unfold survivors. simpl. destruct (Z.eqb_spec rc 1) as [->|Hne].
  - by rewrite filter_cons_False by (simpl; tauto).
  - by rewrite filter_cons_True by done.
Qed.

Lemma run_batch_length line inputs : forall m,
  Forall (fun inp => is_ok (line inp) = true) inputs ->
  length (run_batch run line inputs m).1 = length inputs.
Proof.
  induction inputs as [|sample rest IH]; intros m Hall; [done|].
  apply Forall_cons in Hall as [Hs Hrest]. simpl.
  destruct (line sample) as [cmd|]; [|done].
  destruct (run cmd m) as [m' proc].
  specialize (IH m' Hrest). destruct (run_batch run line rest m') as [codes m''].
  simpl in *. by rewrite IH.
Qed.

Lemma run_procs_codes line inputs : forall m,
  returncode <$> run_procs run line inputs m = (run_batch run line inputs m).1.
Proof.
  induction inputs as [|sample rest IH]; intros m; [done|]. simpl.
  destruct (line sample) as [cmd|]; [|done].
  destruct (run cmd m) as [m' proc]. rewrite fmap_cons, IH.
  by destruct (run_batch run line rest m').
Qed.

(** Commands that run with nobody taking their result. *)
Lemma kraken_run_detached (x : KrakenLikeCommand.t) items : forall w,
  Forall (fun inp => is_ok (KrakenLikeCommand.command_line x inp) = true) items ->
  exists w',
    (run_detached (KrakenLikeCommand.work run) items (x, w)).2 = (x, w') /\
    fs w' = (run_batch run (KrakenLikeCommand.command_line x) items (fs w)).2 /\
    submitted w' = submitted w /\
    calls w' = calls w ++ (Plain <$> items).
Proof.
  induction items as [|sample rest IH]; intros w Hall.
  - exists w. by rewrite app_nil_r.
  - apply Forall_cons in Hall as [Hs Hrest].
    destruct (KrakenLikeCommand.command_line x sample) as [cmd|] eqn:Hline; [|done].
    destruct (kraken_work_run x sample (add_call (Plain sample) w) cmd Hline)
      as (r & w1 & Hrun & Hfs & _ & Hsub & Hcalls & _).
    cbn [run_detached run_batch]. rewrite Hline.
    change (call (KrakenLikeCommand.work run) sample (x, w))
      with (KrakenLikeCommand.work run sample (x, add_call (Plain sample) w)).
    rewrite Hrun. cbn [snd]. simpl in Hfs, Hsub, Hcalls.
    destruct (run cmd (fs w)) as [m' proc]. cbn [fst snd] in *.
    destruct (IH w1 Hrest) as (w' & Hdet & Hfs' & Hsub' & Hcalls').
    rewrite Hfs in Hfs'.
    destruct (run_batch run (KrakenLikeCommand.command_line x) rest m') as [codes m''].
    exists w'. split; [done|]. split; [done|]. split; [congruence|].
    rewrite Hcalls', Hcalls. csimpl. by rewrite <- app_assoc.
Qed.

(** Tolerant mode, or no exit code 1 at all: the loop runs every command. *)
Lemma kraken_loop_all (x : KrakenLikeCommand.t) inputs : forall recorded w,
  sigint w = None ->
  Forall (fun inp => is_ok (KrakenLikeCommand.command_line x inp) = true) inputs ->
  let codes := (run_batch run (KrakenLikeCommand.command_line x) inputs (fs w)).1 in
  Forall (fun proc => returncode proc = 1%Z -> decodes proc)
    (run_procs run (KrakenLikeCommand.command_line x) inputs (fs w)) ->
  KrakenLikeCommand.allow_failure x = true \/ (forall i, codes !! i <> Some 1%Z) ->
  exists w',
    executor_map (KrakenLikeCommand.work run) inputs KrakenLikeCommand.collect
      (KrakenLikeCommand.extend_output recorded x, w)
    = (Ok tt, (KrakenLikeCommand.extend_output (recorded ++ survivors inputs codes) x, w')) /\
    fs w' = (run_batch run (KrakenLikeCommand.command_line x) inputs (fs w)).2 /\
    submitted w' = submitted w /\
    calls w' = calls w ++ (Plain <$> inputs).
Proof.
  induction inputs as [|sample rest IH]; intros recorded w Hsig Hall codes Hdec Hmode.
  - exists w. simpl. unfold survivors. simpl. by rewrite !app_nil_r.
  - apply Forall_cons in Hall as [Hs Hrest].
    rewrite executor_map_cons by done.
    destruct (KrakenLikeCommand.command_line x sample) as [cmd|] eqn:Hline; [|done].
    destruct (kraken_work_run (KrakenLikeCommand.extend_output recorded x) sample
                (add_call (Plain sample) w) cmd Hline)
      as (r & w1 & Hrun & Hfs & Hsig1 & Hsub & Hcalls & _ & Hres).
    change (call (KrakenLikeCommand.work run) sample
              (KrakenLikeCommand.extend_output recorded x, w))
      with (KrakenLikeCommand.work run sample
              (KrakenLikeCommand.extend_output recorded x, add_call (Plain sample) w)).
    rewrite Hrun. simpl in Hfs, Hsig1, Hsub, Hcalls, Hres.
    subst codes. cbn [run_batch run_procs] in *. rewrite Hline in *.
    destruct (run cmd (fs w)) as [m' proc] eqn:Hr. cbn [fst snd] in *.
    apply Forall_cons in Hdec as [Hd Hdec].
    specialize (Hres Hd). subst r.
    destruct (run_batch run (KrakenLikeCommand.command_line x) rest m') as [codes m''] eqn:Hb.
    cbn [fst snd] in *. rewrite survivors_cons.
    destruct (Z.eqb_spec (returncode proc) 1) as [Hrc|Hrc].
    + destruct Hmode as [Hmode | Hmode].
      2:{ exfalso. apply (Hmode 0%nat). simpl. by rewrite Hrc. }
      rewrite Hmode. cbn [KrakenLikeCommand.collect mret Py_ret].
      destruct (IH recorded w1) as (w' & Hloop & Hfs' & Hsub' & Hcalls').
      * congruence.
      * done.
      * by rewrite Hfs.
      * left. done.
      * rewrite Hfs, Hb in Hloop, Hfs'. simpl in *.
        exists w'. rewrite Hloop. split; [done|]. split; [done|]. split; [congruence|].
        rewrite Hcalls', Hcalls. csimpl. by rewrite <- app_assoc.
    + cbn [KrakenLikeCommand.collect].
      unfold modify_self, modify. cbn [frame_upd_self method_frame fst snd].
      destruct (IH (recorded ++ [sample]) w1) as (w' & Hloop & Hfs' & Hsub' & Hcalls').
      * congruence.
      * done.
      * by rewrite Hfs.
      * destruct Hmode as [Hmode|Hmode]; [by left|]. right.
        intros i. rewrite Hfs, Hb. simpl. exact (Hmode (S i)).
      * rewrite Hfs, Hb in Hloop, Hfs'. simpl in *.
        exists w'. split; [|split; [done|split; [congruence|]]].
        -- unfold KrakenLikeCommand.extend_output in *. simpl in *.
           rewrite <- !app_assoc in *. exact Hloop.
        -- rewrite Hcalls', Hcalls. csimpl. by rewrite <- app_assoc.
Qed.

(** Fail-fast mode: the caller is stopped at the first exit code 1; the
    commands queued after it still run, as many as the pool starts. *)
Lemma kraken_loop_fail_fast (x : KrakenLikeCommand.t) inputs : forall i proc recorded w,
  sigint w = None ->
  Forall (fun inp => is_ok (KrakenLikeCommand.command_line x inp) = true) inputs ->
  KrakenLikeCommand.allow_failure x = false ->
  let codes := (run_batch run (KrakenLikeCommand.command_line x) inputs (fs w)).1 in
  run_procs run (KrakenLikeCommand.command_line x) inputs (fs w) !! i = Some proc ->
  returncode proc = 1%Z -> decodes proc ->
  (forall j, (j < i)%nat -> codes !! j <> Some 1%Z) ->
  exists w',
    executor_map (KrakenLikeCommand.work run) inputs KrakenLikeCommand.collect
      (KrakenLikeCommand.extend_output recorded x, w)
    = (Raise InterruptedError,
       (KrakenLikeCommand.extend_output (recorded ++ take i inputs) x, w')) /\
    fs w' = (run_batch run (KrakenLikeCommand.command_line x)
               (take (S i + overrun w) inputs) (fs w)).2 /\
    submitted w' = submitted w /\
    calls w' = calls w ++ (Plain <$> take (S i + overrun w) inputs).
Proof.
  induction inputs as [|sample rest IH];
    intros i proc recorded w Hsig Hall Hmode codes Hi Hrc1 Hdec Hfirst.
  - by destruct i.
  - apply Forall_cons in Hall as [Hs Hrest].
    rewrite executor_map_cons by done.
    destruct (KrakenLikeCommand.command_line x sample) as [cmd|] eqn:Hline; [|done].
    destruct (kraken_work_run (KrakenLikeCommand.extend_output recorded x) sample
                (add_call (Plain sample) w) cmd Hline)
      as (r & w1 & Hrun & Hfs & Hsig1 & Hsub & Hcalls & Hover & Hres).
    change (call (KrakenLikeCommand.work run) sample
              (KrakenLikeCommand.extend_output recorded x, w))
      with (KrakenLikeCommand.work run sample
              (KrakenLikeCommand.extend_output recorded x, add_call (Plain sample) w)).
    rewrite Hrun. simpl in Hfs, Hsig1, Hsub, Hcalls, Hover, Hres.
    subst codes. cbn [run_batch run_procs] in *. rewrite Hline in *.
    replace (S i + overrun w)%nat with (S (i + overrun w)) by lia.
    cbn [take run_batch]. rewrite Hline.
    destruct (run cmd (fs w)) as [m' proc0] eqn:Hr. cbn [fst snd] in *.
    destruct (run_batch run (KrakenLikeCommand.command_line x) rest m') as [codes m''] eqn:Hb.
    cbn [fst snd] in *.
    destruct i as [|i].
    + simpl in Hi. injection Hi as ->.
      rewrite (Hres (fun _ => Hdec)). rewrite Hrc1, Hmode. simpl.
      rewrite abandon_raise. cbn [frame_world method_frame snd].
      destruct (kraken_run_detached (KrakenLikeCommand.extend_output recorded x)
                  (take (overrun w1) rest) w1) as (w' & Hdet & Hfs' & Hsub' & Hcalls').
      { by apply Forall_take. }
      rewrite Hdet. exists w'. rewrite app_nil_r. split; [done|].
      rewrite Hover in *. rewrite Hfs in Hfs'.
      change (KrakenLikeCommand.command_line (KrakenLikeCommand.extend_output recorded x))
        with (KrakenLikeCommand.command_line x) in Hfs'.
      destruct (run_batch run (KrakenLikeCommand.command_line x)
                  (take (overrun w) rest) m') as [codes' m3].
      split; [done|]. split; [congruence|].
      rewrite Hcalls', Hcalls. csimpl. by rewrite <- app_assoc.
    + assert (Hrc : returncode proc0 <> 1%Z).
      { intros Hrc. apply (Hfirst 0%nat); [lia|]. simpl. by rewrite Hrc. }
      assert (Hd0 : returncode proc0 = 1%Z -> decodes proc0) by done.
      rewrite (Hres Hd0).
      destruct (Z.eqb_spec (returncode proc0) 1) as [|_]; [done|].
      cbn [KrakenLikeCommand.collect].
      unfold modify_self, modify. cbn [frame_upd_self method_frame fst snd].
      destruct (IH i proc (recorded ++ [sample]) w1) as (w' & Hloop & Hfs' & Hsub' & Hcalls').
      * congruence.
      * done.
      * done.
      * rewrite Hfs. exact Hi.
      * done.
      * done.
      * intros j Hj. rewrite Hfs, Hb. simpl. apply (Hfirst (S j)). lia.
      * rewrite Hfs, Hover in Hfs'. rewrite Hover in Hcalls'.
        exists w'. split; [|split; [|split; [congruence|]]].
        -- unfold KrakenLikeCommand.extend_output in *. simpl in *.
           rewrite <- !app_assoc in *. exact Hloop.
        -- rewrite Hfs'.
           by destruct (run_batch run (KrakenLikeCommand.command_line x)
                          (take (S i + overrun w) rest) m').
        -- rewrite Hcalls', Hcalls. csimpl. by rewrite <- app_assoc.
Qed.

Lemma kraken_extend_output_nil (x : KrakenLikeCommand.t) :
  KrakenLikeCommand.extend_output [] x = x.
Proof. destruct x. unfold KrakenLikeCommand.extend_output. simpl. by rewrite app_nil_r. Qed.

Lemma kraken_process_unfold (x : KrakenLikeCommand.t) inputs w :
  KrakenLikeCommand._process run inputs (x, w) =
  match executor_map (KrakenLikeCommand.work run) inputs KrakenLikeCommand.collect
          (x, add_submitted inputs w) with
  | (Ok _, s) => (Ok None, s)
  | (Raise e, s) => (Raise e, s)
  end.
Proof.
  unfold KrakenLikeCommand._process, mbind, mret, Py_bind, Py_ret, modify_world, modify.
  simpl. by destruct (executor_map _ _ _ _) as [[[]|e] s].
Qed.

(** X19. The failure policy of [_process], where failure is exit code 1,
    for a pool of one worker and with no interrupt pending.  The commands of
    a batch of paths then run in turn.  In tolerant mode, when the pipes of
    the failing commands decode, every command runs and exactly the inputs
    whose code is not 1 are recorded.  In fail-fast mode, at the first code
    1 (its pipes decoding) the caller gets [InterruptedError], having
    recorded the inputs before that one; the commands queued behind it are
    not stopped: as many of them still run as the pool starts before its
    queue is cancelled. *)
Theorem kraken_failure_policy (x : KrakenLikeCommand.t) (inputs : list InputType) (w : World) :
  sigint w = None ->
  workers (KrakenLikeCommand.task x) = 1%nat ->
  Forall (fun inp => is_ok (KrakenLikeCommand.command_line x inp) = true) inputs ->
  let batch := run_batch run (KrakenLikeCommand.command_line x) in
  let codes := (batch inputs (fs w)).1 in
  let procs := run_procs run (KrakenLikeCommand.command_line x) inputs (fs w) in
  let out := KrakenLikeCommand._process run inputs (x, w) in
  length codes = length inputs /\
  codes = returncode <$> procs /\
  (KrakenLikeCommand.allow_failure x = true ->
   Forall (fun proc => returncode proc = 1%Z -> decodes proc) procs ->
     out.1 = Ok None /\
     KrakenLikeCommand._output_files out.2.1 =
       KrakenLikeCommand._output_files x ++ survivors inputs codes /\
     fs out.2.2 = (batch inputs (fs w)).2 /\
     calls out.2.2 = calls w ++ (Plain <$> inputs)) /\
  (KrakenLikeCommand.allow_failure x = false ->
   forall i proc, procs !! i = Some proc -> returncode proc = 1%Z -> decodes proc ->
     (forall j, (j < i)%nat -> codes !! j <> Some 1%Z) ->
     out.1 = Raise InterruptedError /\
     KrakenLikeCommand._output_files out.2.1 =
       KrakenLikeCommand._output_files x ++ take i inputs /\
     fs out.2.2 = (batch (take (S i + overrun w) inputs) (fs w)).2 /\
     calls out.2.2 = calls w ++ (Plain <$> take (S i + overrun w) inputs)).
Proof.
  intros Hsig _ Hall batch codes procs out.
  split; [by apply run_batch_length|].
  split; [symmetry; apply run_procs_codes|]. split.
  - intros Hmode Hdec.
    destruct (kraken_loop_all x inputs [] (add_submitted inputs w))
      as (w' & Hloop & Hfs & _ & Hcalls); [done|done|done|by left|].
    subst out. rewrite kraken_process_unfold.
    rewrite kraken_extend_output_nil in Hloop. simpl in Hloop. rewrite Hloop.
    simpl. done.
  - intros Hmode i proc Hi Hrc Hdec Hfirst.
    destruct (kraken_loop_fail_fast x inputs i proc [] (add_submitted inputs w))
      as (w' & Hloop & Hfs & _ & Hcalls); [done|done|done|done|done|done|done|].
    subst out. rewrite kraken_process_unfold.
    rewrite kraken_extend_output_nil in Hloop. simpl in Hloop. rewrite Hloop.
    simpl. done.
Qed.
End kraken_facts.

Lemma kraken_failure_policy_witness :
  let x := ocr_task ["p1.png"; "bad2.png"; "p3.png"] false false in
  let inputs := input_files (KrakenLikeCommand.task x) in
  let out := KrakenLikeCommand._process toy_shell inputs (x, set_overrun 1 empty_world) in
  out.1 = Raise InterruptedError /\
  KrakenLikeCommand._output_files out.2.1 = [] ++ take 1 inputs /\
  fs out.2.2 =
    (run_batch toy_shell (KrakenLikeCommand.command_line x) (take (2 + 1) inputs) ∅).2 /\
  calls out.2.2 = [] ++ (Plain <$> take (2 + 1) inputs).
Proof.
  intros x inputs out.
  apply (proj2 (proj2 (proj2
    (kraken_failure_policy toy_shell x inputs (set_overrun 1 empty_world)
       eq_refl eq_refl ltac:(repeat constructor))))
    eq_refl 1%nat (mkCompleted 1 (Some "") (Some "failed")) eq_refl eq_refl).
  - split; by eexists.
  - intros [|j] Hj; [vm_compute; discriminate | lia].
Defined.

(** Three commands of which the second fails.  Tolerant mode records the
    first and the third.  Fail-fast mode stops the caller at the second; the
    third command still runs if the pool has started it, and its output is
    then on disk without being recorded. *)
Example kraken_three_items :
  let tolerant := ocr_task ["p1.png"; "bad2.png"; "p3.png"] true false in
  let fail_fast := ocr_task ["p1.png"; "bad2.png"; "p3.png"] false false in
  let inputs := [IStr "p1.png"; IStr "bad2.png"; IStr "p3.png"] in
  let out_t := KrakenLikeCommand._process toy_shell inputs (tolerant, empty_world) in
  let out_f := KrakenLikeCommand._process toy_shell inputs (fail_fast, empty_world) in
  let out_r := KrakenLikeCommand._process toy_shell inputs
                 (fail_fast, set_overrun 1 empty_world) in
  KrakenLikeCommand.output_files out_t.2.1 = Ok [VStr "p1.xml"; VStr "p3.xml"] /\
  out_f.1 = Raise InterruptedError /\
  KrakenLikeCommand.output_files out_f.2.1 = Ok [VStr "p1.xml"] /\
  fs out_f.2.2 !! "p3.xml" = None /\
  out_r.1 = Raise InterruptedError /\
  KrakenLikeCommand.output_files out_r.2.1 = Ok [VStr "p1.xml"] /\
  fs out_r.2.2 !! "p3.xml" = Some "<alto/>".
Proof. vm_compute. repeat split. Qed.

(** C3 as stated fails: a command that exits with code 2 is not a failure
    for the code.  In tolerant mode its input is recorded as an output; in
    fail-fast mode nothing is raised and the next command runs. *)
Lemma kraken_exit_code_two_is_success :
  let inputs := [IStr "odd1.png"; IStr "p2.png"] in
  let out_t := KrakenLikeCommand._process toy_shell inputs
                 (ocr_task ["odd1.png"; "p2.png"] true false, empty_world) in
  let out_f := KrakenLikeCommand._process toy_shell inputs
                 (ocr_task ["odd1.png"; "p2.png"] false false, empty_world) in
  (run_batch toy_shell
     (KrakenLikeCommand.command_line (ocr_task ["odd1.png"; "p2.png"] true false))
     inputs ∅).1 = [2%Z; 0%Z] /\
  KrakenLikeCommand.output_files out_t.2.1 = Ok [VStr "odd1.xml"; VStr "p2.xml"] /\
  out_f.1 = Ok None /\
  KrakenLikeCommand.output_files out_f.2.1 = Ok [VStr "odd1.xml"; VStr "p2.xml"] /\
  fs out_f.2.2 !! "p2.xml" = Some "<alto/>".
Proof. vm_compute. repeat split. Qed.

(** ** [DownloadIIIFImageTask._process]: one download *)

Section image_facts.
Variable U : Collaborators.


End image_facts.

(** ** What [KrakenLikeCommand.check] returns *)

Section kraken_check_facts.
Variable cc : string -> gmap string string -> bool.

Lemma kraken_check_item_run (x x1 : KrakenLikeCommand.t) acc inp w :
  KrakenLikeCommand.check_item cc x acc inp (x1, w) =
  match KrakenLikeCommand.rename x inp with
  | Ok out =>
      if exists_ out (fs w)
      then (Ok acc,
            (KrakenLikeCommand.set_checked inp
               (if KrakenLikeCommand.check_content x then cc out (fs w) else true) x1, w))
      else (Ok false, (KrakenLikeCommand.set_checked inp false x1, w))
  | Raise e => (Raise e, (x1, w))
  end.
Proof.
  unfold KrakenLikeCommand.check_item. py_unfold. simpl.
  destruct (KrakenLikeCommand.rename x inp) as [out|]; [|done].
  by destruct (exists_ out (fs w)).
Qed.

(** The returned flag is the conjunction of the existence tests alone: the
    verdict of the content check reaches the completion map, not the flag. *)
Lemma kraken_check_returns_existence (x : KrakenLikeCommand.t) w b s' :
  KrakenLikeCommand.check cc (x, w) = (Ok b, s') ->
  b = forallb (fun inp => match KrakenLikeCommand.rename x inp with
                          | Ok out => exists_ out (fs w)
                          | Raise _ => false
                          end) (input_files (KrakenLikeCommand.task x)).
Proof.
  unfold KrakenLikeCommand.check. py_unfold. simpl.
  assert (Hloop : forall inputs acc x1 b1 s1,
    for_fold inputs acc (KrakenLikeCommand.check_item cc x) (x1, w) = (Ok b1, s1) ->
    b1 = acc && forallb (fun inp => match KrakenLikeCommand.rename x inp with
                                    | Ok out => exists_ out (fs w)
                                    | Raise _ => false
                                    end) inputs).
  { induction inputs as [|inp rest IH]; intros acc x1 b1 s1 Hrun.
    - injection Hrun as <- _. by rewrite andb_true_r.
    - rewrite for_fold_cons, kraken_check_item_run in Hrun. simpl.
      destruct (KrakenLikeCommand.rename x inp) as [out|]; [|done].
      destruct (exists_ out (fs w)).
      + by apply IH in Hrun.
      + apply IH in Hrun. rewrite Hrun. by rewrite andb_false_r. }
  destruct (for_fold _ _ _ _) as [[b1|e] s1] eqn:Hrun; [|done].
  intros [= <- _]. by apply Hloop in Hrun.
Qed.
End kraken_check_facts.

(** ** The theorems at work *)

(** C4 fails on the code: the handler of Ctrl-C tests the URI of an input
    against the values the workers returned, not the input against the
    inputs already fetched.  Two inputs are pending, the URI of the second
    being the path the first is written to.  [process()] fetches the first,
    and is interrupted while a worker has written part of the second: the
    handler takes the second for done, since its URI is among the recorded
    values, and leaves the partial file where it is, while it deletes the
    complete file of the first.  The next [check()] reports the second
    input done. *)
Theorem image_interrupt_keeps_unconfirmed_partial :
  let first := IPair "x/a/1/2/3/4" "p/q/r/s" in
  let second := IPair "p/q/r/s/a.jpg" "out" in
  let a := Image (DownloadIIIFImageTask.__init__ [first; second] None None None) in
  let w := mkWorld ∅ [] [] (Some (1%nat, [("out/p.jpg", "JFIF")])) in
  let checked := any_check toy (a, w) in
  let after := any_process toy (a, w) in
  let again := any_check toy after.2 in
  DownloadIIIFImageTask.rename_download first = Ok "p/q/r/s/a.jpg" /\
  DownloadIIIFImageTask.rename_download second = Ok "out/p.jpg" /\
  _checked_files (any_super checked.2.1) = [(first, false); (second, false)] /\
  after.1 = Ok (Some true) /\
  sigint after.2.2 = None /\
  stdout after.2.2 = ["Download manually interrupted, removing partial JPGs"] /\
  calls after.2.2 = [WithTarget (IStr "x/a/1/2/3/4") "p/q/r/s/a.jpg"] /\
  recorded after.2.1 = [IStr "p/q/r/s/a.jpg"] /\
  fs after.2.2 !! "out/p.jpg" = Some "JFIF" /\
  fs after.2.2 !! "p/q/r/s/a.jpg" = None /\
  Dict.lookup second (_checked_files (any_super again.2.1)) = Some true.
Proof. vm_compute. repeat split. Qed.

(** With a worker that returns the URI it fetched the handler goes wrong
    as well: one image is asked for into two directories, the first copy is
    fetched, and the partial second copy stays, its URI being recorded. *)
Example image_interrupt_same_uri_twice :
  let uri := "https://h/iiif/ark:12/f7/full/full/0/native.jpg" in
  let a := Image (DownloadIIIFImageTask.__init__ [IPair uri "a"; IPair uri "b"]
                    None None None) in
  let w := mkWorld ∅ [] [] (Some (1%nat, [("b/f7.jpg", "JFIF")])) in
  let after := any_process toy_returning_uri (a, w) in
  let again := any_check toy_returning_uri after.2 in
  after.1 = Ok (Some true) /\
  calls after.2.2 = [WithTarget (IStr uri) "a/f7.jpg"] /\
  recorded after.2.1 = [IStr uri] /\
  fs after.2.2 !! "b/f7.jpg" = Some "JFIF" /\
  Dict.lookup (IPair uri "b") (_checked_files (any_super again.2.1)) = Some true.
Proof. vm_compute. repeat split. Qed.

(** C2 fails on the code when content checking is on: the output exists but
    is rejected, its entry is false, and [check()] still returns [True]. *)
Theorem kraken_check_true_despite_rejected_content :
  let x := ocr_task ["a.png"] true true in
  let w := mkWorld {[ "a.xml" := "<alto" ]} [] [] None in
  let checked := KrakenLikeCommand.check (check_content toy) (x, w) in
  KrakenLikeCommand.rename x (IStr "a.png") = Ok "a.xml" /\
  check_content toy "a.xml" (fs w) = false /\
  is_done toy (Kraken x) (fs w) (IStr "a.png") = Ok false /\
  _checked_files (KrakenLikeCommand.task checked.2.1) = [(IStr "a.png", false)] /\
  checked.1 = Ok true.
Proof. vm_compute. repeat split. Qed.

(** C1 as stated fails: with one command that writes its output yet exits
    with 1 and one that fails outright, the first run lists no output, and
    the second run, on an untouched filesystem, lists one and hands the
    failed input to the executor again. *)
Lemma process_twice_resubmits_and_lists_more :
  let a0 := Kraken (ocr_task ["half.png"; "bad.png"] true false) in
  let run1 := any_process toy (a0, empty_world) in
  let run2 := any_process toy run1.2 in
  any_output_files toy run1.2.1 (fs run1.2.2) = Ok [] /\
  any_output_files toy run2.2.1 (fs run2.2.2) = Ok [VStr "half.xml"] /\
  submitted run1.2.2 = [IStr "half.png"; IStr "bad.png"] /\
  submitted run2.2.2 = submitted run1.2.2 ++ [IStr "bad.png"].
Proof. vm_compute. repeat split. Qed.

Lemma well_formed_init (t : Task) :
  _checked_files t = [] -> well_formed t.
Proof.
  intros Hnil. unfold well_formed. rewrite Hnil. split; [constructor|].
  by intros k ?%elem_of_nil.
Qed.

Lemma process_twice_witness :
  let a0 := Kraken (ocr_task ["p1.png"] true false) in
  let run1 := any_process toy (a0, empty_world) in
  let run2 := any_process toy run1.2 in
  run2.1 = Ok (Some true) /\
  run2.2.2 = add_stdout "Nothing to process here." run1.2.2 /\
  submitted run2.2.2 = submitted run1.2.2.
Proof.
  intros a0 run1 run2.
  destruct (process_twice toy a0 empty_world run1.1 run1.2.1 run1.2.2
              run2.1 run2.2.1 run2.2.2) as (Hr & Hw & Hs & _).
  - by apply well_formed_init.
  - vm_compute. reflexivity.
  - vm_compute. reflexivity.
  - intros inp Hin. apply list_elem_of_singleton in Hin as ->. vm_compute. reflexivity.
  - vm_compute. reflexivity.
  - by repeat split.
Defined.

Lemma process_nothing_to_process_witness :
  let a := ClearFile (ClearFileCommand.mk (Task_init [IStr "p1.jpg"] None None)) in
  any_process toy (a, empty_world)
  = (Ok (Some true), ((any_check toy (a, empty_world)).2.1,
                      add_stdout "Nothing to process here." empty_world)).
Proof.
  intros a.
  apply (process_nothing_to_process toy a empty_world true
           (any_check toy (a, empty_world)).2.1 empty_world).
  - vm_compute. reflexivity.
  - vm_compute. repeat constructor.
Defined.

Lemma process_submits_pending_only_witness :
  let a := Kraken (ocr_task ["p1.png"; "p2.png"] true false) in
  let w := mkWorld {[ "p1.xml" := "<alto/>" ]} [] [] None in
  exists worked,
    calls (any_process toy (a, w)).2.2 = calls w ++ worked /\
    worked = [Plain (IStr "p2.png")].
Proof.
  intros a w.
  destruct (process_submits_pending_only toy a w) as (batch & worked & n & Hc & _).
  - by apply well_formed_init.
  - exists worked. split; [exact Hc|].
    vm_compute in Hc. exact (eq_sym Hc).
Defined.

Lemma rename_download_partial_witness :
  exists uri directory segment,
    page_f7 = IPair uri directory /\
    (5 <= length (PyStr.split "/" uri))%nat /\
    PyStr.split "/" uri !! (length (PyStr.split "/" uri) - 5)%nat = Some segment /\
    "out/f7.jpg" = OsPath.join directory (segment +:+ ".jpg").
Proof.
  apply (proj2 (proj2 rename_download_partial) page_f7 "out/f7.jpg").
  vm_compute. reflexivity.
Defined.

Lemma manifest_output_files_from_disk_witness :
  let x := DownloadIIIFManifestTask.__init__ (string_to_hash toy)
             [IStr "m1"; IStr "m2"] None None None (Some "idx") in
  let m : gmap string string := {[ "idx/m1.csv" := "u/1/2/3/4,out;v/1/2/3/4,out;" ]} in
  DownloadIIIFManifestTask.output_files (change_ext toy) (csv_reader toy) x m
  = mjoin (index_rows (change_ext toy) (csv_reader toy) x m <$> [IStr "m1"; IStr "m2"]).
Proof.
  intros x m.
  exact (proj1 (manifest_output_files_from_disk (change_ext toy) (csv_reader toy) x m)).
Defined.

(** * Further properties of the tasks *)

(** ** [check()] across the classes *)

Lemma dict_set_same {K V} `{EqDecision K} (k : K) (v : V) (d : list (K * V)) :
  Dict.lookup k d = Some v -> Dict.set k v d = d.
Proof.
  induction d as [|[k' v'] d IH]; simpl; [done|].
  destruct (decide (k' = k)) as [->|Hne].
  - by intros [= ->].
  - intros Hl. by rewrite IH.
Qed.

(** Marking again with the same oracle changes nothing. *)
Lemma mark_all_again (o : InputType -> Res bool) inputs d d' :
  mark_all o inputs d = Ok d' -> mark_all o inputs d' = Ok d'.
Proof.
  intros Hm.
  assert (Hgen : forall l, l ⊆ inputs -> mark_all o l d' = Ok d').
  { induction l as [|i rest IH]; intros Hsub; [done|]. simpl.
    assert (Hi : i ∈ inputs) by (apply Hsub; left).
    destruct (mark_all_lookup_in _ _ _ _ _ Hm Hi) as (st & -> & Hl).
    rewrite (dict_set_same _ _ _ Hl). apply IH. intros y Hy. apply Hsub. by right. }
  by apply Hgen.
Qed.

Lemma mark_all_pointwise (o o' : InputType -> Res bool) inputs d :
  (forall inp, o inp = o' inp) -> mark_all o inputs d = mark_all o' inputs d.
Proof.
  intros Hext. revert d. induction inputs as [|i rest IH]; intros d; simpl; [done|].
  rewrite <- Hext. destruct (o i); [apply IH | done].
Qed.

(** From an empty map, distinct inputs are entered in their order. *)
Lemma mark_all_fresh (o : InputType -> Res bool) inputs : forall d d',
  NoDup inputs ->
  (forall k, k ∈ Dict.keys d -> k ∉ inputs) ->
  mark_all o inputs d = Ok d' ->
  exists verdicts,
    d' = d ++ zip inputs verdicts /\ length verdicts = length inputs /\
    Forall2 (fun inp st => o inp = Ok st) inputs verdicts.
Proof.
  induction inputs as [|i rest IH]; intros d d' Hnd Hfresh Hm.
  - injection Hm as <-. exists []. by rewrite app_nil_r.
  - simpl in Hm. destruct (o i) as [st|] eqn:Ho; [|done].
    apply NoDup_cons in Hnd as [Hi Hnd].
    assert (Hset : Dict.set i st d = d ++ [(i, st)]).
    { assert (Hk : i ∉ Dict.keys d).
      { intros Hk. apply (Hfresh i Hk). left. }
      clear -Hk. induction d as [|[k v] d IH]; [done|]. simpl.
      unfold Dict.keys in *. rewrite fmap_cons in Hk.
      apply not_elem_of_cons in Hk as [Hne Hk]. simpl in Hne.
      rewrite decide_False by done. by rewrite IH. }
    rewrite Hset in Hm.
    destruct (IH (d ++ [(i, st)]) d' Hnd) as (vs & -> & Hlen & Hall); [|done|].
    { intros k Hk Hin. unfold Dict.keys in Hk. rewrite fmap_app in Hk.
      apply elem_of_app in Hk as [Hk|Hk].
      - apply (Hfresh k Hk). by right.
      - apply list_elem_of_singleton in Hk. simpl in Hk. by subst. }
    exists (st :: vs). simpl. rewrite <- app_assoc. split; [done|].
    split; [by rewrite Hlen | by constructor].
Qed.

Section check_facts.
Variable U : Collaborators.

(** X1. [check()] of every class only reads: the world it returns is the
    world it was given (filesystem, printed lines, submitted items, pending
    interrupt), and the object keeps its class, inputs and configuration,
    whether [check()] returns or raises. *)
Theorem check_is_read_only (a : AnyTask) (w : World) :
  (any_check U (a, w)).2.2 = w /\
  forget (any_check U (a, w)).2.1 = forget a /\
  input_files (any_super (any_check U (a, w)).2.1) = input_files (any_super a).
Proof.
  destruct (any_check_spec U a w) as (r & a' & Hc & Hf & _).
  rewrite Hc. simpl. split; [done|]. split; [done|]. by apply forget_inputs.
Qed.

(** X2. A [check()] that returns re-evaluates every input: the completion
    map then holds, for each input, the verdict of the class's oracle on the
    filesystem of the call, and it holds no other entry; a verdict from an
    earlier call never survives. *)
Theorem check_refreshes_every_entry (a : AnyTask) (w : World) b a1 w1 :
  well_formed (any_super a) ->
  any_check U (a, w) = (Ok b, (a1, w1)) ->
  forall inp st,
    Dict.lookup inp (_checked_files (any_super a1)) = Some st <->
    inp ∈ input_files (any_super a) /\ is_done U a (fs w) inp = Ok st.
Proof. intros Hwf Hc. by eapply any_check_entries. Qed.

(** X3. The keys of the completion map are distinct and are inputs: the
    constructors establish this, and a [check()] or [process()] that returns
    keeps it; [process()] never changes the class, inputs or configuration. *)
Theorem completion_map_invariant (a : AnyTask) (w : World) :
  (_checked_files (any_super a) = [] -> well_formed (any_super a)) /\
  (well_formed (any_super a) ->
   is_ok (any_check U (a, w)).1 = true ->
   well_formed (any_super (any_check U (a, w)).2.1)) /\
  (well_formed (any_super a) ->
   is_ok (any_process U (a, w)).1 = true ->
   well_formed (any_super (any_process U (a, w)).2.1)) /\
  forget (any_process U (a, w)).2.1 = forget a.
Proof.
  split; [apply well_formed_init|]. split; [|split].
  - intros Hwf Hok. destruct (any_check U (a, w)) as [[b|e] [a1 w1]] eqn:Hc; [|done].
    by eapply any_check_well_formed.
  - intros Hwf Hok. destruct (any_process U (a, w)) as [r [a1 w1]] eqn:Hp.
    by apply (any_process_preserves U _ _ _ _ _ Hp).
  - destruct (any_process U (a, w)) as [r [a1 w1]] eqn:Hp.
    by apply (any_process_preserves U _ _ _ _ _ Hp).
Qed.

(** X4. Calling [check()] again on an unchanged filesystem leaves the
    completion map as the first call left it. *)
Theorem check_twice_same_map (a : AnyTask) (w : World) b a1 w1 :
  any_check U (a, w) = (Ok b, (a1, w1)) ->
  exists b2 a2,
    any_check U (a1, w1) = (Ok b2, (a2, w1)) /\
    _checked_files (any_super a2) = _checked_files (any_super a1).
Proof.
  intros Hc.
  destruct (any_check_spec U a w) as (r & a' & Hc' & Hf & Hm & _).
  rewrite Hc in Hc'. injection Hc' as Hr Ha Hw. subst r a' w1. simpl in Hm.
  destruct (any_check_spec U a1 w) as (r2 & a2 & Hc2 & Hf2 & Hm2 & _).
  rewrite (forget_inputs _ _ Hf) in Hm2.
  rewrite (mark_all_pointwise (is_done U a1 (fs w)) (is_done U a (fs w))) in Hm2
    by (intros inp; by apply forget_is_done).
  rewrite (mark_all_again _ _ _ _ Hm) in Hm2.
  destruct r2 as [b2|e]; simpl in Hm2; [|done].
  exists b2, a2. split; [done|]. by injection Hm2.
Qed.
End check_facts.

(** ** The flag [check()] returns *)

Lemma flag_loop {T} (item : bool -> InputType -> Py (T * World) bool)
    (v : InputType -> bool) (w : World) :
  (forall acc file x1 acc' s', item acc file (x1, w) = (Ok acc', s') ->
     s'.2 = w /\ acc' = acc && v file) ->
  forall inputs acc x1 b s', for_fold inputs acc item (x1, w) = (Ok b, s') ->
    b = acc && forallb v inputs.
Proof.
  intros Hstep. induction inputs as [|file rest IH]; intros acc x1 b s' Hrun.
  - injection Hrun as <- _. by rewrite andb_true_r.
  - rewrite for_fold_cons in Hrun.
    destruct (item acc file (x1, w)) as [[acc'|e] [x2 w2]] eqn:Hi; [|done].
    destruct (Hstep _ _ _ _ _ Hi) as [Hw ->]. simpl in Hw. subst w2.
    apply IH in Hrun. rewrite Hrun. simpl. by rewrite andb_assoc.
Qed.

Ltac flag_step :=
  py_unfold; simpl;
  repeat match goal with
  | |- context [match ?r with Ok _ => _ | Raise _ => _ end] =>
      match type of r with Res string => destruct r eqn:? end
  | |- context [if exists_ ?p ?m then _ else _] => destruct (exists_ p m) eqn:?
  | |- context [if negb (exists_ ?p ?m) then _ else _] => destruct (exists_ p m) eqn:?
  end;
  simpl; try done;
  intros [= <- <-]; simpl;
  (split; [done | rewrite ?andb_true_r, ?andb_false_r; done]).

Section flag_facts.
Variable U : Collaborators.

Lemma is_done_flag_test (a : AnyTask) m inp :
  is_done U a m inp = Ok true -> flag_test U a m inp = true.
Proof.
  destruct a as [x|x|x|x|x|x]; unfold flag_test; try (by intros ->).
  - unfold is_done. py_unfold. destruct (KrakenLikeCommand.rename x inp); [|done].
    intros [= Hb]. by apply andb_true_iff in Hb as [? _].
  - unfold is_done. py_unfold. destruct (as_path inp); [|done].
    intros [= Hb]. by apply andb_true_iff in Hb as [? _].
Qed.

(** X5. The flag a returning [check()] yields is the conjunction, over the
    inputs, of the class's test: the verdict it records, except that
    [KrakenLikeCommand] and [KrakenAltoCleanUpCommand] only test that the
    file exists, whatever their content check says. *)
Theorem check_flag (a : AnyTask) (w : World) b s' :
  any_check U (a, w) = (Ok b, s') ->
  b = forallb (flag_test U a (fs w)) (input_files (any_super a)).
Proof.
  destruct a as [x|x|x|x|x|x]; unfold any_check, dispatch; simpl.
  - destruct (DownloadIIIFImageTask.check (x, w)) as [r [x' w']] eqn:Hrun.
    intros [= -> <-]. revert Hrun. unfold DownloadIIIFImageTask.check. py_unfold. simpl.
    intros Hrun. apply (flag_loop _ (flag_test U (Image x) (fs w))) in Hrun; [done|].
    intros acc file x1 acc' s1. rewrite image_check_item. unfold flag_test.
    rewrite image_is_done.
    destruct (DownloadIIIFImageTask.rename_download file) as [out|]; [|done].
    destruct (exists_ out (fs w)).
    { intros [= <- <-]. simpl. by rewrite andb_true_r. }
    destruct (DownloadIIIFImageTask.downstream_check x) as [dc|]; intros [= <- <-]; simpl.
    + split; [done|]. by destruct (dc file (fs w)), acc.
    + by rewrite andb_false_r.
  - destruct (DownloadIIIFManifestTask.check (change_ext U) (x, w)) as [r [x' w']] eqn:Hrun.
    intros [= -> <-]. revert Hrun. unfold DownloadIIIFManifestTask.check. py_unfold. simpl.
    intros Hrun. apply (flag_loop _ (flag_test U (Manifest x) (fs w))) in Hrun; [done|].
    intros acc file x1 acc' s1.
    unfold DownloadIIIFManifestTask.check_item, flag_test, is_done. flag_step.
  - destruct (KrakenLikeCommand.check (check_content U) (x, w)) as [r [x' w']] eqn:Hrun.
    intros [= -> <-]. by apply kraken_check_returns_existence in Hrun.
  - destruct (KrakenAltoCleanUpCommand.check (check_kraken_filename U) (x, w))
      as [r [x' w']] eqn:Hrun.
    intros [= -> <-]. revert Hrun. unfold KrakenAltoCleanUpCommand.check. py_unfold. simpl.
    intros Hrun. apply (flag_loop _ (flag_test U (AltoCleanUp x) (fs w))) in Hrun; [done|].
    intros acc file x1 acc' s1.
    unfold KrakenAltoCleanUpCommand.check_item, flag_test. flag_step.
  - destruct (ClearFileCommand.check (x, w)) as [r [x' w']] eqn:Hrun.
    intros [= -> <-]. revert Hrun. unfold ClearFileCommand.check. py_unfold. simpl.
    intros Hrun. apply (flag_loop _ (flag_test U (ClearFile x) (fs w))) in Hrun; [done|].
    intros acc file x1 acc' s1.
    unfold ClearFileCommand.check_item, flag_test, is_done. flag_step.
  - destruct (ExtractZoneAltoCommand.check (x, w)) as [r [x' w']] eqn:Hrun.
    intros [= -> <-]. revert Hrun. unfold ExtractZoneAltoCommand.check. py_unfold. simpl.
    intros Hrun. apply (flag_loop _ (flag_test U (ExtractZone x) (fs w))) in Hrun; [done|].
    intros acc file x1 acc' s1.
    unfold ExtractZoneAltoCommand.check_item, flag_test, is_done. flag_step.
Qed.
End flag_facts.

Section pending_facts.
Variable U : Collaborators.

Lemma forallb_elem_of {A} (f : A -> bool) (l : list A) :
  forallb f l = true <-> forall x, x ∈ l -> f x = true.
Proof.
  rewrite forallb_forall. split; intros H x Hx; apply H; by apply list_elem_of_In.
Qed.

(** Every input has a verdict once [check()] has returned. *)
Lemma any_check_verdicts a w b a1 w1 :
  any_check U (a, w) = (Ok b, (a1, w1)) ->
  forall inp, inp ∈ input_files (any_super a) ->
  exists st, is_done U a (fs w) inp = Ok st /\
             Dict.lookup inp (_checked_files (any_super a1)) = Some st.
Proof.
  intros Hc inp Hin.
  destruct (any_check_spec U a w) as (r & a' & Hrun & Hf & Hm & _).
  rewrite Hrun in Hc. injection Hc as Hr Ha Hw. subst r a' w1. simpl in Hm.
  exact (mark_all_lookup_in _ _ _ _ _ Hm Hin).
Qed.

(** X6. When [check()] leaves nothing pending it returns [True]; for the
    four classes whose flag follows the map, it returns [True] only then.
    So for these, [check()] is [True] exactly when [process()] would find
    nothing to process. *)
Theorem check_true_iff_nothing_pending (a : AnyTask) (w : World) b a1 w1 :
  well_formed (any_super a) ->
  any_check U (a, w) = (Ok b, (a1, w1)) ->
  (requires_processing (any_super a1) = [] -> b = true) /\
  (flag_follows_map a = true -> b = true -> requires_processing (any_super a1) = []).
Proof.
  intros Hwf Hc.
  pose proof (check_flag U _ _ _ _ Hc) as Hb.
  pose proof (any_check_well_formed U _ _ _ _ _ Hc Hwf) as [Hnd _].
  split.
  - intros Hnil. rewrite Hb. apply forallb_elem_of. intros inp Hin.
    destruct (any_check_verdicts _ _ _ _ _ Hc inp Hin) as (st & Hst & Hl).
    apply requires_processing_nil in Hnil.
    apply dict_elem_of_lookup in Hl; [|done].
    rewrite Forall_forall in Hnil. specialize (Hnil _ Hl). simpl in Hnil. subst st.
    by apply is_done_flag_test.
  - intros Hfollow Hflag. rewrite Hflag in Hb. symmetry in Hb. rename Hb into Htrue.
    apply requires_processing_nil, Forall_forall. intros [k v] Hkv. simpl.
    apply dict_elem_of_lookup in Hkv; [|done].
    apply (any_check_entries U _ _ _ _ _ Hc Hwf) in Hkv as [Hin Hv].
    rewrite forallb_elem_of in Htrue. specialize (Htrue _ Hin).
    destruct a; try discriminate; unfold flag_test, verdict in Htrue;
      rewrite Hv in Htrue; done.
Qed.

Lemma pending_of_zip (o : InputType -> Res bool) inputs verdicts :
  Forall2 (fun inp st => o inp = Ok st) inputs verdicts ->
  (filter (fun item : InputType * bool => negb item.2) (zip inputs verdicts)).*1 =
  filter (fun inp => o inp = Ok false) inputs.
Proof.
  induction 1 as [|inp st inputs verdicts Ho _ IH]; [done|]. simpl.
  destruct st.
  - rewrite filter_cons_False by (simpl; tauto).
    rewrite filter_cons_False by (rewrite Ho; by intros [=]). exact IH.
  - rewrite filter_cons_True by done.
    rewrite filter_cons_True by done. by rewrite fmap_cons, IH.
Qed.

(** X7. On an object fresh from its constructor whose inputs are distinct,
    the batch [process()] builds after [check()] is the list of inputs the
    class's oracle rejects, in the order of the inputs. *)
Theorem first_check_orders_batch (a : AnyTask) (w : World) b a1 w1 :
  _checked_files (any_super a) = [] ->
  NoDup (input_files (any_super a)) ->
  any_check U (a, w) = (Ok b, (a1, w1)) ->
  requires_processing (any_super a1) =
  filter (fun inp => is_done U a (fs w) inp = Ok false) (input_files (any_super a)).
Proof.
  intros Hfresh Hnd Hc.
  destruct (any_check_spec U a w) as (r & a' & Hrun & Hf & Hm & _).
  rewrite Hrun in Hc. injection Hc as Hr Ha Hw. subst r a' w1. simpl in Hm.
  rewrite Hfresh in Hm.
  assert (Hempty : forall k : InputType, k ∈ Dict.keys ([] : list (InputType * bool)) ->
                               k ∉ input_files (any_super a)).
  { intros k Hk. by apply elem_of_nil in Hk. }
  destruct (mark_all_fresh _ _ _ _ Hnd Hempty Hm) as (vs & Hd & _ & Hall).
  unfold requires_processing. rewrite Hd. simpl. by apply pending_of_zip.
Qed.
End pending_facts.

(** ** The outputs [check()] records *)

Section recorded_facts.
Variable U : Collaborators.

Lemma image_check_loop_records (x : DownloadIIIFImageTask.t) w inputs :
  forall acc x1 b x' w',
  for_fold inputs acc (DownloadIIIFImageTask.check_item x) (x1, w) = (Ok b, (x', w')) ->
  DownloadIIIFImageTask._output_files x' =
    DownloadIIIFImageTask._output_files x1 ++ filter (target_on_disk (fs w)) inputs /\
  exists targets,
    map_res DownloadIIIFImageTask.rename_download inputs = Ok targets /\
    map_res (fun file => VStr <$> DownloadIIIFImageTask.rename_download file)
      (filter (target_on_disk (fs w)) inputs)
    = Ok (VStr <$> filter (fun p => exists_ p (fs w)) targets).
Proof.
  induction inputs as [|file rest IH]; intros acc x1 b x' w' Hrun.
  - injection Hrun as _ <- _. rewrite app_nil_r. split; [done|]. by exists [].
  - rewrite for_fold_cons, image_check_item in Hrun.
    destruct (DownloadIIIFImageTask.rename_download file) as [out|] eqn:Hren; [|done].
    assert (Hdisk : target_on_disk (fs w) file = exists_ out (fs w)).
    { unfold target_on_disk. by rewrite Hren. }
    cbn [map_res]. rewrite Hren. unfold mbind, mret, Res_bind, Res_ret.
    destruct (exists_ out (fs w)) eqn:Hex.
    + apply IH in Hrun as (Hout & targets & -> & Hmap).
      rewrite filter_cons_True by (by rewrite Hdisk).
      split.
      { rewrite Hout. simpl. by rewrite <- app_assoc. }
      exists (out :: targets). split; [done|].
      rewrite filter_cons_True by (by rewrite Hex).
      cbn [map_res]. rewrite Hren, Hmap. done.
    + assert (Hrest : exists acc2 x2,
          for_fold rest acc2 (DownloadIIIFImageTask.check_item x) (x2, w) = (Ok b, (x', w')) /\
          DownloadIIIFImageTask._output_files x2 = DownloadIIIFImageTask._output_files x1).
      { destruct (DownloadIIIFImageTask.downstream_check x) as [dc|]; by eexists _, _. }
      destruct Hrest as (acc2 & x2 & Hrun2 & Hsame).
      apply IH in Hrun2 as (Hout & targets & -> & Hmap).
      rewrite filter_cons_False by (rewrite Hdisk; intros []).
      split; [by rewrite Hout, Hsame|].
      exists (out :: targets). split; [done|].
      rewrite filter_cons_False by (rewrite Hex; intros []). exact Hmap.
Qed.

(** X8. A returning [DownloadIIIFImageTask.check()] appends to the recorded
    outputs the inputs whose download target is on disk, in input order and
    with their repetitions; an input accepted by the downstream check alone
    is not recorded.  On an object fresh from its constructor, [output_files]
    is then the list of the targets found on disk. *)
Theorem image_check_records_existing (x : DownloadIIIFImageTask.t) (w : World) b x' w' :
  DownloadIIIFImageTask.check (x, w) = (Ok b, (x', w')) ->
  DownloadIIIFImageTask._output_files x' =
    DownloadIIIFImageTask._output_files x ++
    filter (target_on_disk (fs w)) (input_files (DownloadIIIFImageTask.task x)) /\
  exists targets,
    map_res DownloadIIIFImageTask.rename_download (input_files (DownloadIIIFImageTask.task x))
      = Ok targets /\
    (DownloadIIIFImageTask._output_files x = [] ->
     DownloadIIIFImageTask.output_files x' =
       Ok (VStr <$> filter (fun p => exists_ p (fs w)) targets)).
Proof.
  unfold DownloadIIIFImageTask.check. py_unfold. simpl. intros Hrun.
  apply image_check_loop_records in Hrun as (Hout & targets & Ht & Hmap).
  split; [done|]. exists targets. split; [done|]. intros Hnil.
  unfold DownloadIIIFImageTask.output_files. by rewrite Hout, Hnil.
Qed.

Lemma done_of_zip (o : InputType -> Res bool) inputs verdicts :
  Forall2 (fun inp st => o inp = Ok st) inputs verdicts ->
  (filter (fun item : InputType * bool => item.2) (zip inputs verdicts)).*1 =
  filter (fun inp => o inp = Ok true) inputs.
Proof.
  induction 1 as [|inp st inputs verdicts Ho _ IH]; [done|]. simpl.
  destruct st.
  - rewrite filter_cons_True by done.
    rewrite filter_cons_True by done. by rewrite fmap_cons, IH.
  - rewrite filter_cons_False by (simpl; tauto).
    rewrite filter_cons_False by (rewrite Ho; by intros [=]). exact IH.
Qed.

(** X9. Every returning [KrakenLikeCommand.check()] appends all the inputs
    it finds done to the recorded outputs, whether or not they are recorded
    already: on an object fresh from its constructor with distinct inputs,
    one call records the inputs found done, in input order, and a second call
    on the same filesystem records each of them once more. *)
Theorem kraken_check_records_done_again (x : KrakenLikeCommand.t) (w : World) b x1 w1 :
  _checked_files (KrakenLikeCommand.task x) = [] ->
  NoDup (input_files (KrakenLikeCommand.task x)) ->
  KrakenLikeCommand.check (check_content U) (x, w) = (Ok b, (x1, w1)) ->
  let found := filter (fun inp => is_done U (Kraken x) (fs w) inp = Ok true)
                 (input_files (KrakenLikeCommand.task x)) in
  KrakenLikeCommand._output_files x1 = KrakenLikeCommand._output_files x ++ found /\
  exists b2 x2,
    KrakenLikeCommand.check (check_content U) (x1, w1) = (Ok b2, (x2, w1)) /\
    KrakenLikeCommand._output_files x2 =
      KrakenLikeCommand._output_files x ++ found ++ found.
Proof.
  intros Hfresh Hnd Hc found.
  destruct (kraken_check_spec U x w) as (r & x' & Hrun & Hf & Hm & Hout).
  rewrite Hrun in Hc. injection Hc as Hr Hx Hw. subst r x' w1. simpl in Hm, Hout.
  rewrite Hfresh in Hm.
  assert (Hempty : forall k : InputType, k ∈ Dict.keys ([] : list (InputType * bool)) ->
                               k ∉ input_files (KrakenLikeCommand.task x)).
  { intros k Hk. by apply elem_of_nil in Hk. }
  destruct (mark_all_fresh _ _ _ _ Hnd Hempty Hm) as (vs & Hd & _ & Hall).
  simpl in Hd.
  assert (Hfound : (filter (fun item : InputType * bool => item.2)
                      (_checked_files (KrakenLikeCommand.task x1))).*1 = found).
  { rewrite Hd. by apply done_of_zip. }
  rewrite Hfound in Hout. split; [done|].
  destruct (kraken_check_spec U x1 w) as (r2 & x2 & Hrun2 & Hf2 & Hm2 & Hout2).
  assert (Hin : input_files (KrakenLikeCommand.task x1) = input_files (KrakenLikeCommand.task x)).
  { exact (forget_inputs _ _ Hf). }
  rewrite Hin in Hm2.
  rewrite (mark_all_pointwise (is_done U (Kraken x1) (fs w)) (is_done U (Kraken x) (fs w)))
    in Hm2 by (intros inp; by apply forget_is_done).
  rewrite (mark_all_again _ _ _ _ Hm) in Hm2.
  destruct r2 as [b2|e]; simpl in Hm2; [|done].
  exists b2, x2. split; [done|]. simpl in Hout2.
  injection Hm2 as Hm2. rewrite <- Hm2, Hfound in Hout2.
  by rewrite Hout2, Hout, <- app_assoc.
Qed.
End recorded_facts.

(** ** [process()] of the classes that extract and clean up *)

Section process_more.
Variable U : Collaborators.

(** What [process()] runs after its [check()]. *)
Lemma process_runs_pending (a : AnyTask) (w : World) b a1 w1 :
  well_formed (any_super a) ->
  any_check U (a, w) = (Ok b, (a1, w1)) ->
  let pending := requires_processing (any_super a1) in
  w1 = w /\ forget a1 = forget a /\ NoDup pending /\
  (forall inp, inp ∈ pending <->
     inp ∈ input_files (any_super a) /\ is_done U a (fs w) inp = Ok false) /\
  any_process U (a, w) =
    if (length pending =? 0)%nat
    then (Ok (Some true), (a1, add_stdout "Nothing to process here." w))
    else any__process U pending (a1, w).
Proof.
  intros Hwf Hc pending.
  destruct (any_check_spec U a w) as (r & a' & Hrun & Hf & _).
  assert (Hw : w1 = w) by congruence. subst w1.
  assert (Ha : a' = a1) by congruence. subst a'.
  pose proof (any_check_well_formed U _ _ _ _ _ Hc Hwf) as [Hnd _].
  split; [done|]. split; [done|].
  split; [by apply requires_processing_NoDup|]. split.
  - intros inp. unfold pending, requires_processing.
    rewrite filter_false_lookup by done.
    apply (any_check_entries U _ _ _ _ _ Hc Hwf).
  - by rewrite process_unfold, Hc.
Qed.

End process_more.

Section extract_facts.
Variable U : Collaborators.

Lemma extract_work_run p (x : ExtractZoneAltoCommand.t) w :
  ExtractZoneAltoCommand.custom_alto_zone_extraction (alto_zone_extraction U) (IStr p) (x, w) =
  (Ok tt, (x, match alto_zone_extraction U p (ExtractZoneAltoCommand.zones x) (fs w) with
              | Some (String c content) =>
                  set_fs (<[OsPath.splitext_root p +:+ ".txt" := String c content]> (fs w)) w
              | _ => w
              end)).
Proof.
  unfold ExtractZoneAltoCommand.custom_alto_zone_extraction. py_unfold. simpl.
  by destruct (alto_zone_extraction U p (ExtractZoneAltoCommand.zones x) (fs w)) as [[|c s]|].
Qed.

Lemma extract_loop batch : forall (x : ExtractZoneAltoCommand.t) w,
  sigint w = None ->
  Forall (fun inp => exists p, inp = IStr p) batch ->
  exists w',
    executor_map (ExtractZoneAltoCommand.custom_alto_zone_extraction (alto_zone_extraction U))
      batch ignore_result (x, w) = (Ok tt, (x, w')) /\
    sigint w' = None /\ stdout w' = stdout w /\ submitted w' = submitted w /\
    forall q, fs w' !! q <> fs w !! q ->
      exists p c content, IStr p ∈ batch /\
        ExtractZoneAltoCommand.rename (IStr p) = Ok q /\
        fs w' !! q = Some (String c content).
Proof.
  induction batch as [|inp rest IH]; intros x w Hsig Hall.
  - exists w. repeat split; try done.
  - apply Forall_cons in Hall as [[p ->] Hrest].
    rewrite executor_map_cons by done.
    rewrite call_run, extract_work_run. cbn [ignore_result mret Py_ret].
    set (w0 := add_call (as_item (IStr p)) w).
    change (fs w0) with (fs w).
    set (w1 := match alto_zone_extraction U p (ExtractZoneAltoCommand.zones x) (fs w) with
               | Some (String c content) =>
                   set_fs (<[OsPath.splitext_root p +:+ ".txt" := String c content]> (fs w)) w0
               | _ => w0
               end).
    assert (Hw1 : sigint w1 = None /\ stdout w1 = stdout w /\ submitted w1 = submitted w /\
              forall q, fs w1 !! q <> fs w !! q ->
                q = OsPath.splitext_root p +:+ ".txt" /\
                exists c content, fs w1 !! q = Some (String c content)).
    { subst w1.
      destruct (alto_zone_extraction U p (ExtractZoneAltoCommand.zones x) (fs w)) as [[|c s]|];
        try (by repeat split).
      split; [done|]. split; [done|]. split; [done|].
      intros q Hq. simpl in Hq.
      destruct (decide (OsPath.splitext_root p +:+ ".txt" = q)) as [<-|Hne].
      - split; [done|]. simpl. rewrite lookup_insert_eq. by eexists _, _.
      - by rewrite lookup_insert_ne in Hq. }
    destruct Hw1 as (Hs1 & Ho1 & Hsub1 & Hch1).
    destruct (IH x w1 Hs1 Hrest) as (w' & -> & Hs & Ho & Hsub & Hch).
    exists w'. split; [done|]. split; [done|].
    split; [congruence|]. split; [congruence|].
    intros q Hq.
    destruct (decide (fs w' !! q = fs w1 !! q)) as [Heq|Hne].
    + rewrite Heq in Hq. destruct (Hch1 q Hq) as (-> & c & content & Hc).
      exists p, c, content. split; [left|]. split; [done|]. by rewrite Heq.
    + destruct (Hch q Hne) as (p' & c & content & Hin & Hren & Hc).
      exists p', c, content. split; [by right|]. done.
Qed.

Lemma extract_process_unfold batch (x : ExtractZoneAltoCommand.t) w :
  ExtractZoneAltoCommand._process (alto_zone_extraction U) batch (x, w) =
  match executor_map
          (ExtractZoneAltoCommand.custom_alto_zone_extraction (alto_zone_extraction U))
          batch ignore_result (x, add_submitted batch w) with
  | (Ok _, s) => (Ok (Some true), s)
  | (Raise e, s) => (Raise e, s)
  end.
Proof.
  unfold ExtractZoneAltoCommand._process, mbind, mret, Py_bind, Py_ret, modify_world, modify.
  simpl. by destruct (executor_map _ _ _ _) as [[[]|e] s].
Qed.

Lemma extract_is_done (x : ExtractZoneAltoCommand.t) m p :
  is_done U (ExtractZone x) m (IStr p) = Ok (exists_ (OsPath.splitext_root p +:+ ".txt") m).
Proof. done. Qed.

(** X11. [ExtractZoneAltoCommand.process()] on path inputs, with no
    interrupt pending, returns [True] and only creates files: a path whose
    content differs afterwards was absent before, is the ".txt" output of one
    of the inputs, and holds a non-empty text.  No existing file is
    overwritten or removed, and no empty output is written. *)
Theorem extract_process_only_creates_outputs (x : ExtractZoneAltoCommand.t) (w : World) :
  well_formed (ExtractZoneAltoCommand.task x) ->
  sigint w = None ->
  Forall (fun inp => exists p, inp = IStr p) (input_files (ExtractZoneAltoCommand.task x)) ->
  exists a' w',
    any_process U (ExtractZone x, w) = (Ok (Some true), (a', w')) /\
    forall q, fs w' !! q <> fs w !! q ->
      fs w !! q = None /\
      exists p c content,
        IStr p ∈ input_files (ExtractZoneAltoCommand.task x) /\
        ExtractZoneAltoCommand.rename (IStr p) = Ok q /\
        fs w' !! q = Some (String c content).
Proof.
  intros Hwf Hsig Hpaths.
  destruct (any_check_returns U (ExtractZone x) w) as (b & a1 & Hc).
  { intros inp Hin. rewrite Forall_forall in Hpaths.
    destruct (Hpaths inp Hin) as [p ->]. by rewrite extract_is_done. }
  destruct (process_runs_pending U (ExtractZone x) _ _ _ _ Hwf Hc)
    as (_ & Hf & Hnd & Hpend & Hrun).
  set (pending := requires_processing (any_super a1)) in *.
  rewrite Hrun. destruct (length pending =? 0)%nat.
  { eexists _, _. split; [reflexivity|]. intros q Hq. done. }
  destruct a1 as [y|y|y|y|y|y]; try discriminate Hf.
  unfold any__process, dispatch. simpl. rewrite extract_process_unfold.
  destruct (extract_loop pending y (add_submitted pending w)) as (w' & -> & _ & _ & _ & Hch).
  { done. }
  { apply Forall_forall. intros inp Hin. apply Hpend in Hin as [Hin _].
    rewrite Forall_forall in Hpaths. by apply Hpaths. }
  eexists _, _. split; [reflexivity|]. intros q Hq.
  destruct (Hch q Hq) as (p & c & content & Hin & Hren & Hc').
  apply Hpend in Hin as [Hin Hst]. split.
  - rewrite extract_is_done in Hst. injection Hst as Hst.
    apply exists_lookup_None in Hst.
    unfold ExtractZoneAltoCommand.rename in Hren. simpl in Hren.
    injection Hren as <-. done.
  - by exists p, c, content.
Qed.
End extract_facts.

(** ** What [process()] returns *)

Lemma yields_ret {St B} (v0 : B) : yields v0 (mret v0 : Py St B).
Proof. intros s v s'. by intros [= <- _]. Qed.

Lemma yields_bind {St A B} (v0 : B) (m : Py St A) (k : A -> Py St B) :
  (forall a, yields v0 (k a)) -> yields v0 (m ≫= k).
Proof.
  intros Hk s v s'. unfold mbind, Py_bind.
  destruct (m s) as [[a|e] s1]; [apply Hk | done].
Qed.

Lemma yields_with_local {L St B} (v0 : B) (l : L) (c : Py (L * St) B) :
  yields v0 c -> yields v0 (with_local l c).
Proof.
  intros Hc s v s'. unfold with_local.
  destruct (c (l, s)) as [r [l' s1]] eqn:Hrun. intros [= -> <-]. by eapply Hc.
Qed.

Lemma yields_dispatch {T B} (inj : T -> AnyTask) (v0 : B) (m : Py (T * World) B) x :
  yields v0 m -> yields v0 (dispatch inj m x).
Proof.
  intros Hm s v s'. unfold dispatch.
  destruct (m (x, s.2)) as [r [x' w']] eqn:Hrun. intros [= -> <-]. by eapply Hm.
Qed.

Section return_facts.
Variable U : Collaborators.

Lemma any__process_yields batch (a : AnyTask) :
  forall w v s', any__process U batch (a, w) = (Ok v, s') ->
  v = if returns_none a then None else Some true.
Proof.
  intros w v s'. unfold any__process. cbn [fst].
  destruct a as [x|x|x|x|x|x]; cbn [returns_none]; apply yields_dispatch.
  - apply yields_with_local. apply yields_bind. intros _. apply yields_bind. intros got.
    apply yields_bind. intros _. apply yields_ret.
  - apply yields_bind. intros y. apply yields_bind. intros _.
    apply yields_bind. intros _. apply yields_ret.
  - apply yields_bind. intros _. apply yields_bind. intros _. apply yields_ret.
  - apply yields_bind. intros _. apply yields_bind. intros _. apply yields_ret.
  - apply yields_bind. intros _. apply yields_bind. intros _. apply yields_ret.
  - apply yields_bind. intros _. apply yields_bind. intros _. apply yields_ret.
Qed.

(** X12. What a returning [process()] returns: [True], except that a
    [KrakenLikeCommand] returns [None] whenever it had something to process
    (its [_process] has no [return]).  A caller testing the result cannot
    tell a Kraken run from a failure. *)
Theorem process_return_value (a : AnyTask) (w : World) v a' w' :
  any_process U (a, w) = (Ok v, (a', w')) ->
  v = if returns_none a && negb (bool_decide (submitted w' = submitted w))
      then None else Some true.
Proof.
  rewrite process_unfold.
  destruct (any_check_spec U a w) as (r & a1 & Hc & Hf & _). rewrite Hc.
  destruct r as [b|e]; [|done].
  destruct (length (requires_processing (any_super a1)) =? 0)%nat eqn:Hlen.
  - intros [= <- <- <-]. simpl. rewrite bool_decide_eq_true_2 by done.
    by rewrite andb_false_r.
  - intros Hp.
    pose proof (any_process_batch U (requires_processing (any_super a1)) a1 w) as Hpost.
    rewrite Hp in Hpost. destruct Hpost as (_ & _ & _ & Hsub & _). simpl in Hsub.
    apply any__process_yields in Hp.
    assert (Hkind : returns_none a1 = returns_none a).
    { destruct a, a1; try discriminate Hf; done. }
    rewrite Hkind in Hp. rewrite Hp.
    destruct Hsub as [Hsub | [_ ?]]; [|done].
    rewrite bool_decide_eq_false_2; [by rewrite andb_true_r|].
    rewrite Hsub. intros Heq.
    apply (f_equal length) in Heq. rewrite length_app in Heq.
    apply Nat.eqb_neq in Hlen. lia.
Qed.
End return_facts.

(** ** Downloads: interruption of the manifest task, results of the image task *)

Lemma write_all_is_Some partial : forall (m : gmap string string) p,
  is_Some (m !! p) \/ p ∈ partial.*1 -> is_Some (write_all partial m !! p).
Proof.
  unfold write_all.
  induction partial as [|[k c] rest IH]; intros m p Hp; simpl.
  - destruct Hp as [Hp|Hp]; [done | by apply elem_of_nil in Hp].
  - apply IH. destruct (decide (k = p)) as [->|Hne].
    + left. rewrite lookup_insert_eq. by eexists.
    + destruct Hp as [Hp|Hp].
      * left. by rewrite lookup_insert_ne.
      * right. rewrite fmap_cons in Hp. apply elem_of_cons in Hp as [Hp|Hp]; [|done].
        simpl in Hp. congruence.
Qed.

Section manifest_interrupt.
Variable U : Collaborators.

Lemma manifest_work_run (x : DownloadIIIFManifestTask.t) item w :
  DownloadIIIFManifestTask.work (download_iiif_manifest U) item (x, w)
  = (Ok item.1, (x, set_fs (download_iiif_manifest U item (fs w)) w)).
Proof. reflexivity. Qed.

Lemma manifest_run_detached (x : DownloadIIIFManifestTask.t) items : forall w,
  exists w',
    (run_detached (DownloadIIIFManifestTask.work (download_iiif_manifest U)) items (x, w)).2
    = (x, w') /\
    sigint w' = sigint w.
Proof.
  induction items as [|item rest IH]; intros w; [by exists w|].
  cbn [run_detached]. rewrite call_run, manifest_work_run. cbn [snd].
  destruct (IH (set_fs (download_iiif_manifest U item (fs (add_call (as_item item) w)))
                  (add_call (as_item item) w))) as (w' & Hrun & Hsig).
  exists w'. split; [done|]. by rewrite Hsig.
Qed.

Lemma manifest_executor_interrupted items : forall k partial
    (x : DownloadIIIFManifestTask.t) w,
  sigint w = Some (k, partial) -> (k < length items)%nat ->
  exists w',
    executor_map (DownloadIIIFManifestTask.work (download_iiif_manifest U)) items
      ignore_result (x, w)
    = (Raise KeyboardInterrupt, (x, w')) /\
    sigint w' = None /\
    exists m, fs w' = write_all partial m.
Proof.
  induction items as [|item rest IH]; intros k partial x w Hsig Hk; [simpl in Hk; lia|].
  destruct k as [|k].
  - rewrite (executor_map_interrupted _ _ _ _ _ partial) by done.
    cbn [frame_world method_frame snd].
    destruct (manifest_run_detached x (take (overrun w) (item :: rest)) w)
      as (w1 & Hrun & _).
    rewrite Hrun. cbn [frame_upd_world method_frame fst snd].
    eexists. split; [reflexivity|]. split; [done|]. by exists (fs w1).
  - rewrite (executor_map_tick _ _ _ _ _ k partial) by done.
    cbn [frame_upd_world method_frame fst snd].
    rewrite call_run, manifest_work_run. cbn [ignore_result mret Py_ret].
    apply (IH k partial); [done | simpl in Hk; lia].
Qed.

(** X13. [DownloadIIIFManifestTask._process] has no handler for Ctrl-C:
    when the interrupt arrives before the last result of the batch is taken,
    [KeyboardInterrupt] leaves the method and the partial index files that
    workers in flight have written stay on disk.  A later [check()] takes an
    input with such a file for done. *)
Theorem manifest_interrupt_leaves_partial (x : DownloadIIIFManifestTask.t)
    (batch : list InputType) (w : World) k partial :
  sigint w = Some (k, partial) ->
  (k < length batch)%nat ->
  exists w',
    DownloadIIIFManifestTask._process (change_ext U) (download_iiif_manifest U) batch (x, w)
    = (Raise KeyboardInterrupt, (x, w')) /\
    sigint w' = None /\
    (forall p, p ∈ partial.*1 -> is_Some (fs w' !! p)) /\
    (forall inp, DownloadIIIFManifestTask.rename_download (change_ext U) x inp ∈ partial.*1 ->
       is_done U (Manifest x) (fs w') inp = Ok true).
Proof.
  intros Hsig Hk.
  destruct (manifest_executor_interrupted
              ((fun file => (file, DownloadIIIFManifestTask.rename_download (change_ext U) x file))
                 <$> batch) k partial x (add_submitted batch w)) as (w' & Hrun & Hnone & m & Hm).
  { done. }
  { by rewrite length_fmap. }
  exists w'. split; [|split; [|split]].
  - unfold DownloadIIIFManifestTask._process. py_unfold.
    cbn [frame_self frame_upd_world method_frame fst snd]. rewrite Hrun. reflexivity.
  - done.
  - intros p Hp. rewrite Hm. apply write_all_is_Some. by right.
  - intros inp Hp. unfold is_done. f_equal. apply exists_lookup. simpl.
    rewrite Hm. apply write_all_is_Some. by right.
Qed.
End manifest_interrupt.

Section image_results.
Variable U : Collaborators.




End image_results.

(** ** The downstream check built by [check_downstream_task] *)

Section downstream_facts.
Variable U : Collaborators.

(** X15. The closure built by [check_downstream_task] never raises on an
    input [rename_download] accepts.  Built with the output format and the
    content check of a [KrakenLikeCommand] and passed as [downstream_check],
    it makes the image task count an input as done when its image is on disk
    or when that Kraken task would count the image as done: a page whose
    transcription exists is not downloaded again. *)
Theorem downstream_check_follows_kraken (x : DownloadIIIFImageTask.t)
    (k : KrakenLikeCommand.t) (inp : InputType) (tgt : string) (m : gmap string string) :
  let closure := check_downstream_task ("." +:+ KrakenLikeCommand._output_format k)
                   (if KrakenLikeCommand.check_content k
                    then Some (check_content U) else None) in
  DownloadIIIFImageTask.downstream_check x = Some (as_downstream_check closure) ->
  DownloadIIIFImageTask.rename_download inp = Ok tgt ->
  is_done U (Kraken k) m (IStr tgt) = closure inp m /\
  is_ok (closure inp m) = true /\
  is_done U (Image x) m inp =
    Ok (exists_ tgt m || verdict (is_done U (Kraken k) m (IStr tgt))).
Proof.
  intros closure Hdc Hren.
  assert (Hsame : is_done U (Kraken k) m (IStr tgt) = closure inp m).
  { subst closure. unfold is_done, check_downstream_task, KrakenLikeCommand.rename.
    py_unfold. simpl. rewrite Hren.
    destruct (exists_ _ m); simpl; [|done].
    by destruct (KrakenLikeCommand.check_content k). }
  split; [done|]. split.
  - rewrite <- Hsame. unfold is_done, KrakenLikeCommand.rename. by py_unfold.
  - rewrite image_is_done, Hren, Hdc. unfold as_downstream_check, verdict.
    by rewrite Hsame.
Qed.
End downstream_facts.

(** ** [os.path.splitext] and the renaming of outputs *)

Lemma append_empty_l (b : string) : "" +:+ b = b.
Proof. reflexivity. Qed.

Lemma count_char_append c (a b : string) :
  count_char c (a +:+ b) = (count_char c a + count_char c b)%nat.
Proof.
  induction a as [|x a IH]; [done|]. rewrite append_cons. simpl. rewrite IH. lia.
Qed.

Lemma rfind_append c (a b : string) :
  PyStr.rfind c (a +:+ b) =
  match PyStr.rfind c b with
  | Some i => Some (String.length a + i)%nat
  | None => PyStr.rfind c a
  end.
Proof.
  induction a as [|x a IH].
  - rewrite append_empty_l. simpl. by destruct (PyStr.rfind c b).
  - rewrite append_cons. cbn [PyStr.rfind String.length]. rewrite IH.
    by destruct (PyStr.rfind c b).
Qed.

Lemma rfind_none c (s : string) : count_char c s = 0%nat -> PyStr.rfind c s = None.
Proof.
  induction s as [|x s IH]; simpl; [done|].
  destruct (Ascii.eqb x c); [done|]. intros Hs. by rewrite IH.
Qed.

Lemma rfind_lt c (s : string) i : PyStr.rfind c s = Some i -> (i < String.length s)%nat.
Proof.
  revert i. induction s as [|x s IH]; intros i; simpl; [done|].
  destruct (PyStr.rfind c s) as [j|].
  - intros [= <-]. specialize (IH j eq_refl). lia.
  - destruct (Ascii.eqb x c); [|done]. intros [= <-]. lia.
Qed.

Lemma substring_prefix (a b : string) :
  String.substring 0 (String.length a) (a +:+ b) = a.
Proof.
  induction a as [|x a IH].
  - rewrite append_empty_l. by destruct b.
  - rewrite append_cons. simpl. by rewrite IH.
Qed.

Lemma substring_skip (a b : string) n :
  String.substring (String.length a) n (a +:+ b) = String.substring 0 n b.
Proof. induction a as [|x a IH]; [done|]. rewrite append_cons. exact IH. Qed.

Lemma append_assoc (a b c : string) : (a +:+ b) +:+ c = a +:+ (b +:+ c).
Proof. induction a as [|x a IH]; [done|]. rewrite !append_cons. by rewrite IH. Qed.

(** The index where the last path component starts, for a directory prefix
    that is empty or ends with a slash, followed by a name without slash. *)
Lemma filename_index (dir rest : string) :
  dir = "" \/ (exists d, dir = d +:+ "/") ->
  count_char "/" rest = 0%nat ->
  match PyStr.rfind "/" (dir +:+ rest) with
  | Some sepIndex => S sepIndex
  | None => 0%nat
  end = String.length dir.
Proof.
  intros Hdir Hrest. rewrite rfind_append, (rfind_none _ _ Hrest).
  destruct Hdir as [->|[d ->]]; [done|].
  rewrite rfind_append. simpl. rewrite length_append. simpl. lia.
Qed.

Lemma splitext_root_ext (dir name ext : string) :
  dir = "" \/ (exists d, dir = d +:+ "/") ->
  PyStr.all_chars "." name = false ->
  count_char "/" name = 0%nat ->
  count_char "." ext = 0%nat -> count_char "/" ext = 0%nat ->
  OsPath.splitext_root (dir +:+ name +:+ "." +:+ ext) = dir +:+ name.
Proof.
  intros Hdir Hname Hslash Hdot Hslash'. unfold OsPath.splitext_root.
  assert (Hlast : PyStr.rfind "." ("." +:+ ext) = Some 0%nat).
  { change ("." +:+ ext) with (String "." ext). simpl. by rewrite (rfind_none _ _ Hdot). }
  assert (Hdotidx : PyStr.rfind "." (dir +:+ name +:+ "." +:+ ext) =
                    Some (String.length dir + String.length name)%nat).
  { rewrite (rfind_append _ dir), (rfind_append _ name), Hlast. f_equal. lia. }
  rewrite Hdotidx.
  rewrite filename_index; [|done|].
  2:{ rewrite !count_char_append, Hslash, Hslash'. done. }
  replace (String.length dir <=? String.length dir + String.length name)%nat
    with true by (symmetry; apply Nat.leb_le; lia).
  unfold PyStr.slice, PyStr.take.
  replace (String.length dir + String.length name - String.length dir)%nat
    with (String.length name) by lia.
  rewrite substring_skip, substring_prefix, Hname.
  replace (String.length dir + String.length name)%nat
    with (String.length (dir +:+ name)) by (rewrite length_append; lia).
  by rewrite <- append_assoc, substring_prefix.
Qed.

Lemma splitext_root_plain (dir name : string) :
  dir = "" \/ (exists d, dir = d +:+ "/") ->
  count_char "." name = 0%nat -> count_char "/" name = 0%nat ->
  OsPath.splitext_root (dir +:+ name) = dir +:+ name.
Proof.
  intros Hdir Hdot Hslash. unfold OsPath.splitext_root.
  rewrite filename_index by done.
  rewrite rfind_append, (rfind_none _ _ Hdot).
  destruct (PyStr.rfind "." dir) as [i|] eqn:Hi; [|done].
  apply rfind_lt in Hi.
  replace (String.length dir <=? i)%nat with false; [done|].
  symmetry. apply Nat.leb_gt. lia.
Qed.

(** X16. Renaming replaces the extension.  For a path made of a directory
    prefix (empty or ending with a slash), a file name without slash that is
    not made of dots only, and an extension without dot or slash:
    [KrakenLikeCommand.rename] yields the same path with the output format
    as extension and [ExtractZoneAltoCommand.rename] the same with ".txt".
    A path whose file name has no dot gets the extension appended. *)
Theorem rename_replaces_extension (x : KrakenLikeCommand.t) (dir name ext : string) :
  dir = "" \/ (exists d, dir = d +:+ "/") ->
  count_char "/" name = 0%nat ->
  (PyStr.all_chars "." name = false ->
   count_char "." ext = 0%nat -> count_char "/" ext = 0%nat ->
   KrakenLikeCommand.rename x (IStr (dir +:+ name +:+ "." +:+ ext)) =
     Ok ((dir +:+ name) +:+ "." +:+ KrakenLikeCommand._output_format x) /\
   ExtractZoneAltoCommand.rename (IStr (dir +:+ name +:+ "." +:+ ext)) =
     Ok ((dir +:+ name) +:+ ".txt")) /\
  (count_char "." name = 0%nat ->
   KrakenLikeCommand.rename x (IStr (dir +:+ name)) =
     Ok ((dir +:+ name) +:+ "." +:+ KrakenLikeCommand._output_format x) /\
   ExtractZoneAltoCommand.rename (IStr (dir +:+ name)) = Ok ((dir +:+ name) +:+ ".txt")).
Proof.
  intros Hdir Hslash. split.
  - intros Hname Hdot Hslash'.
    unfold KrakenLikeCommand.rename, ExtractZoneAltoCommand.rename. simpl.
    unfold mret, Res_ret. by rewrite splitext_root_ext.
  - intros Hdot.
    unfold KrakenLikeCommand.rename, ExtractZoneAltoCommand.rename. simpl.
    unfold mret, Res_ret. by rewrite splitext_root_plain.
Qed.

(** ** The command line of a template of the documented shape *)

Lemma count_char_cons_0 c x (s : string) :
  count_char c (String x s) = 0%nat -> Ascii.eqb x c = false /\ count_char c s = 0%nat.
Proof. simpl. destruct (Ascii.eqb x c); [done|]. intros Hs. by split. Qed.

Lemma replace_scan_app_clean o new (p s : string) :
  count_char "$" p = 0%nat ->
  PyStr.replace_scan (String "$" o) new (p +:+ s) 0 =
  p +:+ PyStr.replace_scan (String "$" o) new s 0.
Proof.
  induction p as [|x p IH]; intros Hp; [done|].
  apply count_char_cons_0 in Hp as [Hx Hp].
  rewrite !append_cons, replace_scan_next; [by rewrite IH|].
  cbn [PyStr.startswith]. by rewrite Ascii.eqb_sym, Hx.
Qed.

Lemma replace_scan_clean o new (s : string) :
  count_char "$" s = 0%nat -> PyStr.replace_scan (String "$" o) new s 0 = s.
Proof.
  induction s as [|x s IH]; intros Hs; [done|].
  apply count_char_cons_0 in Hs as [Hx Hs].
  rewrite replace_scan_next; [by rewrite IH|].
  cbn [PyStr.startswith]. by rewrite Ascii.eqb_sym, Hx.
Qed.

Lemma startswith_before_other (p m r : string) c :
  count_char c p = 0%nat ->
  PyStr.startswith p (m +:+ String c r) = PyStr.startswith p m.
Proof.
  revert m. induction p as [|a p IH]; intros m Hp; [done|].
  apply count_char_cons_0 in Hp as [Ha Hp].
  destruct m as [|b m].
  - rewrite append_empty_l. cbn [PyStr.startswith]. by rewrite Ha.
  - rewrite append_cons. cbn [PyStr.startswith].
    destruct (Ascii.eqb a b); [by apply IH | done].
Qed.

(** X17. For a template of the documented shape, one "$" for the input
    followed later by one "$out" for the output and no other "$", and an
    output path free of "$", the command line is the template with the input
    path in place of "$" and the output path in place of "$out".  The input
    path itself may contain "$". *)
Theorem command_line_of_template (x : KrakenLikeCommand.t) (pre mid post sample : string) :
  command (KrakenLikeCommand.task x) = Some (pre +:+ "$" +:+ mid +:+ "$out" +:+ post) ->
  count_char "$" pre = 0%nat -> count_char "$" mid = 0%nat -> count_char "$" post = 0%nat ->
  PyStr.startswith "out" mid = false ->
  let out := OsPath.splitext_root sample +:+ "." +:+ KrakenLikeCommand._output_format x in
  count_char "$" out = 0%nat ->
  KrakenLikeCommand.command_line x (IStr sample) =
    Ok (pre +:+ sample +:+ mid +:+ out +:+ post).
Proof.
  intros Hcmd Hpre Hmid Hpost Hstart out Hout.
  unfold KrakenLikeCommand.command_line. rewrite Hcmd.
  unfold KrakenLikeCommand.rename, as_path, mbind, mret, Res_bind, Res_ret.
  cbn beta iota. fold out. f_equal.
  assert (Hstep1 : PyStr.replace "$out" out (pre +:+ "$" +:+ mid +:+ "$out" +:+ post) =
                   pre +:+ "$" +:+ mid +:+ out +:+ post).
  { change (PyStr.replace "$out" out ?s) with (PyStr.replace_scan "$out" out s 0).
    rewrite replace_scan_app_clean by done.
    change ("$" +:+ ?s) with (String "$" s).
    rewrite replace_scan_next.
    2:{ change (PyStr.startswith "$out" (String "$" ?s)) with (PyStr.startswith "out" s).
        change ("$out" +:+ post) with (String "$" ("out" +:+ post)).
        by rewrite startswith_before_other. }
    rewrite replace_scan_app_clean by done.
    rewrite replace_scan_here by done.
    by rewrite replace_scan_clean. }
  rewrite Hstep1.
  change (PyStr.replace "$" sample ?s) with (PyStr.replace_scan "$" sample s 0).
  rewrite replace_scan_app_clean by done.
  rewrite replace_scan_here by done.
  rewrite replace_scan_clean; [done|].
  rewrite !count_char_append, Hmid, Hout, Hpost. done.
Qed.

(** ** Inputs the class cannot handle *)

Lemma mark_all_raises (o : InputType -> Res bool) inputs : forall d inp,
  inp ∈ inputs -> is_ok (o inp) = false ->
  exists e bad, mark_all o inputs d = Raise e /\ bad ∈ inputs /\ o bad = Raise e.
Proof.
  induction inputs as [|i rest IH]; intros d inp Hin Hbad.
  - by apply elem_of_nil in Hin.
  - simpl. destruct (o i) as [st|e] eqn:Hi.
    + apply elem_of_cons in Hin as [->|Hin]; [by rewrite Hi in Hbad|].
      destruct (IH (Dict.set i st d) inp Hin Hbad) as (e & bad & Hm & Hb & Ho).
      exists e, bad. split; [done|]. split; [by right | done].
    + exists e, i. split; [done|]. split; [left | done].
Qed.

Section bad_input.
Variable U : Collaborators.

Lemma is_done_raises (a : AnyTask) m inp e :
  is_done U a m inp = Raise e ->
  e = match a with Image _ => IndexError | _ => TypeError end.
Proof.
  destruct a as [x|x|x|x|x|x]; unfold is_done; py_unfold.
  - destruct (DownloadIIIFImageTask.rename_download inp) eqn:Hren; [done|].
    intros [= <-]. by eapply rename_download_raise.
  - done.
  - unfold KrakenLikeCommand.rename. py_unfold. destruct inp; [done | by intros [= <-]].
  - destruct inp; [done | by intros [= <-]].
  - destruct inp; [done | by intros [= <-]].
  - unfold ExtractZoneAltoCommand.rename. py_unfold. destruct inp; [done | by intros [= <-]].
Qed.

(** X18. An input the class cannot name stops everything: when the oracle
    raises on some input, as for a URI with too few components given to the
    image task or a tuple given to a class that expects paths, [check()]
    raises and so does [process()], with [IndexError] for the image task and
    [TypeError] for the others; nothing is printed, submitted or written,
    whatever the other inputs are. *)
Theorem process_raises_on_bad_input (a : AnyTask) (w : World) (inp : InputType) :
  inp ∈ input_files (any_super a) ->
  is_ok (is_done U a (fs w) inp) = false ->
  exists e a',
    any_check U (a, w) = (Raise e, (a', w)) /\
    any_process U (a, w) = (Raise e, (a', w)) /\
    forget a' = forget a /\
    e = match a with Image _ => IndexError | _ => TypeError end.
Proof.
  intros Hin Hbad.
  destruct (any_check_spec U a w) as (r & a' & Hc & Hf & Hm & _).
  destruct (mark_all_raises (is_done U a (fs w)) _ (_checked_files (any_super a)) inp Hin Hbad)
    as (e & bad & Hmark & _ & Hraise).
  destruct r as [b|e']; simpl in Hm; [congruence|].
  assert (e' = e) as -> by congruence.
  exists e, a'. split; [done|]. split; [by rewrite process_unfold, Hc|].
  split; [done|]. by eapply is_done_raises.
Qed.
End bad_input.

(** ** [KrakenAltoCleanUpCommand.process()] *)

Section cleanup_facts.
Variable U : Collaborators.

Lemma cleanup_work_run p (x : KrakenAltoCleanUpCommand.t) w :
  KrakenAltoCleanUpCommand.work (clean_kraken_filename U) (IStr p) (x, w) =
  (Ok tt, (x, set_fs (clean_kraken_filename U p (fs w)) w)).
Proof. unfold KrakenAltoCleanUpCommand.work. by py_unfold. Qed.

(** The clean-up of a batch, one path after the other. *)
Lemma cleanup_loop batch : forall (x : KrakenAltoCleanUpCommand.t) w,
  sigint w = None ->
  Forall (fun inp => exists p, inp = IStr p) batch ->
  exists w',
    executor_map (KrakenAltoCleanUpCommand.work (clean_kraken_filename U)) batch
      ignore_result (x, w) = (Ok tt, (x, w')) /\
    sigint w' = None /\ stdout w' = stdout w /\ submitted w' = submitted w /\
    fs w' = foldl (fun m inp => clean_kraken_filename U (path_of inp) m) (fs w) batch /\
    calls w' = calls w ++ (Plain <$> batch).
Proof.
  induction batch as [|inp rest IH]; intros x w Hsig Hall.
  - exists w. by rewrite app_nil_r.
  - apply Forall_cons in Hall as [[p ->] Hrest].
    rewrite executor_map_cons by done.
    rewrite call_run, cleanup_work_run. cbn [ignore_result mret Py_ret].
    set (w0 := add_call (as_item (IStr p)) w). change (fs w0) with (fs w).
    destruct (IH x (set_fs (clean_kraken_filename U p (fs w)) w0) Hsig Hrest)
      as (w' & -> & Hs & Ho & Hsub & Hfs & Hcalls).
    exists w'. split; [done|]. split; [done|]. split; [done|]. split; [done|].
    split; [by rewrite Hfs|].
    rewrite Hcalls. csimpl. by rewrite <- app_assoc.
Qed.

Lemma cleanup_process_unfold batch (x : KrakenAltoCleanUpCommand.t) w :
  KrakenAltoCleanUpCommand._process (clean_kraken_filename U) batch (x, w) =
  match executor_map (KrakenAltoCleanUpCommand.work (clean_kraken_filename U)) batch
          ignore_result (x, add_submitted batch w) with
  | (Ok _, s) => (Ok (Some true), s)
  | (Raise e, s) => (Raise e, s)
  end.
Proof.
  unfold KrakenAltoCleanUpCommand._process, mbind, mret, Py_bind, Py_ret, modify_world, modify.
  simpl. by destruct (executor_map _ _ _ _) as [[[]|e] s].
Qed.

(** X20. [KrakenAltoCleanUpCommand.process()] on path inputs, with a pool of
    one worker and no interrupt pending, returns [True] after calling
    [utils.clean_kraken_filename] on the pending inputs, one after the other
    in the order of the completion map, and on nothing else.  A missing file
    is pending, so it is handed to the clean-up as well.  With more workers
    the calls overlap and the filesystem they leave is not determined by
    their order in the batch. *)
Theorem cleanup_process_cleans_pending (x : KrakenAltoCleanUpCommand.t) (w : World) :
  well_formed (KrakenAltoCleanUpCommand.task x) ->
  workers (KrakenAltoCleanUpCommand.task x) = 1%nat ->
  sigint w = None ->
  Forall (fun inp => exists p, inp = IStr p) (input_files (KrakenAltoCleanUpCommand.task x)) ->
  exists b a1 a' w',
    any_check U (AltoCleanUp x, w) = (Ok b, (a1, w)) /\
    any_process U (AltoCleanUp x, w) = (Ok (Some true), (a', w')) /\
    calls w' = calls w ++ (Plain <$> requires_processing (any_super a1)) /\
    fs w' = foldl (fun m inp => clean_kraken_filename U (path_of inp) m) (fs w)
              (requires_processing (any_super a1)) /\
    (forall p, IStr p ∈ input_files (KrakenAltoCleanUpCommand.task x) ->
       fs w !! p = None -> IStr p ∈ requires_processing (any_super a1)).
Proof.
  intros Hwf _ Hsig Hpaths.
  destruct (any_check_returns U (AltoCleanUp x) w) as (b & a1 & Hc).
  { intros inp Hin. rewrite Forall_forall in Hpaths.
    by destruct (Hpaths inp Hin) as [p ->]. }
  destruct (process_runs_pending U (AltoCleanUp x) _ _ _ _ Hwf Hc)
    as (_ & Hf & Hnd & Hpend & Hrun).
  set (pending := requires_processing (any_super a1)) in *.
  assert (Hmissing : forall p, IStr p ∈ input_files (KrakenAltoCleanUpCommand.task x) ->
                               fs w !! p = None -> IStr p ∈ pending).
  { intros p Hin Hp. apply Hpend. split; [done|].
    unfold is_done. py_unfold. simpl. apply exists_lookup_None in Hp. by rewrite Hp. }
  subst pending.
  exists b, a1. rewrite Hrun.
  destruct (length (requires_processing (any_super a1)) =? 0)%nat eqn:Hlen.
  { apply Nat.eqb_eq, nil_length_inv in Hlen.
    eexists _, _. split; [done|]. split; [reflexivity|].
    split; [by rewrite Hlen, app_nil_r|].
    split; [by rewrite Hlen | exact Hmissing]. }
  destruct a1 as [y|y|y|y|y|y]; try discriminate Hf.
  unfold any__process, dispatch. simpl. rewrite cleanup_process_unfold.
  destruct (cleanup_loop (requires_processing (KrakenAltoCleanUpCommand.task y)) y
              (add_submitted (requires_processing (KrakenAltoCleanUpCommand.task y)) w))
    as (w' & -> & _ & _ & _ & Hfs & Hcalls).
  { done. }
  { apply Forall_forall. intros inp Hin. apply Hpend in Hin as [Hin _].
    rewrite Forall_forall in Hpaths. by apply Hpaths. }
  eexists _, _. split; [done|]. split; [reflexivity|].
  split; [exact Hcalls|]. split; [exact Hfs | exact Hmissing].
Qed.
End cleanup_facts.

(** ** The further theorems at work *)

Lemma check_refreshes_every_entry_witness :
  let a := Kraken (ocr_task ["a.png"; "b.png"] true false) in
  let w := disk [("a.xml", "<alto/>")] in
  Dict.lookup (IStr "b.png") (_checked_files (any_super (any_check toy (a, w)).2.1))
  = Some false.
Proof.
  intros a w.
  apply (proj2 (check_refreshes_every_entry toy a w false (any_check toy (a, w)).2.1 w
                  ltac:(by apply well_formed_init) ltac:(vm_compute; reflexivity)
                  (IStr "b.png") false)).
  split; [|vm_compute; reflexivity].
  apply (bool_decide_unpack _). vm_compute. exact I.
Defined.

Lemma completion_map_invariant_witness :
  let a := Kraken (ocr_task ["a.png"; "b.png"] true false) in
  let w := disk [("a.xml", "<alto/>")] in
  well_formed (any_super (any_process toy (a, w)).2.1).
Proof.
  intros a w.
  apply (proj1 (proj2 (proj2 (completion_map_invariant toy a w))));
    [by apply well_formed_init | vm_compute; reflexivity].
Defined.

Lemma check_twice_same_map_witness :
  let a := Kraken (ocr_task ["a.png"; "b.png"] true false) in
  let w := disk [("a.xml", "<alto/>")] in
  let a1 := (any_check toy (a, w)).2.1 in
  exists b2 a2,
    any_check toy (a1, w) = (Ok b2, (a2, w)) /\
    _checked_files (any_super a2) = _checked_files (any_super a1).
Proof.
  intros a w a1.
  apply (check_twice_same_map toy a w false a1 w). vm_compute. reflexivity.
Defined.

Lemma check_flag_witness :
  let a := Kraken (ocr_task ["a.png"; "b.png"] true true) in
  let w := disk [("a.xml", "<alt"); ("b.xml", "<alto/>")] in
  true = forallb (flag_test toy a (fs w)) (input_files (any_super a)) /\
  Dict.lookup (IStr "a.png") (_checked_files (any_super (any_check toy (a, w)).2.1))
  = Some false.
Proof.
  intros a w. split; [|vm_compute; reflexivity].
  apply (check_flag toy a w true (any_check toy (a, w)).2). vm_compute. reflexivity.
Defined.

Lemma check_true_iff_nothing_pending_witness :
  let a := ExtractZone (extract_task ["a.xml"; "b.xml"]) in
  let w := disk [("a.txt", "text"); ("b.txt", "text")] in
  requires_processing (any_super (any_check toy (a, w)).2.1) = [].
Proof.
  intros a w.
  apply (proj2 (check_true_iff_nothing_pending toy a w true (any_check toy (a, w)).2.1 w
                  ltac:(by apply well_formed_init) ltac:(vm_compute; reflexivity)));
    reflexivity.
Defined.

Lemma first_check_orders_batch_witness :
  let a := ClearFile (clear_task ["c.jpg"; "a.jpg"; "b.jpg"]) in
  let w := disk [("b.jpg", "jpeg"); ("c.jpg", "jpeg")] in
  requires_processing (any_super (any_check toy (a, w)).2.1) =
  filter (fun inp => is_done toy a (fs w) inp = Ok false) (input_files (any_super a)).
Proof.
  intros a w.
  apply (first_check_orders_batch toy a w false (any_check toy (a, w)).2.1 w).
  - reflexivity.
  - apply (bool_decide_unpack _). vm_compute. exact I.
  - vm_compute. reflexivity.
Defined.

Lemma image_check_records_existing_witness :
  let x := image_task None in
  let w := disk [("out/f7.jpg", "jpeg")] in
  DownloadIIIFImageTask._output_files (DownloadIIIFImageTask.check (x, w)).2.1 =
    DownloadIIIFImageTask._output_files x ++
    filter (target_on_disk (fs w)) (input_files (DownloadIIIFImageTask.task x)).
Proof.
  intros x w.
  apply (proj1 (image_check_records_existing x w true
                  (DownloadIIIFImageTask.check (x, w)).2.1 w ltac:(vm_compute; reflexivity))).
Defined.

Lemma kraken_check_records_done_again_witness :
  let x := ocr_task ["a.png"; "b.png"] true false in
  let w := disk [("a.xml", "<alto/>")] in
  let x1 := (KrakenLikeCommand.check (check_content toy) (x, w)).2.1 in
  let found := filter (fun inp => is_done toy (Kraken x) (fs w) inp = Ok true)
                 (input_files (KrakenLikeCommand.task x)) in
  KrakenLikeCommand._output_files x1 = KrakenLikeCommand._output_files x ++ found /\
  exists b2 x2,
    KrakenLikeCommand.check (check_content toy) (x1, w) = (Ok b2, (x2, w)) /\
    KrakenLikeCommand._output_files x2 =
      KrakenLikeCommand._output_files x ++ found ++ found.
Proof.
  intros x w x1.
  apply (kraken_check_records_done_again toy x w false x1 w).
  - reflexivity.
  - apply (bool_decide_unpack _). vm_compute. exact I.
  - vm_compute. reflexivity.
Defined.

Lemma extract_process_only_creates_outputs_witness :
  let x := extract_task ["a.xml"; "b.xml"] in
  let w := disk [("a.xml", "<alto>text</alto>"); ("b.txt", "kept")] in
  exists a' w',
    any_process toy (ExtractZone x, w) = (Ok (Some true), (a', w')) /\
    forall q, fs w' !! q <> fs w !! q ->
      fs w !! q = None /\
      exists p c content,
        IStr p ∈ input_files (ExtractZoneAltoCommand.task x) /\
        ExtractZoneAltoCommand.rename (IStr p) = Ok q /\
        fs w' !! q = Some (String c content).
Proof.
  intros x w.
  apply (extract_process_only_creates_outputs toy x w).
  - by apply well_formed_init.
  - reflexivity.
  - repeat constructor; by eexists.
Defined.

Lemma process_return_value_witness :
  let a := Kraken (ocr_task ["a.png"] true false) in
  let out := any_process toy (a, empty_world) in
  out.1 = Ok None /\
  None = (if returns_none a && negb (bool_decide (submitted out.2.2 = submitted empty_world))
          then None else Some true).
Proof.
  intros a out. split; [vm_compute; reflexivity|].
  apply (process_return_value toy a empty_world None out.2.1 out.2.2).
  vm_compute. reflexivity.
Defined.

Lemma manifest_interrupt_leaves_partial_witness :
  let x := manifest_task ["m1"; "m2"] in
  let w := mkWorld ∅ [] [] (Some (1%nat, [("idx/m2.csv", "u/1/2")])) in
  exists w',
    DownloadIIIFManifestTask._process (change_ext toy) (download_iiif_manifest toy)
      [IStr "m1"; IStr "m2"] (x, w)
    = (Raise KeyboardInterrupt, (x, w')) /\
    sigint w' = None /\
    (forall p, p ∈ [("idx/m2.csv", "u/1/2")].*1 -> is_Some (fs w' !! p)) /\
    (forall inp, DownloadIIIFManifestTask.rename_download (change_ext toy) x inp
                   ∈ [("idx/m2.csv", "u/1/2")].*1 ->
       is_done toy (Manifest x) (fs w') inp = Ok true).
Proof.
  intros x w.
  apply (manifest_interrupt_leaves_partial toy x [IStr "m1"; IStr "m2"] w 1
           [("idx/m2.csv", "u/1/2")]).
  - reflexivity.
  - simpl. lia.
Defined.


Lemma downstream_check_follows_kraken_witness :
  let k := ocr_task [] true false in
  let x := image_task (Some (as_downstream_check (check_downstream_task ".xml" None))) in
  let m : gmap string string := {[ "out/f7.xml" := "<alto/>" ]} in
  is_done toy (Image x) m page_f7 = Ok true.
Proof.
  intros k x m.
  apply (proj2 (proj2 (downstream_check_follows_kraken toy x k page_f7 "out/f7.jpg" m
                         eq_refl eq_refl))).
Defined.

Lemma rename_replaces_extension_witness :
  KrakenLikeCommand.rename (ocr_task [] true false) (IStr "scans/vol.1/p1.png")
  = Ok "scans/vol.1/p1.xml" /\
  ExtractZoneAltoCommand.rename (IStr "scans/vol.1/p1") = Ok "scans/vol.1/p1.txt".
Proof.
  split.
  - apply (proj1 (proj1 (rename_replaces_extension (ocr_task [] true false)
                           "scans/vol.1/" "p1" "png"
                           ltac:(right; by exists "scans/vol.1") eq_refl)
                   eq_refl eq_refl eq_refl)).
  - apply (proj2 (proj2 (rename_replaces_extension (ocr_task [] true false)
                           "scans/vol.1/" "p1" "png"
                           ltac:(right; by exists "scans/vol.1") eq_refl)
                   eq_refl)).
Defined.

Lemma command_line_of_template_witness :
  KrakenLikeCommand.command_line (ocr_task ["scans/p1.png"] true false)
    (IStr "scans/p1.png")
  = Ok "ocr scans/p1.png -o scans/p1.xml".
Proof.
  apply (command_line_of_template (ocr_task ["scans/p1.png"] true false)
           "ocr " " -o " "" "scans/p1.png" eq_refl eq_refl eq_refl eq_refl eq_refl eq_refl).
Defined.

Lemma process_raises_on_bad_input_witness :
  let a := Image (DownloadIIIFImageTask.__init__
                    [page_f7; IPair "https://h/short.jpg" "out"] None None None) in
  exists e a',
    any_check toy (a, empty_world) = (Raise e, (a', empty_world)) /\
    any_process toy (a, empty_world) = (Raise e, (a', empty_world)) /\
    forget a' = forget a /\
    e = IndexError.
Proof.
  intros a.
  apply (process_raises_on_bad_input toy a empty_world (IPair "https://h/short.jpg" "out")).
  - apply (bool_decide_unpack _). vm_compute. exact I.
  - vm_compute. reflexivity.
Defined.

Lemma cleanup_process_cleans_pending_witness :
  let x := KrakenAltoCleanUpCommand.mk (Task_init [IStr "a.xml"; IStr "b.xml"] None None) in
  let w := disk [("a.xml", "<alto/>")] in
  exists b a1 a' w',
    any_check toy (AltoCleanUp x, w) = (Ok b, (a1, w)) /\
    any_process toy (AltoCleanUp x, w) = (Ok (Some true), (a', w')) /\
    calls w' = calls w ++ (Plain <$> requires_processing (any_super a1)) /\
    fs w' = foldl (fun m inp => clean_kraken_filename toy (path_of inp) m) (fs w)
              (requires_processing (any_super a1)) /\
    (forall p, IStr p ∈ input_files (KrakenAltoCleanUpCommand.task x) ->
       fs w !! p = None -> IStr p ∈ requires_processing (any_super a1)).
Proof.
  intros x w.
  apply (cleanup_process_cleans_pending toy x w).
  - by apply well_formed_init.
  - reflexivity.
  - reflexivity.
  - repeat constructor; by eexists.
Defined.
